(** * A shallow embedding of [model.py]: a small GPT-style transformer

    The development follows the layout of the Python module: first the
    fragment of the tensor library the model calls into (broadcasting
    arithmetic, [matmul], [softmax], [masked_fill_], [cat], ...), then one
    Rocq [Module] per Python class, each with its [__init__] and [forward].

    Tensors carry their shape explicitly and their elements as an index
    function, so that shape errors raised by the library are observable
    ([Err]) exactly where the library raises them.  Tensor elements live in
    an abstract scalar type (class [Scalar]); random draws (dropout masks,
    initial weights, multinomial sampling) come from an abstract generator
    that is threaded through a state-and-error monad together with the
    store of parameter objects. *)

From Stdlib Require Import List Arith Lia ZArith Bool String Reals Lra.
From stdpp Require Import gmap.
Import ListNotations.

Set Implicit Arguments.

(* ================================================================= *)
(** * Scalars *)

(** The element type of floating tensors and the operations the model
    uses on it.  [lit m e] is the decimal literal [m]e[e] (so [lit (-1) 10]
    is the literal [-1e10] and [lit 1 (-5)] is [1e-05]). *)
Class Scalar (F : Type) := {
  fzero : F;
  fone : F;
  fadd : F -> F -> F;
  fsub : F -> F -> F;
  fmul : F -> F -> F;
  fdiv : F -> F -> F;
  fsqrt : F -> F;
  fexp : F -> F;
  fgelu : F -> F;
  of_nat : nat -> F;
  lit : Z -> Z -> F;
  feqb : F -> F -> bool
}.

(* ================================================================= *)
(** * Errors *)

(** The library operation that rejected the shapes of its operands. *)
Inductive op : Set :=
  | OpAdd | OpSub | OpMul | OpDiv
  | OpMatmul | OpLinear | OpMaskedFill | OpCat | OpMultinomial.

(** The Python exceptions the modelled code can raise. *)
Inductive error : Set :=
  | IndexError
  | ZeroDivisionError
  | AttributeError
  | RuntimeError (o : op).

Inductive result (A : Type) : Type :=
  | Ok (a : A)
  | Err (e : error).
Arguments Ok {A} a.
Arguments Err {A} e.

Definition rbind {A B : Type} (r : result A) (f : A -> result B) : result B :=
  match r with
  | Ok a => f a
  | Err e => Err e
  end.

(* ================================================================= *)
(** * Tensors *)

Section TENSOR.
Context {F : Type} `{Scalar F}.

(** A floating tensor of rank at most three.  A tensor of lower rank is
    stored with leading dimensions [1], which is how the library aligns
    shapes when it broadcasts. *)
Record Tensor : Type := mkT {
  d0 : nat;
  d1 : nat;
  d2 : nat;
  el : nat -> nat -> nat -> F
}.

(** A boolean tensor, as produced by the comparison [M == 1]. *)
Record BoolTensor : Type := mkB {
  b0 : nat;
  b1 : nat;
  b2 : nat;
  bel : nat -> nat -> nat -> bool
}.

(** An integer tensor of token ids: rank one ([Tok1]) or rank two
    ([Tok2 batch seq_len]). *)
Inductive Tokens : Type :=
  | Tok1 (l : list nat)
  | Tok2 (batch seq_len : nat) (tok : nat -> nat -> nat).

Definition shape (t : Tensor) : nat * nat * nat := (d0 t, d1 t, d2 t).

(** Two tensors are the same tensor when they have the same shape and
    the same elements at every index inside the shape. *)
Definition tensor_eq (x y : Tensor) : Prop :=
  shape x = shape y /\
  forall i j k, i < d0 x -> j < d1 x -> k < d2 x -> el x i j k = el y i j k.

(** [sum_n n f] is [f 0 + f 1 + ... + f (n-1)]. *)
Fixpoint sum_n (n : nat) (f : nat -> F) : F :=
  match n with
  | 0 => fzero
  | S m => fadd (sum_n m f) (f m)
  end.

(** ** Broadcasting *)

(** The broadcast of two dimension sizes: equal sizes, or one of them 1. *)
Definition bdim (a b : nat) : option nat :=
  if a =? b then Some a
  else if a =? 1 then Some b
  else if b =? 1 then Some a
  else None.

(** The index read from a dimension of size [a] when the result index is
    [i]: a dimension of size 1 is repeated. *)
Definition bidx (a i : nat) : nat := if a =? 1 then 0 else i.

Definition broadcast2 (o : op) (f : F -> F -> F) (x y : Tensor) : result Tensor :=
  match bdim (d0 x) (d0 y), bdim (d1 x) (d1 y), bdim (d2 x) (d2 y) with
  | Some a, Some b, Some c =>
      Ok (mkT a b c (fun i j k =>
            f (el x (bidx (d0 x) i) (bidx (d1 x) j) (bidx (d2 x) k))
              (el y (bidx (d0 y) i) (bidx (d1 y) j) (bidx (d2 y) k))))
  | _, _, _ => Err (RuntimeError o)
  end.

Definition tadd : Tensor -> Tensor -> result Tensor := broadcast2 OpAdd fadd.
Definition tsub : Tensor -> Tensor -> result Tensor := broadcast2 OpSub fsub.
Definition tmul : Tensor -> Tensor -> result Tensor := broadcast2 OpMul fmul.
Definition tdiv : Tensor -> Tensor -> result Tensor := broadcast2 OpDiv fdiv.

(** Element-wise application of a function, and tensor-with-number
    arithmetic. *)
Definition tmap (f : F -> F) (x : Tensor) : Tensor :=
  mkT (d0 x) (d1 x) (d2 x) (fun i j k => f (el x i j k)).

Definition tadd_scalar (x : Tensor) (c : F) : Tensor := tmap (fun v => fadd v c) x.
Definition tdiv_scalar (x : Tensor) (c : F) : Tensor := tmap (fun v => fdiv v c) x.
Definition tsqrt : Tensor -> Tensor := tmap fsqrt.

(** ** Constructors *)

(** [torch.ones((r, c))] and [torch.zeros], of rank two or one. *)
Definition ones2 (r c : nat) : Tensor := mkT 1 r c (fun _ _ _ => fone).
Definition ones1 (n : nat) : Tensor := mkT 1 1 n (fun _ _ _ => fone).
Definition zeros1 (n : nat) : Tensor := mkT 1 1 n (fun _ _ _ => fzero).

(** [torch.triu(m, diagonal)]: the elements on and above the given
    diagonal are kept, the others are zero. *)
Definition triu (m : Tensor) (diagonal : Z) : Tensor :=
  mkT (d0 m) (d1 m) (d2 m)
      (fun b i j =>
         if (diagonal <=? Z.of_nat j - Z.of_nat i)%Z then el m b i j else fzero).

(** [torch.arange(0, n)]. *)
Definition arange (n : nat) : list nat := seq 0 n.

(** ** Shape manipulation *)

(** [t.transpose(-2, -1)]. *)
Definition transpose (t : Tensor) : Tensor :=
  mkT (d0 t) (d2 t) (d1 t) (fun b i j => el t b j i).

(** [t[0:r, 0:c]] on a tensor of rank two; a slice bound beyond the end
    is clamped. *)
Definition slice2 (t : Tensor) (r c : nat) : Tensor :=
  mkT (d0 t) (Nat.min r (d1 t)) (Nat.min c (d2 t)) (el t).

(** [t[:r, :]] on a tensor of rank two. *)
Definition slice_rows (t : Tensor) (r : nat) : Tensor :=
  mkT (d0 t) (Nat.min r (d1 t)) (d2 t) (el t).

(** [t.unsqueeze(-1)] on a tensor of rank two (stored as [1 x a x b]):
    the result has shape [a x b x 1]. *)
Definition unsqueeze_last (t : Tensor) : Tensor :=
  mkT (d1 t) (d2 t) 1 (fun i j _ => el t 0 i j).

(** [x.unsqueeze(0)] on a rank-one token tensor. *)
Definition unsqueeze0 (l : list nat) : Tokens :=
  Tok2 1 (length l) (fun _ i => nth i l 0).

(** [t[:, -1, :]] on a tensor of rank three: the last index of the
    middle dimension, which does not exist when that dimension is empty.
    The result has rank two. *)
Definition select_last (t : Tensor) : result Tensor :=
  if d1 t =? 0 then Err IndexError
  else Ok (mkT 1 (d0 t) (d2 t) (fun _ b k => el t b (d1 t - 1) k)).

(** ** Reductions along the last dimension *)

(** [torch.mean(t, dim=-1)]: the result has one dimension less. *)
Definition mean_last (t : Tensor) : Tensor :=
  mkT 1 (d0 t) (d1 t)
      (fun _ b i => fdiv (sum_n (d2 t) (el t b i)) (of_nat (d2 t))).

(** [torch.var(t, dim=-1, correction=0)]: the biased variance. *)
Definition var_last (t : Tensor) : Tensor :=
  mkT 1 (d0 t) (d1 t)
      (fun _ b i =>
         let m := fdiv (sum_n (d2 t) (el t b i)) (of_nat (d2 t)) in
         fdiv (sum_n (d2 t) (fun k => fmul (fsub (el t b i k) m) (fsub (el t b i k) m)))
              (of_nat (d2 t))).

(** [softmax(t, dim=-1)]: [exp(t_k) / sum_j exp(t_j)]. *)
Definition softmax (t : Tensor) : Tensor :=
  mkT (d0 t) (d1 t) (d2 t)
      (fun b i k =>
         fdiv (fexp (el t b i k)) (sum_n (d2 t) (fun j => fexp (el t b i j)))).

(** ** Products *)

(** [torch.matmul] on tensors of rank three: the batch dimension is
    broadcast, the inner dimensions must agree. *)
Definition matmul (x y : Tensor) : result Tensor :=
  match bdim (d0 x) (d0 y) with
  | Some b =>
      if d2 x =? d1 y then
        Ok (mkT b (d1 x) (d2 y)
              (fun i j k =>
                 sum_n (d2 x) (fun t =>
                   fmul (el x (bidx (d0 x) i) j t) (el y (bidx (d0 y) i) t k))))
      else Err (RuntimeError OpMatmul)
  | None => Err (RuntimeError OpMatmul)
  end.

(** A dimension of size [m] can be expanded to size [s] when it is equal
    to it or is 1. *)
Definition expandable (m s : nat) : bool := (m =? s) || (m =? 1).

(** [F.linear(x, weight, bias)]: [x @ weight.T + bias], with [weight] of
    shape [out x in] and [bias] expandable to [out]. *)
Definition linear (x weight : Tensor) (bias : option Tensor) : result Tensor :=
  if (d2 x =? d2 weight)
     && match bias with Some bs => expandable (d2 bs) (d1 weight) | None => true end
  then
    Ok (mkT (d0 x) (d1 x) (d1 weight)
          (fun b i o =>
             let dot := sum_n (d2 x) (fun t => fmul (el x b i t) (el weight 0 o t)) in
             match bias with
             | Some bs => fadd dot (el bs 0 0 (bidx (d2 bs) o))
             | None => dot
             end))
  else Err (RuntimeError OpLinear).

(** ** Masking *)

(** [t == c]. *)
Definition teq_scalar (t : Tensor) (c : F) : BoolTensor :=
  mkB (d0 t) (d1 t) (d2 t) (fun i j k => feqb (el t i j k) c).

(** [t.masked_fill_(mask, v)]: in place, so the mask is broadcast to the
    shape of [t], never the other way round. *)
Definition masked_fill_ (t : Tensor) (mask : BoolTensor) (v : F) : result Tensor :=
  if expandable (b0 mask) (d0 t) && expandable (b1 mask) (d1 t)
     && expandable (b2 mask) (d2 t)
  then
    Ok (mkT (d0 t) (d1 t) (d2 t)
          (fun i j k =>
             if bel mask (bidx (b0 mask) i) (bidx (b1 mask) j) (bidx (b2 mask) k)
             then v else el t i j k))
  else Err (RuntimeError OpMaskedFill).

(** ** Concatenation *)

Definition cat2 (a b : Tensor) : result Tensor :=
  if (d0 a =? d0 b) && (d1 a =? d1 b) then
    Ok (mkT (d0 a) (d1 a) (d2 a + d2 b)
          (fun i j k => if k <? d2 a then el a i j k else el b i j (k - d2 a)))
  else Err (RuntimeError OpCat).

(** [torch.cat(values, dim=-1)]; an empty list of tensors is rejected. *)
Definition cat (values : list Tensor) : result Tensor :=
  match values with
  | [] => Err (RuntimeError OpCat)
  | t :: ts => fold_left (fun acc v => rbind acc (fun a => cat2 a v)) ts (Ok t)
  end.

(** ** Embedding lookup *)

Definition tokens_in_range (n : nat) (x : Tokens) : bool :=
  match x with
  | Tok1 l => forallb (fun t => t <? n) l
  | Tok2 b s tok =>
      forallb (fun i => forallb (fun j => tok i j <? n) (seq 0 s)) (seq 0 b)
  end.

(** [F.embedding(x, weight)]: row [x[..]] of [weight] for every index; an
    index that is not a row of [weight] raises [IndexError]. *)
Definition embedding (x : Tokens) (weight : Tensor) : result Tensor :=
  if tokens_in_range (d1 weight) x then
    match x with
    | Tok1 l => Ok (mkT 1 (length l) (d2 weight) (fun _ i k => el weight 0 (nth i l 0) k))
    | Tok2 b s tok => Ok (mkT b s (d2 weight) (fun i j k => el weight 0 (tok i j) k))
    end
  else Err IndexError.

End TENSOR.

Arguments Tensor F : clear implicits.
Arguments Tokens : clear implicits.

(* ================================================================= *)
(** * Randomness, the parameter store and the monad *)

(** The random primitives of the library.  Each draw consumes the
    generator and returns the next one.  [bernoulli g q] draws a keep-mask
    whose entries are kept with probability [q]; [multinomial g n probs]
    samples one of [n] categories (and fails on an invalid distribution);
    [normal g mean std] and [uniform g lo hi] draw the elements of a
    tensor. *)
Class Random (F : Type) := {
  generator : Type;
  bernoulli : generator -> F -> (nat -> nat -> nat -> bool) * generator;
  multinomial : generator -> nat -> (nat -> F) -> result (nat * generator);
  normal : generator -> F -> F -> (nat -> nat -> nat -> F) * generator;
  uniform : generator -> F -> F -> (nat -> nat -> nat -> F) * generator
}.

(** A [Parameter] object is identified by its location in the store; two
    module attributes share a parameter when they hold the same location. *)
Definition loc : Set := nat.

Section MONAD.
Context {F : Type} `{Scalar F} `{Random F}.

Record World : Type := mkWorld {
  gen : generator;
  heap : gmap loc (Tensor F);
  next : loc
}.

Definition M (A : Type) : Type := World -> result (A * World).

Definition lift {A : Type} (r : result A) : M A :=
  fun w => match r with Ok a => Ok (a, w) | Err e => Err e end.

Definition raise {A : Type} (e : error) : M A := fun _ => Err e.

(** [nn.Parameter(t)]: a new parameter object holding [t]. *)
Definition alloc (t : Tensor F) : M loc :=
  fun w => Ok (next w, mkWorld (gen w) (<[next w := t]> (heap w)) (S (next w))).

(** The tensor currently held by a parameter. *)
Definition load (h : gmap loc (Tensor F)) (l : loc) : Tensor F :=
  default (mkT 0 0 0 (fun _ _ _ => fzero)) (h !! l).

Definition draw_normal (mean std : F) : M (nat -> nat -> nat -> F) :=
  fun w => let (v, g) := normal (gen w) mean std in
           Ok (v, mkWorld g (heap w) (next w)).

Definition draw_uniform (lo hi : F) : M (nat -> nat -> nat -> F) :=
  fun w => let (v, g) := uniform (gen w) lo hi in
           Ok (v, mkWorld g (heap w) (next w)).

Definition draw_bernoulli (q : F) : M (nat -> nat -> nat -> bool) :=
  fun w => let (v, g) := bernoulli (gen w) q in
           Ok (v, mkWorld g (heap w) (next w)).

Definition draw_multinomial (n : nat) (probs : nat -> F) : M nat :=
  fun w => match multinomial (gen w) n probs with
           | Ok (t, g) => Ok (t, mkWorld g (heap w) (next w))
           | Err e => Err e
           end.

(** In-place overwrite of the elements of a parameter; the shape and
    the identity of the parameter are kept. *)
Definition fill_ (l : loc) (v : nat -> nat -> nat -> F) : M unit :=
  fun w => let t := load (heap w) l in
           Ok (tt, mkWorld (gen w) (<[l := mkT (d0 t) (d1 t) (d2 t) v]> (heap w)) (next w)).

(** [torch.nn.init.normal_(p, mean, std)] and [torch.nn.init.zeros_(p)]. *)
Definition normal_ (l : loc) (mean std : F) : M unit :=
  fun w => match draw_normal mean std w with
           | Ok (v, w') => fill_ l v w'
           | Err e => Err e
           end.

Definition zeros_ (l : loc) : M unit := fill_ l (fun _ _ _ => fzero).

End MONAD.

Arguments World F {_}.
Arguments M F {_} A.

#[global] Instance result_ret : MRet result := fun A a => Ok a.
#[global] Instance result_bind : MBind result := fun A B f r => rbind r f.
#[global] Instance M_ret {F : Type} `{Random F} : MRet (M F) :=
  fun A a w => Ok (a, w).
#[global] Instance M_bind {F : Type} `{Random F} : MBind (M F) :=
  fun A B f m w => match m w with Ok (a, w') => f a w' | Err e => Err e end.

(** [for x in xs: f(x)], collecting the results. *)
Fixpoint mapM {F : Type} `{Random F} {A B : Type} (f : A -> M F B) (xs : list A)
  : M F (list B) :=
  match xs with
  | [] => mret []
  | x :: rest => y ← f x; ys ← mapM f rest; mret (y :: ys)
  end.

(** [for x in xs: f(x)], for the effect only. *)
Fixpoint forM_ {F : Type} `{Random F} {A : Type} (f : A -> M F unit) (xs : list A)
  : M F unit :=
  match xs with
  | [] => mret tt
  | x :: rest => _ ← f x; forM_ f rest
  end.

(** [for f in fs: x = f(x)]. *)
Fixpoint foldM {F : Type} `{Random F} {A B : Type} (f : B -> A -> M F A)
  (xs : list B) (a : A) : M F A :=
  match xs with
  | [] => mret a
  | x :: rest => a' ← f x a; foldM f rest a'
  end.

(** Python truthiness of an optional dimension: [None] and [0] are false. *)
Definition or_default (o : option nat) (dflt : nat) : nat :=
  match o with
  | Some (S n) => S n
  | _ => dflt
  end.

(* ================================================================= *)
(** * nn.Dropout *)

Module Dropout.
Section Dropout.
Context {F : Type} `{Scalar F} `{Random F}.

(** [training] is the module's train/eval flag ([model.train()] sets it,
    [model.eval()] clears it). *)
Record t : Type := mk { p : F; training : bool }.

Definition __init__ (p : F) : t := mk p true.

(** In training mode each element is zeroed with probability [p] and the
    kept ones are scaled by [1 / (1 - p)]; in eval mode the input is
    returned as it is. *)
Definition forward (m : t) (x : Tensor F) : M F (Tensor F) :=
  if training m then
    keep ← draw_bernoulli (fsub fone (p m));
    mret (mkT (d0 x) (d1 x) (d2 x)
            (fun i j k => if (keep i j k : bool)
                          then fdiv (el x i j k) (fsub fone (p m))
                          else fzero))
  else mret x.

Definition eval (m : t) : t := mk (p m) false.
End Dropout.
Arguments t F : clear implicits.
End Dropout.

(* ================================================================= *)
(** * nn.Linear and nn.Embedding *)

Module Linear.
Section Linear.
Context {F : Type} `{Scalar F} `{Random F}.

Record t (P : Type) : Type := mk {
  in_features : nat;
  out_features : nat;
  weight : P;
  bias : option P
}.

Definition _get_name {P : Type} (m : t P) : string := "Linear".

(** The library's default initialisation draws weight and bias uniformly
    from [-1/sqrt(in_features), 1/sqrt(in_features)]. *)
Definition __init__ (in_features out_features : nat) (bias : bool) : M F (t loc) :=
  let bound := fdiv fone (fsqrt (of_nat in_features)) in
  w ← draw_uniform (fsub fzero bound) bound;
  lw ← alloc (mkT 1 out_features in_features w);
  if bias then
    b ← draw_uniform (fsub fzero bound) bound;
    lb ← alloc (mkT 1 1 out_features b);
    mret (mk in_features out_features lw (Some lb))
  else mret (mk in_features out_features lw None).

Definition forward (m : t (Tensor F)) (x : Tensor F) : result (Tensor F) :=
  linear x (weight m) (bias m).

(** The module with every parameter replaced by the tensor it holds. *)
Definition read (h : gmap loc (Tensor F)) (m : t loc) : t (Tensor F) :=
  mk (in_features m) (out_features m) (load h (weight m)) (load h <$> bias m).
End Linear.
End Linear.

Module Embedding.
Section Embedding.
Context {F : Type} `{Scalar F} `{Random F}.

Record t (P : Type) : Type := mk {
  num_embeddings : nat;
  embedding_dim : nat;
  weight : P
}.

Definition _get_name {P : Type} (m : t P) : string := "Embedding".

(** The library's default initialisation is a standard normal draw. *)
Definition __init__ (num_embeddings embedding_dim : nat) : M F (t loc) :=
  w ← draw_normal fzero fone;
  lw ← alloc (mkT 1 num_embeddings embedding_dim w);
  mret (mk num_embeddings embedding_dim lw).

Definition forward (m : t (Tensor F)) (x : Tokens) : result (Tensor F) :=
  embedding x (weight m).

Definition read (h : gmap loc (Tensor F)) (m : t loc) : t (Tensor F) :=
  mk (num_embeddings m) (embedding_dim m) (load h (weight m)).
End Embedding.
End Embedding.

(* ================================================================= *)
(** * SingleHeadAttention *)

Module SingleHeadAttention.
Section SingleHeadAttention.
Context {F : Type} `{Scalar F} `{Random F}.

Record t (P : Type) : Type := mk {
  input_dim : nat;
  output_key_query_dim : nat;
  output_value_dim : nat;
  key : Linear.t P;
  query : Linear.t P;
  value : Linear.t P;
  dropout : Dropout.t F;
  causal_mask : Tensor F
}.

(** The defaults of the constructor's keyword arguments. *)
Definition default_dropout : F := lit 1 (-1).
Definition default_max_len : nat := 512.

Definition __init__ (input_dim : nat) (output_key_query_dim output_value_dim : option nat)
  (dropout : F) (max_len : nat) : M F (t loc) :=
  let kq := or_default output_key_query_dim input_dim in
  let v := or_default output_value_dim input_dim in
  key ← Linear.__init__ input_dim kq false;
  query ← Linear.__init__ input_dim kq false;
  value ← Linear.__init__ input_dim v false;
  let causal_mask := triu (ones2 max_len max_len) 1 in
  mret (mk input_dim kq v key query value (Dropout.__init__ dropout) causal_mask).

Definition forward (m : t (Tensor F)) (x : Tensor F) : M F (Tensor F) :=
  Q ← lift (Linear.forward (query m) x);
  K ← lift (Linear.forward (key m) x);
  V ← lift (Linear.forward (value m) x);
  qk ← lift (matmul Q (transpose K));
  let out := tdiv_scalar qk (fsqrt (of_nat (output_key_query_dim m))) in
  let mask := slice2 (causal_mask m) (d1 out) (d2 out) in
  out ← lift (masked_fill_ out (teq_scalar mask fone) (lit (-1) 10));
  out ← Dropout.forward (dropout m) (softmax out);
  lift (matmul out V).

Definition read (h : gmap loc (Tensor F)) (m : t loc) : t (Tensor F) :=
  mk (input_dim m) (output_key_query_dim m) (output_value_dim m)
     (Linear.read h (key m)) (Linear.read h (query m)) (Linear.read h (value m))
     (dropout m) (causal_mask m).
End SingleHeadAttention.
Arguments t F P : clear implicits.
End SingleHeadAttention.

(* ================================================================= *)
(** * MultiHeadAttention *)

Module MultiHeadAttention.
Section MultiHeadAttention.
Context {F : Type} `{Scalar F} `{Random F}.

(** [heads] holds the attributes [head_0], [head_1], ... in order. *)
Record t (P : Type) : Type := mk {
  input_dim : nat;
  num_heads : nat;
  heads : list (SingleHeadAttention.t F P);
  out : Linear.t P;
  dropout : Dropout.t F
}.

Definition default_dropout : F := lit 1 (-1).

(** [int(input_dim / num_heads)]. *)
Definition head_dim (input_dim num_heads : nat) : result nat :=
  if num_heads =? 0 then Err ZeroDivisionError else Ok (input_dim / num_heads).

Definition __init__ (input_dim num_heads : nat) (dropout : F) : M F (t loc) :=
  hd ← lift (head_dim input_dim num_heads);
  heads ← mapM (fun _ : nat =>
                  SingleHeadAttention.__init__ input_dim (Some hd) (Some hd)
                    SingleHeadAttention.default_dropout
                    SingleHeadAttention.default_max_len)
               (seq 0 num_heads);
  out ← Linear.__init__ input_dim input_dim true;
  mret (mk input_dim num_heads heads out (Dropout.__init__ dropout)).

(** [getattr(self, f"head_{i}")]. *)
Definition get_head {P : Type} (m : t P) (i : nat) : M F (SingleHeadAttention.t F P) :=
  match nth_error (heads m) i with
  | Some h => mret h
  | None => raise AttributeError
  end.

Definition forward (m : t (Tensor F)) (x : Tensor F) : M F (Tensor F) :=
  values ← mapM (fun i => head ← get_head m i; SingleHeadAttention.forward head x)
                (seq 0 (num_heads m));
  o ← lift (cat values);
  o ← lift (Linear.forward (out m) o);
  Dropout.forward (dropout m) o.

Definition read (h : gmap loc (Tensor F)) (m : t loc) : t (Tensor F) :=
  mk (input_dim m) (num_heads m) (SingleHeadAttention.read h <$> heads m)
     (Linear.read h (out m)) (dropout m).
End MultiHeadAttention.
Arguments t F P : clear implicits.
End MultiHeadAttention.

(* ================================================================= *)
(** * FeedForwardLayer *)

Module FeedForwardLayer.
Section FeedForwardLayer.
Context {F : Type} `{Scalar F} `{Random F}.

Record t (P : Type) : Type := mk {
  fc1 : Linear.t P;
  fc2 : Linear.t P;
  dropout : Dropout.t F
}.

Definition default_dropout : F := lit 1 (-1).

Definition __init__ (input_dim : nat) (feedforward_dim : option nat) (dropout : F)
  : M F (t loc) :=
  let feedforward_dim :=
    match feedforward_dim with Some n => n | None => input_dim * 4 end in
  fc1 ← Linear.__init__ input_dim feedforward_dim true;
  fc2 ← Linear.__init__ feedforward_dim input_dim true;
  mret (mk fc1 fc2 (Dropout.__init__ dropout)).

Definition forward (m : t (Tensor F)) (x : Tensor F) : M F (Tensor F) :=
  o ← lift (Linear.forward (fc1 m) x);
  let o := tmap fgelu o in
  o ← lift (Linear.forward (fc2 m) o);
  Dropout.forward (dropout m) o.

Definition read (h : gmap loc (Tensor F)) (m : t loc) : t (Tensor F) :=
  mk (Linear.read h (fc1 m)) (Linear.read h (fc2 m)) (dropout m).
End FeedForwardLayer.
Arguments t F P : clear implicits.
End FeedForwardLayer.

(* ================================================================= *)
(** * LayerNorm *)

Module LayerNorm.
Section LayerNorm.
Context {F : Type} `{Scalar F} `{Random F}.

(** [gamma] and [beta] exist only when [elementwise_affine] is set. *)
Record t (P : Type) : Type := mk {
  normalized_shape : nat;
  eps : F;
  elementwise_affine : bool;
  gamma : option P;
  beta : option P
}.

Definition default_eps : F := lit 1 (-5).

Definition __init__ (normalized_shape : nat) (eps : F) (elementwise_affine : bool)
  : M F (t loc) :=
  if elementwise_affine then
    g ← alloc (ones1 normalized_shape);
    b ← alloc (zeros1 normalized_shape);
    mret (mk normalized_shape eps elementwise_affine (Some g) (Some b))
  else mret (mk normalized_shape eps elementwise_affine None None).

(** Reading an attribute that was never set. *)
Definition attr {A : Type} (o : option A) : result A :=
  match o with Some a => Ok a | None => Err AttributeError end.

Definition forward (m : t (Tensor F)) (input : Tensor F) : result (Tensor F) :=
  let mean := mean_last input in
  let variance := var_last input in
  let mean := unsqueeze_last mean in
  let variance := unsqueeze_last variance in
  centred ← tsub input mean;
  normed ← tdiv centred (tsqrt (tadd_scalar variance (eps m)));
  g ← attr (gamma m);
  scaled ← tmul normed g;
  b ← attr (beta m);
  tadd scaled b.

Definition read (h : gmap loc (Tensor F)) (m : t loc) : t (Tensor F) :=
  mk (normalized_shape m) (eps m) (elementwise_affine m)
     (load h <$> gamma m) (load h <$> beta m).
End LayerNorm.
Arguments t F P : clear implicits.
End LayerNorm.

(* ================================================================= *)
(** * TransformerLayer *)

Module TransformerLayer.
Section TransformerLayer.
Context {F : Type} `{Scalar F} `{Random F}.

Record t (P : Type) : Type := mk {
  norm1 : LayerNorm.t F P;
  attention : MultiHeadAttention.t F P;
  norm2 : LayerNorm.t F P;
  feedforward : FeedForwardLayer.t F P
}.

(** The constructor does not pass [feedforward_dim] on: the feed-forward
    layer is always built with its own default width. *)
Definition __init__ (input_dim num_heads : nat) (feedforward_dim : option nat)
  : M F (t loc) :=
  norm1 ← LayerNorm.__init__ input_dim LayerNorm.default_eps true;
  attention ← MultiHeadAttention.__init__ input_dim num_heads
                MultiHeadAttention.default_dropout;
  norm2 ← LayerNorm.__init__ input_dim LayerNorm.default_eps true;
  feedforward ← FeedForwardLayer.__init__ input_dim None
                  FeedForwardLayer.default_dropout;
  mret (mk norm1 attention norm2 feedforward).

Definition forward (m : t (Tensor F)) (x : Tensor F) : M F (Tensor F) :=
  out ← lift (LayerNorm.forward (norm1 m) x);
  out ← MultiHeadAttention.forward (attention m) out;
  cache ← lift (tadd out x);
  out ← lift (LayerNorm.forward (norm2 m) cache);
  out ← FeedForwardLayer.forward (feedforward m) out;
  out ← lift (tadd out cache);
  mret out.

Definition read (h : gmap loc (Tensor F)) (m : t loc) : t (Tensor F) :=
  mk (LayerNorm.read h (norm1 m)) (MultiHeadAttention.read h (attention m))
     (LayerNorm.read h (norm2 m)) (FeedForwardLayer.read h (feedforward m)).
End TransformerLayer.
Arguments t F P : clear implicits.
End TransformerLayer.

(* ================================================================= *)
(** * MiniGPT *)

Module MiniGPT.
Section MiniGPT.
Context {F : Type} `{Scalar F} `{Random F}.

(** The fields of the configuration object that the constructor reads.
    The configuration class itself is declared outside [model.py]. *)
Record Config : Type := mkConfig {
  vocab_size : nat;
  embed_dim : nat;
  context_length : nat;
  cfg_embed_dropout : F;
  cfg_num_heads : nat;
  feedforward_size : option nat;
  num_layers : nat;
  weight_tie : bool
}.

Record t (P : Type) : Type := mk {
  vocab_embedding : Embedding.t P;
  positional_embedding : Embedding.t P;
  embed_dropout : Dropout.t F;
  transformer_layers : list (TransformerLayer.t F P);
  prehead_norm : LayerNorm.t F P;
  head : Linear.t P;
  pos : list nat
}.

(** ** Module traversal, as [nn.Module.apply] sees it *)

(** A submodule, seen through the only distinctions [_init_weights]
    makes: a [Linear], an [Embedding], or anything else. *)
Inductive module (P : Type) : Type :=
  | IsLinear (l : Linear.t P)
  | IsEmbedding (e : Embedding.t P)
  | IsOther (class_name : string).
Arguments IsOther {P} class_name.

Definition _get_name {P : Type} (m : module P) : string :=
  match m with
  | IsLinear l => Linear._get_name l
  | IsEmbedding e => Embedding._get_name e
  | IsOther class_name => class_name
  end.

(** [apply] visits the children in registration order, each one
    recursively, and then the module itself. *)
Definition modules_SingleHeadAttention {P : Type} (m : SingleHeadAttention.t F P)
  : list (module P) :=
  [IsLinear (SingleHeadAttention.key m);
   IsLinear (SingleHeadAttention.query m);
   IsLinear (SingleHeadAttention.value m);
   IsOther "Dropout";
   IsOther "SingleHeadAttention"].

Definition modules_MultiHeadAttention {P : Type} (m : MultiHeadAttention.t F P)
  : list (module P) :=
  concat (map modules_SingleHeadAttention (MultiHeadAttention.heads m))
  ++ [IsLinear (MultiHeadAttention.out m);
      IsOther "Dropout";
      IsOther "MultiHeadAttention"].

Definition modules_FeedForwardLayer {P : Type} (m : FeedForwardLayer.t F P)
  : list (module P) :=
  [IsLinear (FeedForwardLayer.fc1 m);
   IsOther "GELU";
   IsLinear (FeedForwardLayer.fc2 m);
   IsOther "Dropout";
   IsOther "FeedForwardLayer"].

Definition modules_TransformerLayer {P : Type} (m : TransformerLayer.t F P)
  : list (module P) :=
  [IsOther "LayerNorm"]
  ++ modules_MultiHeadAttention (TransformerLayer.attention m)
  ++ [IsOther "LayerNorm"]
  ++ modules_FeedForwardLayer (TransformerLayer.feedforward m)
  ++ [IsOther "TransformerLayer"].

Definition modules {P : Type} (m : t P) : list (module P) :=
  [IsEmbedding (vocab_embedding m);
   IsEmbedding (positional_embedding m);
   IsOther "Dropout"]
  ++ concat (map modules_TransformerLayer (transformer_layers m))
  ++ [IsOther "ModuleList";
      IsOther "LayerNorm";
      IsLinear (head m);
      IsOther "MiniGPT"].

(** ** Weight initialisation *)

(** The model object has no attribute [num_layers], so the branch for a
    module named ["fc2"] would fail on reading it; [_get_name] returns the
    class name, so no [Linear] takes that branch. *)
Definition _init_weights (self : t loc) (m : module loc) : M F unit :=
  match m with
  | IsLinear l =>
      _ ← (if String.eqb (_get_name m) "fc2"
           then raise AttributeError
           else normal_ (Linear.weight l) (lit 0 0) (lit 2 (-2)));
      match Linear.bias l with
      | Some b => zeros_ b
      | None => mret tt
      end
  | IsEmbedding e => normal_ (Embedding.weight e) (lit 0 0) (lit 2 (-2))
  | IsOther _ => mret tt
  end.

Definition apply (self : t loc) (fn : t loc -> module loc -> M F unit) : M F unit :=
  forM_ (fn self) (modules self).

(** [self.head.weight = self.vocab_embedding.weight]: the attribute is
    rebound to the embedding's parameter object. *)
Definition tie (head : Linear.t loc) (e : Embedding.t loc) : Linear.t loc :=
  Linear.mk (Linear.in_features head) (Linear.out_features head)
            (Embedding.weight e) (Linear.bias head).

Definition __init__ (config : Config) : M F (t loc) :=
  vocab_embedding ← Embedding.__init__ (vocab_size config) (embed_dim config);
  positional_embedding ← Embedding.__init__ (context_length config) (embed_dim config);
  let embed_dropout := Dropout.__init__ (cfg_embed_dropout config) in
  transformer_layers ←
    mapM (fun _ : nat =>
            TransformerLayer.__init__ (embed_dim config) (cfg_num_heads config)
              (feedforward_size config))
         (seq 0 (num_layers config));
  prehead_norm ← LayerNorm.__init__ (embed_dim config) LayerNorm.default_eps true;
  head ← Linear.__init__ (embed_dim config) (vocab_size config) true;
  let head := if weight_tie config then tie head vocab_embedding else head in
  let pos := arange (context_length config) in
  let self := mk vocab_embedding positional_embedding embed_dropout
                 transformer_layers prehead_norm head pos in
  _ ← apply self _init_weights;
  mret self.

Definition read (h : gmap loc (Tensor F)) (m : t loc) : t (Tensor F) :=
  mk (Embedding.read h (vocab_embedding m)) (Embedding.read h (positional_embedding m))
     (embed_dropout m) (TransformerLayer.read h <$> transformer_layers m)
     (LayerNorm.read h (prehead_norm m)) (Linear.read h (head m)) (pos m).

(** ** Forward pass *)

Definition forward (m : t (Tensor F)) (x : Tokens) : M F (Tensor F) :=
  let x := match x with Tok1 l => unsqueeze0 l | Tok2 _ _ _ => x end in
  out ← lift (Embedding.forward (vocab_embedding m) x);
  table ← lift (Embedding.forward (positional_embedding m) (Tok1 (pos m)));
  let position := slice_rows table (d1 out) in
  out ← lift (tadd out position);
  out ← Dropout.forward (embed_dropout m) out;
  out ← foldM TransformerLayer.forward (transformer_layers m) out;
  out ← lift (LayerNorm.forward (prehead_norm m) out);
  out ← lift (Linear.forward (head m) out);
  mret out.

(** ** Sampling *)

(** [input_stream[-n:]]. *)
Definition last_n (n : nat) (l : list nat) : list nat := skipn (length l - n) l.

(** One sample per row of a rank-two tensor of probabilities. *)
Definition sample_rows (probs : Tensor F) : M F (list nat) :=
  mapM (fun b => draw_multinomial (d2 probs) (el probs 0 b)) (seq 0 (d1 probs)).

Definition generate_step (m : t (Tensor F)) (input_stream : list nat) : M F (list nat) :=
  let context := last_n 10 input_stream in
  output ← forward m (Tok1 context);
  let prob := softmax output in
  last_token_prob ← lift (select_last prob);
  pred ← sample_rows last_token_prob;
  mret (input_stream ++ pred).

Fixpoint generate_loop (m : t (Tensor F)) (iterations : nat) (input_stream : list nat)
  : M F (list nat) :=
  match iterations with
  | 0 => mret input_stream
  | S n => input_stream ← generate_step m input_stream; generate_loop m n input_stream
  end.

Definition generate (m : t (Tensor F)) (context : list nat) (max_new_tokens : nat)
  : M F (list nat) :=
  generate_loop m max_new_tokens context.
End MiniGPT.
Arguments t F P : clear implicits.
Arguments Config F : clear implicits.
End MiniGPT.

(* ================================================================= *)
(** * Concrete scalars and generators *)

(** Exact real arithmetic: every operation is the mathematical one,
    without rounding, overflow or underflow. *)
Module RealScalar.

Definition gauss : R -> R := comp exp (- (id * id))%F.

Lemma gauss_continuous : continuity gauss.
Proof.
  unfold gauss. apply continuity_comp.
  - apply continuity_opp, continuity_mult; apply derivable_continuous, derivable_id.
  - apply derivable_continuous, derivable_exp.
Qed.

(** The error function, [2/sqrt(pi)] times the integral of [exp(-t^2)]
    from [0] to [x]. *)
Definition erf (x : R) : R :=
  (2 / sqrt PI *
   match Rle_lt_dec 0 x with
   | left h =>
       RiemannInt (continuity_implies_RiemannInt h (fun t _ => gauss_continuous t))
   | right h =>
       - RiemannInt (continuity_implies_RiemannInt (Rlt_le _ _ h)
                       (fun t _ => gauss_continuous t))
   end)%R.

(** [nn.GELU()]: [x * Phi(x)] with [Phi] the standard normal
    distribution function. *)
Definition gelu (x : R) : R := (x * ((1 + erf (x / sqrt 2)) / 2))%R.

Definition decimal (m e : Z) : R := (IZR m * powerRZ 10 e)%R.

Definition eqb (x y : R) : bool := if Req_dec_T x y then true else false.

#[export] Instance exact : Scalar R := {|
  fzero := 0%R;
  fone := 1%R;
  fadd := Rplus;
  fsub := Rminus;
  fmul := Rmult;
  fdiv := Rdiv;
  fsqrt := sqrt;
  fexp := exp;
  fgelu := gelu;
  of_nat := INR;
  lit := decimal;
  feqb := eqb
|}.

(** The exponential of single precision in one respect only: it is
    exactly zero at and below [-104], where the single-precision
    exponential has underflowed.  Everything else stays exact. *)
Definition exp_underflow (x : R) : R :=
  if Rle_dec x (-104) then 0%R else exp x.

Definition underflow : Scalar R := {|
  fzero := 0%R;
  fone := 1%R;
  fadd := Rplus;
  fsub := Rminus;
  fmul := Rmult;
  fdiv := Rdiv;
  fsqrt := sqrt;
  fexp := exp_underflow;
  fgelu := gelu;
  of_nat := INR;
  lit := decimal;
  feqb := eqb
|}.

End RealScalar.

(** A generator without randomness, for running the model on concrete
    inputs: the state counts the draws, every element is kept by dropout,
    a normal draw returns its mean, a uniform draw its lower bound, and
    sampling among [n] categories returns the draw count modulo [n]. *)
Module Counter.

Definition sample {F : Type} (g n : nat) (probs : nat -> F) : result (nat * nat) :=
  if n =? 0 then Err (RuntimeError OpMultinomial) else Ok (g mod n, S g).

#[export] Instance random {F : Type} : Random F := {|
  generator := nat;
  bernoulli := fun g _ => (fun _ _ _ => true, S g);
  multinomial := sample;
  normal := fun g mean _ => (fun _ _ _ => mean, S g);
  uniform := fun g lo _ => (fun _ _ _ => lo, S g)
|}.

End Counter.

(* ================================================================= *)
(** * Specification-level definitions *)

Section SPEC.
Context {F : Type} `{Scalar F} `{Random F}.

(** A pre-norm residual sublayer, in the words of the specification: the
    input is normalised, the sublayer is applied to the normalised input,
    and the sublayer's output is added back to the unnormalised input. *)
Definition prenorm_residual (norm : Tensor F -> result (Tensor F))
    (sublayer : Tensor F -> M F (Tensor F)) (x : Tensor F) : M F (Tensor F) :=
  normed ← lift (norm x);
  y ← sublayer normed;
  lift (tadd y x).

(** A transformer block in the words of the specification: pre-norm,
    multi-head attention, residual add, then pre-norm, feed-forward,
    residual add. *)
Definition prenorm_block (m : TransformerLayer.t F (Tensor F)) (x : Tensor F)
  : M F (Tensor F) :=
  stream ← prenorm_residual (LayerNorm.forward (TransformerLayer.norm1 m))
             (MultiHeadAttention.forward (TransformerLayer.attention m)) x;
  prenorm_residual (LayerNorm.forward (TransformerLayer.norm2 m))
    (FeedForwardLayer.forward (TransformerLayer.feedforward m)) stream.

(** ** The pipeline of the model, stage by stage *)

(** The batch size and the sequence length of a token tensor, a rank-one
    tensor counting as a batch of one sequence. *)
Definition batch_of (x : Tokens) : nat :=
  match x with Tok1 _ => 1 | Tok2 b _ _ => b end.

Definition seq_len_of (x : Tokens) : nat :=
  match x with Tok1 l => length l | Tok2 _ n _ => n end.

(** The learned positional embeddings for the positions [0 .. n-1]: the
    first [n] rows of the positional table. *)
Definition positional_rows (m : MiniGPT.t F (Tensor F)) (n : nat) : Tensor F :=
  let table := Embedding.weight (MiniGPT.positional_embedding m) in
  mkT 1 n (d2 table) (fun _ i k => el table 0 i k).

(** The token tensor as a batch: a rank-one tensor is a batch of one
    sequence. *)
Definition as_batch (x : Tokens) : Tokens :=
  match x with Tok1 l => unsqueeze0 l | Tok2 _ _ _ => x end.

(** The pipeline in the words of the specification: embed, add the
    positional embeddings, dropout, the transformer blocks in sequence, the
    final norm, the linear head. *)
Definition pipeline (m : MiniGPT.t F (Tensor F)) (positions : Tensor F) (x : Tokens)
  : M F (Tensor F) :=
  embedded ← lift (embedding (as_batch x) (Embedding.weight (MiniGPT.vocab_embedding m)));
  placed ← lift (tadd embedded positions);
  dropped ← Dropout.forward (MiniGPT.embed_dropout m) placed;
  blocks ← foldM TransformerLayer.forward (MiniGPT.transformer_layers m) dropped;
  normed ← lift (LayerNorm.forward (MiniGPT.prehead_norm m) blocks);
  lift (Linear.forward (MiniGPT.head m) normed).

(** Two outcomes that cannot be told apart: the same error, or tensors
    that are the same tensor (and, for a run, the same final state). *)
Definition same_result (r1 r2 : result (Tensor F)) : Prop :=
  match r1, r2 with
  | Ok a, Ok b => tensor_eq a b
  | Err e1, Err e2 => e1 = e2
  | _, _ => False
  end.

Definition same_run (r1 r2 : result (Tensor F * World F)) : Prop :=
  match r1, r2 with
  | Ok (a, w1), Ok (b, w2) => tensor_eq a b /\ w1 = w2
  | Err e1, Err e2 => e1 = e2
  | _, _ => False
  end.

Definition same_runs (r1 r2 : result (list (Tensor F) * World F)) : Prop :=
  match r1, r2 with
  | Ok (a, w1), Ok (b, w2) => Forall2 tensor_eq a b /\ w1 = w2
  | Err e1, Err e2 => e1 = e2
  | _, _ => False
  end.

(** The pipeline with the positional embeddings of the positions
    [0 .. seq_len-1] as the tensor that is added. *)
Definition positional_pipeline (m : MiniGPT.t F (Tensor F)) (x : Tokens) : M F (Tensor F) :=
  pipeline m (positional_rows m (seq_len_of x)) x.

(** ** Attention, element by element *)

(** The output of a [Linear] at batch [b], position [i], feature [o]. *)
Definition projection (l : Linear.t (Tensor F)) (x : Tensor F) (b i o : nat) : F :=
  let dot := sum_n (d2 x) (fun t => fmul (el x b i t) (el (Linear.weight l) 0 o t)) in
  match Linear.bias l with
  | Some bs => fadd dot (el bs 0 0 (bidx (d2 bs) o))
  | None => dot
  end.

(** The scaled query-key score of position [i] against position [j], and
    the same after [masked_fill_]. *)
Definition score (m : SingleHeadAttention.t F (Tensor F)) (x : Tensor F)
    (b i j : nat) : F :=
  fdiv (sum_n (d1 (Linear.weight (SingleHeadAttention.query m)))
          (fun t => fmul (projection (SingleHeadAttention.query m) x b i t)
                         (projection (SingleHeadAttention.key m) x b j t)))
       (fsqrt (of_nat (SingleHeadAttention.output_key_query_dim m))).

Definition masked_score (m : SingleHeadAttention.t F (Tensor F)) (x : Tensor F)
    (b i j : nat) : F :=
  if feqb (el (SingleHeadAttention.causal_mask m) 0 i j) fone
  then lit (-1) 10 else score m x b i j.

(** The weight with which position [i] attends to position [j]. *)
Definition attention_weight (m : SingleHeadAttention.t F (Tensor F)) (x : Tensor F)
    (b i j : nat) : F :=
  fdiv (fexp (masked_score m x b i j))
       (sum_n (d1 x) (fun j' => fexp (masked_score m x b i j'))).

(** Two inputs that have the same shape and the same rows at positions
    [0..i]. *)
Definition rows_agree_upto (i : nat) (x y : Tensor F) : Prop :=
  shape x = shape y /\
  forall b p k, b < d0 x -> p <= i -> p < d1 x -> k < d2 x ->
    el x b p k = el y b p k.

(** Arithmetic in which a masked position gets weight exactly zero: the
    comparison [1.0 == 1.0] holds, the exponential of the fill value
    [-1e10] has underflowed to zero, and zero is absorbing for division
    and multiplication. *)
Record MaskedToZero : Prop := {
  one_eq_one : feqb fone fone = true;
  exp_fill_zero : fexp (lit (-1) 10) = fzero;
  zero_div : forall z : F, fdiv fzero z = fzero;
  zero_mul : forall v : F, fmul fzero v = fzero
}.

(** ** Shapes of the parameters, as the constructors establish them *)

(** The scale and shift parameters have the shape of the feature axis. *)
Definition affine_for (d : nat) (m : LayerNorm.t F (Tensor F)) (g b : Tensor F) : Prop :=
  LayerNorm.gamma m = Some g /\ LayerNorm.beta m = Some b /\
  shape g = (1, 1, d) /\ shape b = (1, 1, d).

Definition Linear_shaped (i o : nat) (l : Linear.t (Tensor F)) : Prop :=
  d2 (Linear.weight l) = i /\ d1 (Linear.weight l) = o /\
  forall b, Linear.bias l = Some b -> d2 b = o.

Definition SingleHeadAttention_shaped (d kq dv max_len : nat)
    (m : SingleHeadAttention.t F (Tensor F)) : Prop :=
  SingleHeadAttention.output_key_query_dim m = kq /\
  Linear_shaped d kq (SingleHeadAttention.query m) /\
  Linear_shaped d kq (SingleHeadAttention.key m) /\
  Linear_shaped d dv (SingleHeadAttention.value m) /\
  SingleHeadAttention.causal_mask m = triu (ones2 max_len max_len) 1.

(** The width of one head of a [MultiHeadAttention]: the constructor of
    the head takes [input_dim] when it is handed a width of zero. *)
Definition head_width (input_dim num_heads : nat) : nat :=
  or_default (Some (input_dim / num_heads)) input_dim.

Definition MultiHeadAttention_shaped (d num_heads : nat)
    (m : MultiHeadAttention.t F (Tensor F)) : Prop :=
  MultiHeadAttention.num_heads m = num_heads /\
  length (MultiHeadAttention.heads m) = num_heads /\
  Forall (SingleHeadAttention_shaped d (head_width d num_heads) (head_width d num_heads)
            SingleHeadAttention.default_max_len)
         (MultiHeadAttention.heads m) /\
  Linear_shaped d d (MultiHeadAttention.out m).

Definition FeedForwardLayer_shaped (d : nat) (m : FeedForwardLayer.t F (Tensor F)) : Prop :=
  Linear_shaped d (d * 4) (FeedForwardLayer.fc1 m) /\
  Linear_shaped (d * 4) d (FeedForwardLayer.fc2 m).

Definition LayerNorm_shaped (d : nat) (m : LayerNorm.t F (Tensor F)) : Prop :=
  exists g b, LayerNorm.gamma m = Some g /\ LayerNorm.beta m = Some b /\
    shape g = (1, 1, d) /\ shape b = (1, 1, d).

Definition TransformerLayer_shaped (d num_heads : nat)
    (m : TransformerLayer.t F (Tensor F)) : Prop :=
  LayerNorm_shaped d (TransformerLayer.norm1 m) /\
  MultiHeadAttention_shaped d num_heads (TransformerLayer.attention m) /\
  LayerNorm_shaped d (TransformerLayer.norm2 m) /\
  FeedForwardLayer_shaped d (TransformerLayer.feedforward m).

Definition MiniGPT_shaped (config : MiniGPT.Config F) (m : MiniGPT.t F (Tensor F)) : Prop :=
  shape (Embedding.weight (MiniGPT.vocab_embedding m))
    = (1, MiniGPT.vocab_size config, MiniGPT.embed_dim config) /\
  shape (Embedding.weight (MiniGPT.positional_embedding m))
    = (1, MiniGPT.context_length config, MiniGPT.embed_dim config) /\
  MiniGPT.pos m = arange (MiniGPT.context_length config) /\
  length (MiniGPT.transformer_layers m) = MiniGPT.num_layers config /\
  Forall (TransformerLayer_shaped (MiniGPT.embed_dim config) (MiniGPT.cfg_num_heads config))
         (MiniGPT.transformer_layers m) /\
  LayerNorm_shaped (MiniGPT.embed_dim config) (MiniGPT.prehead_norm m) /\
  Linear_shaped (MiniGPT.embed_dim config) (MiniGPT.vocab_size config) (MiniGPT.head m).

(** The heads of a configuration tile the embedding exactly. *)
Definition heads_fit (d num_heads : nat) : Prop :=
  0 < num_heads /\ num_heads * head_width d num_heads = d.

(** ** The store between two states *)

(** [h] holds tensors of the same shapes as [h'] at the locations
    [lo .. hi-1]. *)
Definition same_shapes (lo hi : loc) (h h' : gmap loc (Tensor F)) : Prop :=
  forall l, lo <= l < hi -> shape (load h l) = shape (load h' l).

(** [w'] is a later state than [w]: locations are only ever added, and
    the parameters that existed keep their shapes. *)
Definition later (w w' : World F) : Prop :=
  next w <= next w' /\ same_shapes 0 (next w) (heap w') (heap w).

(** Between [w] and [w'] the property [Q] of the store was established: it
    holds of every store that has, at the locations allocated in between,
    tensors of the shapes they have in [w']. *)
Definition established (w w' : World F) (Q : gmap loc (Tensor F) -> Prop) : Prop :=
  later w w' /\
  forall h, same_shapes (next w) (next w') h (heap w') -> Q h.

(** A constructor that always returns, and establishes [Q] of the module
    it returns. *)
Definition builds {T : Type} (init : M F T) (Q : T -> gmap loc (Tensor F) -> Prop) : Prop :=
  forall w, exists m w', init w = Ok (m, w') /\ established w w' (Q m).

(** An action on the store that always returns, allocates nothing and
    keeps the shape of every parameter (an in-place initialisation). *)
Definition keeps_shapes {T : Type} (act : M F T) : Prop :=
  forall w, exists m w', act w = Ok (m, w') /\ next w' = next w /\
    forall l, shape (load (heap w') l) = shape (load (heap w) l).

(** ** Sampling that cannot fail *)

(** The sampler returns a category among the [n] it is given, whenever
    there is one. *)
Definition sampler_total : Prop :=
  forall (g : generator) (n : nat) (probs : nat -> F),
    0 < n -> exists t g', multinomial g n probs = Ok (t, g') /\ t < n.

End SPEC.

(* ================================================================= *)
(** * Concrete modules and inputs *)

Module Examples.
#[local] Existing Instance RealScalar.exact.

(** A [LayerNorm] over [d] features with the parameters its constructor
    gives it: the default [eps], [gamma] all ones and [beta] all zeros. *)
Definition unit_norm (d : nat) : LayerNorm.t R (Tensor R) :=
  LayerNorm.mk d LayerNorm.default_eps true (Some (ones1 d)) (Some (zeros1 d)).

(** One token with two features, both [0.0]. *)
Definition zero_row : Tensor R := mkT 1 1 2 (fun _ _ _ => 0%R).

(** One token with the two features [0.0] and [1.0]. *)
Definition ramp_row : Tensor R := mkT 1 1 2 (fun _ _ k => INR k).

#[local] Existing Instance Counter.random.

(** The state of a fresh process: no draw made, no parameter allocated. *)
Definition fresh_world : World R := mkWorld (0%nat : generator) ∅ 0%nat.

Definition scalar_weight (v : R) : Tensor R := mkT 1 1 1 (fun _ _ _ => v).

(** A head over one feature, in eval mode, with the default [max_len]:
    query weight [1.0], key weight [-1.0], value weight [1.0]. *)
Definition look_ahead_head : SingleHeadAttention.t R (Tensor R) :=
  SingleHeadAttention.mk 1 1 1
    (Linear.mk 1 1 (scalar_weight (-1)) None)
    (Linear.mk 1 1 (scalar_weight 1) None)
    (Linear.mk 1 1 (scalar_weight 1) None)
    (Dropout.eval (Dropout.__init__ SingleHeadAttention.default_dropout))
    (triu (ones2 SingleHeadAttention.default_max_len
                 SingleHeadAttention.default_max_len) 1).

(** A batch of one sequence of two tokens with one feature each. *)
Definition two_tokens (first second : R) : Tensor R :=
  mkT 1 2 1 (fun _ p _ => if p =? 0 then first else second).

(** A small configuration: three tokens in the vocabulary, four embedding
    features, two heads, two layers, tied weights. *)
Definition tiny_config (context_length : nat) : MiniGPT.Config R :=
  MiniGPT.mkConfig 3 4 context_length (lit 1 (-1)) 2 None 2 true.

(** One sequence of [n] tokens, all equal to token [0]. *)
Definition zero_tokens (n : nat) : Tokens := Tok2 1 n (fun _ _ => 0%nat).

End Examples.

(* ================================================================= *)
(** * BigramLanguageModel *)

Module BigramLanguageModel.
Section BigramLanguageModel.
Context {F : Type} `{Scalar F} `{Random F}.

(** The fields of the configuration object that the constructor reads. *)
Record Config : Type := mkConfig {
  vocab_size : nat;
  embed_dim : nat;
  cfg_dropout : F
}.

Record t (P : Type) : Type := mk {
  embeddings : Embedding.t P;
  linear : Linear.t P;
  dropout : Dropout.t F
}.

(** The submodules in the order [apply] visits them: the children in
    registration order, then the model itself. *)
Definition modules {P : Type} (m : t P) : list (MiniGPT.module P) :=
  [MiniGPT.IsEmbedding (embeddings m);
   MiniGPT.IsLinear (linear m);
   @MiniGPT.IsOther P "Dropout";
   @MiniGPT.IsOther P "BigramLanguageModel"].

Definition _init_weights (self : t loc) (m : MiniGPT.module loc) : M F unit :=
  match m with
  | MiniGPT.IsLinear l =>
      _ ← normal_ (Linear.weight l) (lit 0 0) (lit 2 (-2));
      match Linear.bias l with
      | Some b => zeros_ b
      | None => mret tt
      end
  | MiniGPT.IsEmbedding e => normal_ (Embedding.weight e) (lit 0 0) (lit 2 (-2))
  | MiniGPT.IsOther _ _ => mret tt
  end.

Definition apply (self : t loc) (fn : t loc -> MiniGPT.module loc -> M F unit) : M F unit :=
  forM_ (fn self) (modules self).

Definition __init__ (config : Config) : M F (t loc) :=
  embeddings ← Embedding.__init__ (vocab_size config) (embed_dim config);
  linear ← Linear.__init__ (embed_dim config) (vocab_size config) true;
  let dropout := Dropout.__init__ (cfg_dropout config) in
  let self := mk embeddings linear dropout in
  _ ← apply self _init_weights;
  mret self.

Definition read (h : gmap loc (Tensor F)) (m : t loc) : t (Tensor F) :=
  mk (Embedding.read h (embeddings m)) (Linear.read h (linear m)) (dropout m).

(** [model.eval()]: the dropout layer leaves training mode. *)
Definition eval {P : Type} (m : t P) : t P :=
  mk (embeddings m) (linear m) (Dropout.eval (dropout m)).

Definition forward (m : t (Tensor F)) (x : Tokens) : M F (Tensor F) :=
  let x := match x with Tok1 l => unsqueeze0 l | Tok2 _ _ _ => x end in
  x ← lift (Embedding.forward (embeddings m) x);
  x ← lift (Linear.forward (linear m) x);
  x ← Dropout.forward (dropout m) x;
  mret x.

Definition generate_step (m : t (Tensor F)) (input_stream : list nat) : M F (list nat) :=
  let context := MiniGPT.last_n 1 input_stream in
  output ← forward m (Tok1 context);
  let prob := softmax output in
  last_token_prob ← lift (select_last prob);
  pred ← MiniGPT.sample_rows last_token_prob;
  mret (input_stream ++ pred).

Fixpoint generate_loop (m : t (Tensor F)) (iterations : nat) (input_stream : list nat)
  : M F (list nat) :=
  match iterations with
  | 0 => mret input_stream
  | S n => input_stream ← generate_step m input_stream; generate_loop m n input_stream
  end.

Definition generate (m : t (Tensor F)) (context : list nat) (max_new_tokens : nat)
  : M F (list nat) :=
  generate_loop m max_new_tokens context.
End BigramLanguageModel.
Arguments t F P : clear implicits.
Arguments Config F : clear implicits.
End BigramLanguageModel.

(* ================================================================= *)
(** * EncoderBlock and Encoder *)

Module EncoderBlock.
Section EncoderBlock.
Context {F : Type} `{Scalar F} `{Random F}.

Record t (P : Type) : Type := mk {
  attention : MultiHeadAttention.t F P;
  norm1 : LayerNorm.t F P;
  feedforward : FeedForwardLayer.t F P;
  norm2 : LayerNorm.t F P
}.

(** As in [TransformerLayer], [feedforward_dim] is not passed on. *)
Definition __init__ (input_dim num_heads : nat) (feedforward_dim : option nat)
  : M F (t loc) :=
  attention ← MultiHeadAttention.__init__ input_dim num_heads
                MultiHeadAttention.default_dropout;
  norm1 ← LayerNorm.__init__ input_dim LayerNorm.default_eps true;
  feedforward ← FeedForwardLayer.__init__ input_dim None
                  FeedForwardLayer.default_dropout;
  norm2 ← LayerNorm.__init__ input_dim LayerNorm.default_eps true;
  mret (mk attention norm1 feedforward norm2).

Definition forward (m : t (Tensor F)) (x : Tensor F) : M F (Tensor F) :=
  out ← MultiHeadAttention.forward (attention m) x;
  residual ← lift (tadd out x);
  cache ← lift (LayerNorm.forward (norm1 m) residual);
  out ← FeedForwardLayer.forward (feedforward m) cache;
  residual ← lift (tadd out cache);
  out ← lift (LayerNorm.forward (norm2 m) residual);
  mret out.

Definition read (h : gmap loc (Tensor F)) (m : t loc) : t (Tensor F) :=
  mk (MultiHeadAttention.read h (attention m)) (LayerNorm.read h (norm1 m))
     (FeedForwardLayer.read h (feedforward m)) (LayerNorm.read h (norm2 m)).
End EncoderBlock.
Arguments t F P : clear implicits.
End EncoderBlock.

Module Encoder.
Section Encoder.
Context {F : Type} `{Scalar F} `{Random F}.

Record t (P : Type) : Type := mk {
  vocab_embedding : Embedding.t P;
  positional_embedding : Embedding.t P;
  embed_dropout : Dropout.t F;
  encoder_blocks : list (EncoderBlock.t F P);
  pos : list nat
}.

(** The constructor reads the fields of the configuration object that
    [MiniGPT] reads, [weight_tie] apart.  It does not call [apply]: the
    parameters keep the values the library gave them. *)
Definition __init__ (config : MiniGPT.Config F) : M F (t loc) :=
  vocab_embedding ← Embedding.__init__ (MiniGPT.vocab_size config)
                      (MiniGPT.embed_dim config);
  positional_embedding ← Embedding.__init__ (MiniGPT.context_length config)
                           (MiniGPT.embed_dim config);
  let embed_dropout := Dropout.__init__ (MiniGPT.cfg_embed_dropout config) in
  encoder_blocks ←
    mapM (fun _ : nat =>
            EncoderBlock.__init__ (MiniGPT.embed_dim config)
              (MiniGPT.cfg_num_heads config) (MiniGPT.feedforward_size config))
         (seq 0 (MiniGPT.num_layers config));
  let pos := arange (MiniGPT.context_length config) in
  mret (mk vocab_embedding positional_embedding embed_dropout encoder_blocks pos).

(** Unlike [MiniGPT.forward], a rank-one input is not unsqueezed. *)
Definition forward (m : t (Tensor F)) (x : Tokens) : M F (Tensor F) :=
  out ← lift (Embedding.forward (vocab_embedding m) x);
  table ← lift (Embedding.forward (positional_embedding m) (Tok1 (pos m)));
  let position := slice_rows table (d1 out) in
  out ← lift (tadd out position);
  out ← Dropout.forward (embed_dropout m) out;
  out ← foldM EncoderBlock.forward (encoder_blocks m) out;
  mret out.

Definition read (h : gmap loc (Tensor F)) (m : t loc) : t (Tensor F) :=
  mk (Embedding.read h (vocab_embedding m)) (Embedding.read h (positional_embedding m))
     (embed_dropout m) (EncoderBlock.read h <$> encoder_blocks m) (pos m).
End Encoder.
Arguments t F P : clear implicits.
End Encoder.

(* ================================================================= *)
(** * model.eval() *)

(** [nn.Module.eval()] clears the training flag of the module and of all
    its submodules; among the layers here only [Dropout] reads it. *)
Module EvalMode.
Section EvalMode.
Context {F : Type} `{Scalar F} `{Random F}.

Definition SingleHeadAttention {P : Type} (m : SingleHeadAttention.t F P)
  : SingleHeadAttention.t F P :=
  SingleHeadAttention.mk (SingleHeadAttention.input_dim m)
    (SingleHeadAttention.output_key_query_dim m) (SingleHeadAttention.output_value_dim m)
    (SingleHeadAttention.key m) (SingleHeadAttention.query m) (SingleHeadAttention.value m)
    (Dropout.eval (SingleHeadAttention.dropout m)) (SingleHeadAttention.causal_mask m).

Definition MultiHeadAttention {P : Type} (m : MultiHeadAttention.t F P)
  : MultiHeadAttention.t F P :=
  MultiHeadAttention.mk (MultiHeadAttention.input_dim m) (MultiHeadAttention.num_heads m)
    (map SingleHeadAttention (MultiHeadAttention.heads m)) (MultiHeadAttention.out m)
    (Dropout.eval (MultiHeadAttention.dropout m)).

Definition FeedForwardLayer {P : Type} (m : FeedForwardLayer.t F P)
  : FeedForwardLayer.t F P :=
  FeedForwardLayer.mk (FeedForwardLayer.fc1 m) (FeedForwardLayer.fc2 m)
    (Dropout.eval (FeedForwardLayer.dropout m)).

Definition TransformerLayer {P : Type} (m : TransformerLayer.t F P)
  : TransformerLayer.t F P :=
  TransformerLayer.mk (TransformerLayer.norm1 m)
    (MultiHeadAttention (TransformerLayer.attention m)) (TransformerLayer.norm2 m)
    (FeedForwardLayer (TransformerLayer.feedforward m)).

Definition MiniGPT {P : Type} (m : MiniGPT.t F P) : MiniGPT.t F P :=
  MiniGPT.mk (MiniGPT.vocab_embedding m) (MiniGPT.positional_embedding m)
    (Dropout.eval (MiniGPT.embed_dropout m))
    (map TransformerLayer (MiniGPT.transformer_layers m))
    (MiniGPT.prehead_norm m) (MiniGPT.head m) (MiniGPT.pos m).

End EvalMode.
End EvalMode.

(* ================================================================= *)
(** * train.py: count_parameters *)

(** [nn.Module.named_parameters] before duplicates are removed: the
    parameters a module holds itself, then those of its children, in
    registration order.  Buffers ([causal_mask], [pos]) are not
    parameters. *)
Class NNModule (T : Type) := named_parameters : T -> list loc.

#[global] Instance Linear_Module : NNModule (Linear.t loc) :=
  fun m => Linear.weight m :: match Linear.bias m with Some b => [b] | None => [] end.

#[global] Instance Embedding_Module : NNModule (Embedding.t loc) :=
  fun m => [Embedding.weight m].

#[global] Instance SingleHeadAttention_Module {F : Type}
  : NNModule (SingleHeadAttention.t F loc) :=
  fun m => named_parameters (SingleHeadAttention.key m)
           ++ named_parameters (SingleHeadAttention.query m)
           ++ named_parameters (SingleHeadAttention.value m).

#[global] Instance MultiHeadAttention_Module {F : Type}
  : NNModule (MultiHeadAttention.t F loc) :=
  fun m => concat (map named_parameters (MultiHeadAttention.heads m))
           ++ named_parameters (MultiHeadAttention.out m).

#[global] Instance FeedForwardLayer_Module {F : Type}
  : NNModule (FeedForwardLayer.t F loc) :=
  fun m => named_parameters (FeedForwardLayer.fc1 m)
           ++ named_parameters (FeedForwardLayer.fc2 m).

#[global] Instance LayerNorm_Module {F : Type} : NNModule (LayerNorm.t F loc) :=
  fun m => match LayerNorm.gamma m with Some g => [g] | None => [] end
           ++ match LayerNorm.beta m with Some b => [b] | None => [] end.

#[global] Instance TransformerLayer_Module {F : Type}
  : NNModule (TransformerLayer.t F loc) :=
  fun m => named_parameters (TransformerLayer.norm1 m)
           ++ named_parameters (TransformerLayer.attention m)
           ++ named_parameters (TransformerLayer.norm2 m)
           ++ named_parameters (TransformerLayer.feedforward m).

#[global] Instance MiniGPT_Module {F : Type} : NNModule (MiniGPT.t F loc) :=
  fun m => named_parameters (MiniGPT.vocab_embedding m)
           ++ named_parameters (MiniGPT.positional_embedding m)
           ++ concat (map named_parameters (MiniGPT.transformer_layers m))
           ++ named_parameters (MiniGPT.prehead_norm m)
           ++ named_parameters (MiniGPT.head m).

#[global] Instance BigramLanguageModel_Module {F : Type}
  : NNModule (BigramLanguageModel.t F loc) :=
  fun m => named_parameters (BigramLanguageModel.embeddings m)
           ++ named_parameters (BigramLanguageModel.linear m).

Section Train.
Context {F : Type} `{Scalar F} `{Random F}.

(** A parameter object that was already yielded is skipped when it is
    reached again. *)
Fixpoint remove_duplicate (memo : gset loc) (ps : list loc) : list loc :=
  match ps with
  | [] => []
  | p :: rest =>
      if decide (p ∈ memo) then remove_duplicate memo rest
      else p :: remove_duplicate ({[p]} ∪ memo) rest
  end.

(** [model.parameters()]. *)
Definition parameters {T : Type} `{NNModule T} (model : T) : list loc :=
  remove_duplicate ∅ (named_parameters model).

(** [p.numel()]. *)
Definition numel (t : Tensor F) : nat := d0 t * d1 t * d2 t.

(** [sum(p.numel() for p in model.parameters() if p.requires_grad)].  The
    flag [requires_grad] of a parameter object is kept by the library; it
    is taken as an argument. *)
Definition count_parameters {T : Type} `{NNModule T} (requires_grad : loc -> bool)
    (h : gmap loc (Tensor F)) (model : T) : nat :=
  list_sum (map (fun p => numel (load h p)) (List.filter requires_grad (parameters model))).

End Train.

(* ================================================================= *)
(** * Specification-level definitions for the other classes *)

Section SPEC_OTHER.
Context {F : Type} `{Scalar F} `{Random F}.

(** The token at row [b], position [i] of a token tensor. *)
Definition token_at (x : Tokens) (b i : nat) : nat :=
  match x with Tok1 l => nth i l 0 | Tok2 _ _ tok => tok b i end.

Definition BigramLanguageModel_shaped (config : BigramLanguageModel.Config F)
    (m : BigramLanguageModel.t F (Tensor F)) : Prop :=
  shape (Embedding.weight (BigramLanguageModel.embeddings m))
    = (1, BigramLanguageModel.vocab_size config, BigramLanguageModel.embed_dim config) /\
  Linear_shaped (BigramLanguageModel.embed_dim config)
    (BigramLanguageModel.vocab_size config) (BigramLanguageModel.linear m).

Definition EncoderBlock_shaped (d num_heads : nat) (m : EncoderBlock.t F (Tensor F)) : Prop :=
  MultiHeadAttention_shaped d num_heads (EncoderBlock.attention m) /\
  LayerNorm_shaped d (EncoderBlock.norm1 m) /\
  FeedForwardLayer_shaped d (EncoderBlock.feedforward m) /\
  LayerNorm_shaped d (EncoderBlock.norm2 m).

Definition Encoder_shaped (config : MiniGPT.Config F) (m : Encoder.t F (Tensor F)) : Prop :=
  shape (Embedding.weight (Encoder.vocab_embedding m))
    = (1, MiniGPT.vocab_size config, MiniGPT.embed_dim config) /\
  shape (Embedding.weight (Encoder.positional_embedding m))
    = (1, MiniGPT.context_length config, MiniGPT.embed_dim config) /\
  Encoder.pos m = arange (MiniGPT.context_length config) /\
  length (Encoder.encoder_blocks m) = MiniGPT.num_layers config /\
  Forall (EncoderBlock_shaped (MiniGPT.embed_dim config) (MiniGPT.cfg_num_heads config))
         (Encoder.encoder_blocks m).

(** The logit of token [t] after token [tok]: the embedding of [tok]
    against row [t] of the linear layer, plus the bias. *)
Definition bigram_logit (m : BigramLanguageModel.t F (Tensor F)) (tok t : nat) : F :=
  let e := Embedding.weight (BigramLanguageModel.embeddings m) in
  let l := BigramLanguageModel.linear m in
  let dot := sum_n (d2 e) (fun k => fmul (el e 0 tok k) (el (Linear.weight l) 0 t k)) in
  match Linear.bias l with
  | Some bs => fadd dot (el bs 0 0 (bidx (d2 bs) t))
  | None => dot
  end.

(** The probability with which the bigram model samples token [t] after
    token [tok]: the softmax of the logits of [tok]. *)
Definition bigram_next_token_prob (m : BigramLanguageModel.t F (Tensor F)) (tok t : nat) : F :=
  fdiv (fexp (bigram_logit m tok t))
       (sum_n (d1 (Linear.weight (BigramLanguageModel.linear m)))
              (fun j => fexp (bigram_logit m tok j))).

(** The number of elements of the parameters of one transformer layer
    over [d] features with [num_heads] heads: two norms, the three
    bias-free projections of every head, the output projection, and the
    two linear layers of the feed-forward block. *)
Definition layer_parameter_count (d num_heads : nat) : nat :=
  2 * d
  + (num_heads * (3 * (head_width d num_heads * d)) + (d * d + d))
  + 2 * d
  + ((d * 4 * d + d * 4) + (d * (d * 4) + d)).

(** The elements of all the parameter objects a [MiniGPT] holds: with
    tied weights the embedding table is also the weight of the head. *)
Definition model_parameter_count (config : MiniGPT.Config F) : nat :=
  let V := MiniGPT.vocab_size config in
  let D := MiniGPT.embed_dim config in
  V * D + MiniGPT.context_length config * D
  + MiniGPT.num_layers config * layer_parameter_count D (MiniGPT.cfg_num_heads config)
  + 2 * D
  + (if MiniGPT.weight_tie config then 0 else V * D) + V.

(** A computation that neither draws from the generator nor touches the
    store: it is a result, whatever the state. *)
Definition pure_run {A : Type} (c : M F A) : Prop :=
  exists r : result A, forall w, c w = lift r w.

(** The elements held at a list of locations. *)
Definition total (h : gmap loc (Tensor F)) (ps : list loc) : nat :=
  list_sum (map (fun p => numel (load h p)) ps).

(** A constructor that allocates the parameters of the module it returns
    one after the other, [n] elements in all. *)
Definition counts {T : Type} `{NNModule T} (init : M F T) (n : nat) : Prop :=
  forall w m w', init w = Ok (m, w') ->
    later w w' /\
    named_parameters m = seq (next w) (next w' - next w) /\
    total (heap w') (named_parameters m) = n.

End SPEC_OTHER.

(* ================================================================= *)
(** * More concrete modules and inputs *)

Module Samples.
#[local] Existing Instance RealScalar.exact.
#[local] Existing Instance Counter.random.

(** A bigram configuration: three tokens in the vocabulary, four
    embedding features. *)
Definition bigram_config : BigramLanguageModel.Config R :=
  BigramLanguageModel.mkConfig 3 4 (lit 1 (-1)).

(** The small configuration of [Examples.tiny_config] with its weights
    not tied, with zero attention heads, and with an explicit feed-forward
    width. *)
Definition untied_config (context_length : nat) : MiniGPT.Config R :=
  MiniGPT.mkConfig 3 4 context_length (lit 1 (-1)) 2 None 2 false.

Definition headless_config (num_layers : nat) : MiniGPT.Config R :=
  MiniGPT.mkConfig 3 4 16 (lit 1 (-1)) 0 None num_layers true.

Definition wide_config : MiniGPT.Config R :=
  MiniGPT.mkConfig 3 4 16 (lit 1 (-1)) 2 (Some 7) 2 true.

(** Every parameter requires a gradient. *)
Definition all_trainable (p : loc) : bool := true.

End Samples.

(* ================================================================= *)
(** * Properties *)

Unset Implicit Arguments.

(** ** The monad *)

Section MONAD_FACTS.
Context {F : Type} `{Scalar F} `{Random F}.

Lemma bind_unfold {A B : Type} (m : M F A) (f : A -> M F B) (w : World F) :
  (m ≫= f) w = match m w with Ok (a, w') => f a w' | Err e => Err e end.
Proof. reflexivity. Qed.

Lemma bind_ok {A B : Type} (m : M F A) (f : A -> M F B) w b w' :
  (m ≫= f) w = Ok (b, w') ->
  exists a w1, m w = Ok (a, w1) /\ f a w1 = Ok (b, w').
Proof.
  rewrite bind_unfold. destruct (m w) as [[a w1]|e]; [|discriminate].
  intros Hf. exists a, w1. split; [reflexivity|exact Hf].
Qed.

Lemma bind_step {A B : Type} (m : M F A) (f : A -> M F B) w a w1 :
  m w = Ok (a, w1) -> (m ≫= f) w = f a w1.
Proof. intros Hm. rewrite bind_unfold, Hm. reflexivity. Qed.

Lemma lift_ok {A : Type} (r : result A) w a w' :
  lift r w = Ok (a, w') -> r = Ok a /\ w' = w.
Proof. destruct r; simpl; intros Hr; inversion Hr; auto. Qed.

Lemma lift_Ok {A : Type} (a : A) (w : World F) : lift (Ok a) w = Ok (a, w).
Proof. reflexivity. Qed.

Lemma lift_Err {A : Type} (e : error) (w : World F) : lift (Err e : result A) w = Err e.
Proof. reflexivity. Qed.

Lemma ret_unfold {A : Type} (a : A) (w : World F) : (mret a : M F A) w = Ok (a, w).
Proof. reflexivity. Qed.

End MONAD_FACTS.

(** Pushes a computation through the binds whose first action is known. *)
Ltac run_monad :=
  repeat (rewrite ?bind_unfold, ?lift_Ok, ?lift_Err, ?ret_unfold; cbn beta iota).

(** ** C2: the causal mask *)

Section CAUSAL_MASK.
Context {F : Type} `{Scalar F} `{Random F}.

Lemma triu_ones_entry (n : nat) (b i j : nat) :
  el (triu (ones2 n n) 1) b i j = if i <? j then fone else fzero.
Proof.
  simpl. destruct (Nat.ltb_spec i j) as [Hlt|Hge].
  - destruct (Z.leb_spec 1 (Z.of_nat j - Z.of_nat i)) as [_|Hz]; [reflexivity|lia].
  - destruct (Z.leb_spec 1 (Z.of_nat j - Z.of_nat i)) as [Hz|_]; [lia|reflexivity].
Qed.

Lemma Linear_init_total (i o : nat) (b : bool) (w : World F) :
  exists m w', Linear.__init__ i o b w = Ok (m, w').
Proof.
  unfold Linear.__init__. rewrite bind_unfold. unfold draw_uniform at 1.
  destruct (uniform (gen w) _ _) as [v g]. rewrite bind_unfold. unfold alloc at 1.
  destruct b.
  - rewrite bind_unfold. unfold draw_uniform. simpl gen.
    destruct (uniform g _ _) as [v' g']. rewrite bind_unfold. unfold alloc.
    eexists _, _. reflexivity.
  - eexists _, _. reflexivity.
Qed.

Lemma SingleHeadAttention_init_inv input_dim kq v p max_len (w : World F) m w' :
  SingleHeadAttention.__init__ input_dim kq v p max_len w = Ok (m, w') ->
  exists key w1 query w2 value,
    Linear.__init__ input_dim (or_default kq input_dim) false w = Ok (key, w1) /\
    Linear.__init__ input_dim (or_default kq input_dim) false w1 = Ok (query, w2) /\
    Linear.__init__ input_dim (or_default v input_dim) false w2 = Ok (value, w') /\
    m = SingleHeadAttention.mk input_dim (or_default kq input_dim)
          (or_default v input_dim) key query value (Dropout.__init__ p)
          (triu (ones2 max_len max_len) 1).
Proof.
  unfold SingleHeadAttention.__init__. intros Hinit.
  apply bind_ok in Hinit as (key & w1 & Hk & Hinit).
  apply bind_ok in Hinit as (query & w2 & Hq & Hinit).
  apply bind_ok in Hinit as (value & w3 & Hv & Hinit).
  rewrite ret_unfold in Hinit. inversion Hinit; subst.
  exists key, w1, query, w2, value. auto.
Qed.

Lemma SingleHeadAttention_init_total input_dim kq v p max_len (w : World F) :
  exists m w', SingleHeadAttention.__init__ input_dim kq v p max_len w = Ok (m, w').
Proof.
  unfold SingleHeadAttention.__init__.
  destruct (Linear_init_total input_dim (or_default kq input_dim) false w)
    as (key & w1 & Hk).
  destruct (Linear_init_total input_dim (or_default kq input_dim) false w1)
    as (query & w2 & Hq).
  destruct (Linear_init_total input_dim (or_default v input_dim) false w2)
    as (value & w3 & Hv).
  rewrite (bind_step _ _ _ _ _ Hk), (bind_step _ _ _ _ _ Hq), (bind_step _ _ _ _ _ Hv).
  eexists _, _. reflexivity.
Qed.

(** C2.  For every [max_len] (and every other constructor argument), the
    constructor of [SingleHeadAttention] returns a module whose
    [causal_mask] buffer is a [max_len x max_len] matrix with entry
    [(i, j)] equal to 1 when [j > i] and to 0 otherwise; in particular the
    diagonal is zero. *)
Theorem causal_mask_strictly_upper_triangular
    (input_dim : nat) (kq v : option nat) (p : F) (max_len : nat) (w : World F) :
  exists m w',
    SingleHeadAttention.__init__ input_dim kq v p max_len w = Ok (m, w') /\
    shape (SingleHeadAttention.causal_mask m) = (1, max_len, max_len) /\
    (forall i j, el (SingleHeadAttention.causal_mask m) 0 i j
                 = if i <? j then fone else fzero) /\
    (forall i, el (SingleHeadAttention.causal_mask m) 0 i i = fzero).
Proof.
  destruct (SingleHeadAttention_init_total input_dim kq v p max_len w)
    as (m & w' & Hinit).
  exists m, w'. split; [exact Hinit|].
  apply SingleHeadAttention_init_inv in Hinit
    as (key & w1 & query & w2 & value & _ & _ & _ & ->).
  cbn [SingleHeadAttention.causal_mask].
  split; [reflexivity|]. split.
  - intros i j. apply triu_ones_entry.
  - intros i. rewrite triu_ones_entry, Nat.ltb_irrefl. reflexivity.
Qed.

End CAUSAL_MASK.

(** ** C4: the transformer layer is a pre-norm residual block *)

Section TRANSFORMER_LAYER.
Context {F : Type} `{Scalar F} `{Random F}.

(** C4.  For every input [x] (and every state of the generator),
    [TransformerLayer.forward] computes
    [feedforward(norm2(a + x)) + (a + x)] with [a = attention(norm1(x))]
    computed once: two pre-norm residual sublayers in sequence, each
    normalising its input before the sublayer and adding the sublayer's
    output to the unnormalised stream.  The equation covers the runs that
    raise as well: both sides raise the same error. *)
Theorem transformer_layer_is_prenorm_block
    (m : TransformerLayer.t F (Tensor F)) (x : Tensor F) (w : World F) :
  TransformerLayer.forward m x w = prenorm_block m x w.
Proof.
  unfold TransformerLayer.forward, prenorm_block, prenorm_residual.
  run_monad.
  destruct (LayerNorm.forward (TransformerLayer.norm1 m) x) as [n1|e];
    run_monad; [|reflexivity].
  destruct (MultiHeadAttention.forward (TransformerLayer.attention m) n1 w)
    as [[a w1]|e]; run_monad; [|reflexivity].
  destruct (tadd a x) as [cache|e]; run_monad; [|reflexivity].
  destruct (LayerNorm.forward (TransformerLayer.norm2 m) cache) as [n2|e];
    run_monad; [|reflexivity].
  destruct (FeedForwardLayer.forward (TransformerLayer.feedforward m) n2 w1)
    as [[f w2]|e]; run_monad; [|reflexivity].
  destruct (tadd f cache) as [out|e]; run_monad; reflexivity.
Qed.

End TRANSFORMER_LAYER.

(** ** Shapes and elements of the library operations *)

Section TENSOR_FACTS.
Context {F : Type} `{Scalar F}.

Lemma bdim_refl (a : nat) : bdim a a = Some a.
Proof. unfold bdim. rewrite Nat.eqb_refl. reflexivity. Qed.

Lemma bdim_1_r (a : nat) : bdim a 1 = Some a.
Proof.
  unfold bdim. destruct (Nat.eqb_spec a 1) as [->|Hne]; [reflexivity|].
  reflexivity.
Qed.

Lemma bdim_None (a b : nat) : a <> b -> a <> 1 -> b <> 1 -> bdim a b = None.
Proof.
  intros Hab Ha Hb. unfold bdim.
  destruct (Nat.eqb_spec a b); [contradiction|].
  destruct (Nat.eqb_spec a 1); [contradiction|].
  destruct (Nat.eqb_spec b 1); [contradiction|reflexivity].
Qed.

Lemma bidx_lt (a i : nat) : i < a -> bidx a i = i.
Proof.
  intros Hi. unfold bidx. destruct (Nat.eqb_spec a 1) as [->|_]; [lia|reflexivity].
Qed.

Lemma bidx_1 (i : nat) : bidx 1 i = 0.
Proof. reflexivity. Qed.

Lemma expandable_refl (a : nat) : expandable a a = true.
Proof. unfold expandable. rewrite Nat.eqb_refl. reflexivity. Qed.

Lemma expandable_1 (a : nat) : expandable 1 a = true.
Proof. unfold expandable. rewrite orb_true_r. reflexivity. Qed.

Lemma sum_n_ext (n : nat) (f g : nat -> F) :
  (forall k, k < n -> f k = g k) -> sum_n n f = sum_n n g.
Proof.
  induction n as [|n IH]; intros Hfg; simpl; [reflexivity|].
  rewrite IH by (intros k Hk; apply Hfg; lia).
  rewrite Hfg by lia. reflexivity.
Qed.

(** Adding a tensor of the same shape. *)
Lemma broadcast2_same (o : op) (f : F -> F -> F) (x y : Tensor F) :
  shape x = shape y ->
  exists out, broadcast2 o f x y = Ok out /\ shape out = shape x /\
    forall i j k, i < d0 x -> j < d1 x -> k < d2 x ->
      el out i j k = f (el x i j k) (el y i j k).
Proof.
  unfold shape. intros Hs. injection Hs as Hs0 Hs1 Hs2.
  unfold broadcast2. rewrite <- Hs0, <- Hs1, <- Hs2, !bdim_refl.
  eexists. split; [reflexivity|]. split; [reflexivity|].
  intros i j k Hi Hj Hk. cbn [el]. rewrite !bidx_lt by assumption. reflexivity.
Qed.

(** Combining with a tensor that has one value per row (last dimension 1). *)
Lemma broadcast2_per_row (o : op) (f : F -> F -> F) (x y : Tensor F) :
  shape y = (d0 x, d1 x, 1) ->
  exists out, broadcast2 o f x y = Ok out /\ shape out = shape x /\
    forall i j k, i < d0 x -> j < d1 x -> k < d2 x ->
      el out i j k = f (el x i j k) (el y i j 0).
Proof.
  unfold shape. intros Hs. injection Hs as Hs0 Hs1 Hs2.
  unfold broadcast2. rewrite Hs0, Hs1, Hs2, !bdim_refl, bdim_1_r.
  eexists. split; [reflexivity|]. split; [reflexivity|].
  intros i j k Hi Hj Hk. cbn [el]. rewrite bidx_1, !bidx_lt by assumption.
  reflexivity.
Qed.

(** Combining with a vector along the feature axis. *)
Lemma broadcast2_per_feature (o : op) (f : F -> F -> F) (x y : Tensor F) :
  shape y = (1, 1, d2 x) ->
  exists out, broadcast2 o f x y = Ok out /\ shape out = shape x /\
    forall i j k, i < d0 x -> j < d1 x -> k < d2 x ->
      el out i j k = f (el x i j k) (el y 0 0 k).
Proof.
  unfold shape. intros Hs. injection Hs as Hs0 Hs1 Hs2.
  unfold broadcast2. rewrite Hs0, Hs1, Hs2, !bdim_refl, !bdim_1_r.
  eexists. split; [reflexivity|]. split; [reflexivity|].
  intros i j k Hi Hj Hk. cbn [el]. rewrite !bidx_1, !bidx_lt by assumption.
  reflexivity.
Qed.

Lemma shape_dims (x y : Tensor F) :
  shape x = shape y -> d0 x = d0 y /\ d1 x = d1 y /\ d2 x = d2 y.
Proof. unfold shape. intros Hs. injection Hs as -> -> ->. auto. Qed.

Lemma linear_shape (x wt : Tensor F) (bias : option (Tensor F)) :
  d2 x = d2 wt ->
  (forall bs, bias = Some bs -> d2 bs = d1 wt) ->
  exists out, linear x wt bias = Ok out /\ shape out = (d0 x, d1 x, d1 wt).
Proof.
  intros Hx Hb. unfold linear. rewrite Hx, Nat.eqb_refl.
  destruct bias as [bs|].
  - rewrite (Hb bs eq_refl), expandable_refl. eexists. split; reflexivity.
  - eexists. split; reflexivity.
Qed.

Lemma linear_mismatch (x wt : Tensor F) (bias : option (Tensor F)) :
  d2 x <> d2 wt -> linear x wt bias = Err (RuntimeError OpLinear).
Proof.
  intros Hx. unfold linear. destruct (Nat.eqb_spec (d2 x) (d2 wt)); [contradiction|].
  reflexivity.
Qed.

Lemma linear_ok (x wt : Tensor F) (bias : option (Tensor F)) :
  d2 x = d2 wt ->
  (forall bs, bias = Some bs -> d2 bs = d1 wt) ->
  linear x wt bias =
  Ok (mkT (d0 x) (d1 x) (d1 wt)
        (fun b i o =>
           let dot := sum_n (d2 x) (fun t => fmul (el x b i t) (el wt 0 o t)) in
           match bias with
           | Some bs => fadd dot (el bs 0 0 (bidx (d2 bs) o))
           | None => dot
           end)).
Proof.
  intros Hx Hb. unfold linear. rewrite Hx, Nat.eqb_refl.
  destruct bias as [bs|]; [|reflexivity].
  rewrite (Hb bs eq_refl), expandable_refl. reflexivity.
Qed.

Lemma matmul_ok (x y : Tensor F) :
  d0 x = d0 y -> d2 x = d1 y ->
  matmul x y =
  Ok (mkT (d0 x) (d1 x) (d2 y)
        (fun i j k =>
           sum_n (d2 x) (fun t =>
             fmul (el x (bidx (d0 x) i) j t) (el y (bidx (d0 y) i) t k)))).
Proof.
  intros H0 H1. unfold matmul. rewrite <- H0, bdim_refl, H1, Nat.eqb_refl.
  reflexivity.
Qed.

Lemma masked_fill_ok (t : Tensor F) (mask : BoolTensor) (v : F) :
  b0 mask = 1 -> b1 mask = d1 t -> b2 mask = d2 t ->
  masked_fill_ t mask v =
  Ok (mkT (d0 t) (d1 t) (d2 t)
        (fun i j k =>
           if bel mask (bidx (b0 mask) i) (bidx (b1 mask) j) (bidx (b2 mask) k)
           then v else el t i j k)).
Proof.
  intros H0 H1 H2. unfold masked_fill_.
  rewrite H0, H1, H2, expandable_1, !expandable_refl. reflexivity.
Qed.

End TENSOR_FACTS.

(** ** LayerNorm *)

Section LAYER_NORM.
Context {F : Type} `{Scalar F} `{Random F}.

Lemma LayerNorm_forward_el (m : LayerNorm.t F (Tensor F)) (g b x : Tensor F) :
  affine_for (d2 x) m g b ->
  exists out, LayerNorm.forward m x = Ok out /\ shape out = shape x /\
    forall i j k, i < d0 x -> j < d1 x -> k < d2 x ->
      el out i j k =
      fadd (fmul (fdiv (fsub (el x i j k) (el (mean_last x) 0 i j))
                       (fsqrt (fadd (el (var_last x) 0 i j) (LayerNorm.eps m))))
                 (el g 0 0 k))
           (el b 0 0 k).
Proof.
  intros (Hg & Hb & Hsg & Hsb).
  destruct (broadcast2_per_row OpSub fsub x (unsqueeze_last (mean_last x)) eq_refl)
    as (c & Hc & Hsc & Hec).
  destruct (shape_dims _ _ Hsc) as (Hc0 & Hc1 & Hc2).
  destruct (broadcast2_per_row OpDiv fdiv c
              (tsqrt (tadd_scalar (unsqueeze_last (var_last x)) (LayerNorm.eps m))))
    as (n & Hn & Hsn & Hen).
  { unfold shape. cbn [d0 d1 d2 tsqrt tadd_scalar tmap unsqueeze_last var_last].
    rewrite Hc0, Hc1. reflexivity. }
  destruct (shape_dims _ _ Hsn) as (Hn0 & Hn1 & Hn2).
  destruct (broadcast2_per_feature OpMul fmul n g) as (s & Hs & Hss & Hes).
  { rewrite Hsg, Hn2, Hc2. reflexivity. }
  destruct (shape_dims _ _ Hss) as (Hs0 & Hs1 & Hs2).
  destruct (broadcast2_per_feature OpAdd fadd s b) as (out & Ho & Hso & Heo).
  { rewrite Hsb, Hs2, Hn2, Hc2. reflexivity. }
  exists out. split; [|split].
  - unfold LayerNorm.forward, tsub, tdiv, tmul, tadd. rewrite Hc.
    cbn [mbind result_bind rbind]. rewrite Hn, Hg.
    cbn [mbind result_bind rbind LayerNorm.attr]. rewrite Hs, Hb.
    cbn [mbind result_bind rbind LayerNorm.attr]. exact Ho.
  - rewrite Hso, Hss, Hsn, Hsc. reflexivity.
  - intros i j k Hi Hj Hk.
    rewrite Heo by lia. rewrite Hes by lia. rewrite Hen by lia.
    rewrite Hec by lia. reflexivity.
Qed.

End LAYER_NORM.

(** ** C6: the moments of the LayerNorm output, in exact arithmetic *)

Section LAYER_NORM_EXACT.
#[local] Existing Instance RealScalar.exact.
#[local] Open Scope R_scope.

Lemma sum_n_scale (n : nat) (f : nat -> R) (c : R) :
  sum_n n (fun k => f k * c) = sum_n n f * c.
Proof.
  induction n as [|n IH]; cbn [sum_n fadd fzero RealScalar.exact]; [ring|].
  rewrite IH. ring.
Qed.

Lemma sum_n_shift (n : nat) (f : nat -> R) (c : R) :
  sum_n n (fun k => f k - c) = sum_n n f - INR n * c.
Proof.
  induction n as [|n IH]; [cbn; ring|].
  rewrite S_INR. cbn [sum_n fadd fzero RealScalar.exact]. rewrite IH. ring.
Qed.

Lemma sum_n_squares_nonneg (n : nat) (f : nat -> R) :
  0 <= sum_n n (fun k => f k * f k).
Proof.
  induction n as [|n IH]; cbn [sum_n fadd fzero RealScalar.exact]; [lra|].
  pose proof (Rle_0_sqr (f n)) as Hsq. unfold Rsqr in Hsq. lra.
Qed.

(** The biased variance of a row is never negative. *)
Lemma var_last_nonneg (x : Tensor R) (i j : nat) :
  0 <= el (var_last x) 0 i j.
Proof.
  cbn [var_last el fdiv fmul fsub of_nat RealScalar.exact].
  set (mu := sum_n (d2 x) (el x i j) / INR (d2 x)).
  pose proof (sum_n_squares_nonneg (d2 x) (fun k => el x i j k - mu)) as Hs.
  cbn beta in Hs.
  destruct (d2 x) as [|n] eqn:Hd.
  - cbn [INR]. unfold Rdiv. rewrite Rinv_0. lra.
  - apply Rmult_le_pos; [exact Hs|].
    apply Rlt_le, Rinv_0_lt_compat, lt_0_INR. lia.
Qed.

Lemma decimal_pos (m e : Z) : (0 < m)%Z -> 0 < RealScalar.decimal m e.
Proof.
  intros Hm. unfold RealScalar.decimal.
  apply Rmult_lt_0_compat; [apply IZR_lt; exact Hm|].
  apply powerRZ_lt. lra.
Qed.

(** With unit scale and zero shift, a row of the output has mean zero and
    biased variance [v / (v + eps)], where [v] is the biased variance of
    the input row. *)
Lemma LayerNorm_moments (m : LayerNorm.t R (Tensor R)) (g b x : Tensor R) :
  affine_for (d2 x) m g b ->
  (forall k, (k < d2 x)%nat -> el g 0 0 k = 1) ->
  (forall k, (k < d2 x)%nat -> el b 0 0 k = 0) ->
  0 < LayerNorm.eps m ->
  (0 < d2 x)%nat ->
  exists out, LayerNorm.forward m x = Ok out /\ shape out = shape x /\
    forall i j, (i < d0 x)%nat -> (j < d1 x)%nat ->
      el (mean_last out) 0 i j = 0 /\
      el (var_last out) 0 i j
      = el (var_last x) 0 i j / (el (var_last x) 0 i j + LayerNorm.eps m).
Proof.
  intros Haff Hg Hb Heps Hd.
  destruct (LayerNorm_forward_el m g b x Haff) as (out & Hout & Hs & Hel).
  exists out. split; [exact Hout|]. split; [exact Hs|].
  intros i j Hi Hj.
  destruct (shape_dims _ _ Hs) as (Ho0 & Ho1 & Ho2).
  pose proof (var_last_nonneg x i j) as Hv.
  set (v := el (var_last x) 0 i j) in *.
  set (mu := el (mean_last x) 0 i j).
  set (s := sqrt (v + LayerNorm.eps m)).
  assert (Hs0 : 0 < s) by (apply sqrt_lt_R0; lra).
  assert (Hss : s * s = v + LayerNorm.eps m) by (apply sqrt_sqrt; lra).
  assert (Hn : 0 < INR (d2 x)) by (apply lt_0_INR; exact Hd).
  assert (Hrow : forall k, (k < d2 x)%nat -> el out i j k = (el x i j k - mu) * / s).
  { intros k Hk. rewrite (Hel i j k Hi Hj Hk), (Hg k Hk), (Hb k Hk).
    cbn [fadd fmul fdiv fsub fsqrt RealScalar.exact]. fold v mu s.
    unfold Rdiv. ring. }
  assert (Hsum : sum_n (d2 x) (el out i j) = 0).
  { rewrite (sum_n_ext (d2 x) (el out i j) (fun k => (el x i j k - mu) * / s) Hrow).
    rewrite sum_n_scale, sum_n_shift.
    unfold mu. cbn [mean_last el fdiv of_nat RealScalar.exact].
    field. split; lra. }
  assert (Hmean : el (mean_last out) 0 i j = 0).
  { cbn [mean_last el fdiv of_nat RealScalar.exact]. rewrite Ho2, Hsum.
    unfold Rdiv. ring. }
  split; [exact Hmean|].
  cbn [mean_last el fdiv of_nat RealScalar.exact] in Hmean.
  cbn [var_last el fdiv fmul fsub of_nat RealScalar.exact].
  rewrite Ho2 in *. rewrite Hsum.
  replace (0 / INR (d2 x)) with 0 by (unfold Rdiv; ring).
  rewrite (sum_n_ext (d2 x) _
             (fun k => (el x i j k - mu) * (el x i j k - mu) * / (s * s))).
  2:{ intros k Hk. rewrite (Hrow k Hk). field. lra. }
  rewrite sum_n_scale, Hss.
  assert (Hvdef : sum_n (d2 x) (fun k => (el x i j k - mu) * (el x i j k - mu))
                  = v * INR (d2 x)).
  { unfold v, mu. cbn [var_last mean_last el fdiv fmul fsub of_nat RealScalar.exact].
    field. lra. }
  rewrite Hvdef. field. split; lra.
Qed.


Lemma unit_norm_affine (d : nat) (x : Tensor R) :
  d2 x = d -> affine_for (d2 x) (Examples.unit_norm d) (ones1 d) (zeros1 d).
Proof. intros ->. repeat split. Qed.

Lemma default_eps_pos : 0 < LayerNorm.default_eps.
Proof. apply decimal_pos. lia. Qed.



End LAYER_NORM_EXACT.

(** ** SingleHeadAttention: shape and elements of the output *)

Section ATTENTION.
Context {F : Type} `{Scalar F} `{Random F}.

Lemma Dropout_forward_spec (m : Dropout.t F) (x : Tensor F) (w : World F) :
  exists y w', Dropout.forward m x w = Ok (y, w') /\ shape y = shape x /\
    (Dropout.training m = false -> y = x /\ w' = w).
Proof.
  unfold Dropout.forward. destruct (Dropout.training m).
  - rewrite bind_unfold. unfold draw_bernoulli.
    destruct (bernoulli (gen w) _) as [keep g].
    eexists _, _. split; [reflexivity|]. split; [reflexivity|]. discriminate.
  - exists x, w. split; [reflexivity|]. split; [reflexivity|]. auto.
Qed.

Lemma SingleHeadAttention_forward_spec (d kq dv max_len : nat)
    (m : SingleHeadAttention.t F (Tensor F)) (x : Tensor F) (w : World F) :
  SingleHeadAttention_shaped d kq dv max_len m ->
  d2 x = d -> d1 x <= max_len ->
  exists y w', SingleHeadAttention.forward m x w = Ok (y, w') /\
    shape y = (d0 x, d1 x, dv) /\
    (Dropout.training (SingleHeadAttention.dropout m) = false ->
     w' = w /\
     forall b i k, b < d0 x -> i < d1 x ->
       el y b i k = sum_n (d1 x) (fun j =>
                      fmul (attention_weight m x b i j)
                           (projection (SingleHeadAttention.value m) x b j k))).
Proof.
  intros (Hkq & (Hq2 & Hq1 & Hqb) & (Hk2 & Hk1 & Hkb) & (Hv2 & Hv1 & Hvb) & Hmask)
         Hx Hn.
  unfold SingleHeadAttention.forward, Linear.forward.
  rewrite (linear_ok x _ _ (eq_trans Hx (eq_sym Hq2))
             (fun bs Hbs => eq_trans (Hqb bs Hbs) (eq_sym Hq1))).
  rewrite (linear_ok x _ _ (eq_trans Hx (eq_sym Hk2))
             (fun bs Hbs => eq_trans (Hkb bs Hbs) (eq_sym Hk1))).
  rewrite (linear_ok x _ _ (eq_trans Hx (eq_sym Hv2))
             (fun bs Hbs => eq_trans (Hvb bs Hbs) (eq_sym Hv1))).
  run_monad.
  rewrite matmul_ok; [|reflexivity|cbn [d1 d2 transpose]; congruence].
  run_monad.
  rewrite masked_fill_ok; cbn [b0 b1 b2 d0 d1 d2 teq_scalar slice2 tdiv_scalar tmap
                               transpose]; rewrite ?Hmask; cbn [d0 d1 d2 triu ones2];
    [|reflexivity|lia|lia].
  run_monad.
  match goal with
  | |- context [Dropout.forward ?dm ?t w] =>
      destruct (Dropout_forward_spec dm t w) as (a & w' & Ha & Hsa & Heval)
  end.
  rewrite Ha.
  destruct (shape_dims _ _ Hsa) as (Ha0 & Ha1 & Ha2).
  cbn [d0 d1 d2 softmax] in Ha0, Ha1, Ha2.
  rewrite matmul_ok; [|exact Ha0|exact Ha2].
  rewrite lift_Ok.
  eexists _, w'. split; [reflexivity|]. split.
  { unfold shape. cbn [d0 d1 d2]. rewrite Ha0, Ha1, Hv1. reflexivity. }
  intros Htr. destruct (Heval Htr) as (-> & ->). split; [reflexivity|].
  intros b i k Hb Hi.
  cbn [el d0 d1 d2 softmax tdiv_scalar tmap transpose teq_scalar slice2 bel b0 b1 b2].
  rewrite !(bidx_lt _ _ Hb), bidx_1.
  replace (Nat.min (d1 x) max_len) with (d1 x) by lia.
  rewrite !(bidx_lt _ _ Hi).
  apply sum_n_ext. intros j Hj. rewrite !(bidx_lt _ _ Hj).
  unfold attention_weight, masked_score, score, projection. rewrite Hmask.
  f_equal. f_equal. apply sum_n_ext. intros j' Hj'.
  rewrite !(bidx_lt _ _ Hj'). reflexivity.
Qed.

End ATTENTION.

(** ** C1: causality of single-head attention *)

Section CAUSALITY.
Context {F : Type} `{Scalar F} `{Random F}.

Lemma projection_agree (l : Linear.t (Tensor F)) (x x' : Tensor F) (b p o : nat) :
  d2 x = d2 x' ->
  (forall k, k < d2 x -> el x b p k = el x' b p k) ->
  projection l x b p o = projection l x' b p o.
Proof.
  intros Hd Hrow. unfold projection. rewrite <- Hd.
  rewrite (sum_n_ext (d2 x) _ (fun t => fmul (el x' b p t) (el (Linear.weight l) 0 o t))).
  - reflexivity.
  - intros t Ht. rewrite (Hrow t Ht). reflexivity.
Qed.

Section AGREE.
Variables (max_len : nat) (m : SingleHeadAttention.t F (Tensor F)).
Variables (x x' : Tensor F) (i : nat).
Hypothesis Hmask :
  SingleHeadAttention.causal_mask m = triu (ones2 max_len max_len) 1.
Hypothesis Hone : feqb fone fone = true.
Hypothesis Hagree : rows_agree_upto i x x'.

Lemma masked_score_future (y : Tensor F) (b j : nat) :
  i < j -> masked_score m y b i j = lit (-1) 10.
Proof.
  intros Hij. unfold masked_score. rewrite Hmask, triu_ones_entry.
  destruct (Nat.ltb_spec i j) as [_|Hge]; [|lia]. rewrite Hone. reflexivity.
Qed.

Lemma masked_score_agree (b j : nat) :
  b < d0 x -> i < d1 x -> j < d1 x ->
  masked_score m x b i j = masked_score m x' b i j.
Proof.
  intros Hb Hi Hj. destruct Hagree as (Hs & Hrows).
  destruct (shape_dims _ _ Hs) as (_ & _ & Hd2).
  destruct (Nat.lt_ge_cases i j) as [Hlt|Hge].
  - rewrite !masked_score_future by exact Hlt. reflexivity.
  - unfold masked_score, score.
    destruct (feqb (el (SingleHeadAttention.causal_mask m) 0 i j) fone);
      [reflexivity|].
    f_equal. apply sum_n_ext. intros t _.
    rewrite (projection_agree _ x x' b i t Hd2)
      by (intros k Hk; apply Hrows; [exact Hb|lia|exact Hi|exact Hk]).
    rewrite (projection_agree _ x x' b j t Hd2)
      by (intros k Hk; apply Hrows; [exact Hb|lia|exact Hj|exact Hk]).
    reflexivity.
Qed.

Lemma attention_weight_agree (b j : nat) :
  b < d0 x -> i < d1 x -> j < d1 x ->
  attention_weight m x b i j = attention_weight m x' b i j.
Proof.
  intros Hb Hi Hj. unfold attention_weight.
  destruct (shape_dims _ _ (proj1 Hagree)) as (_ & Hd1 & _).
  rewrite <- Hd1, (masked_score_agree b j Hb Hi Hj).
  f_equal. apply sum_n_ext. intros j' Hj'.
  rewrite (masked_score_agree b j' Hb Hi Hj'). reflexivity.
Qed.
End AGREE.


End CAUSALITY.

Section CAUSALITY_REAL.
#[local] Existing Instance Counter.random.
#[local] Open Scope R_scope.

Lemma real_eqb_refl (r : R) : RealScalar.eqb r r = true.
Proof. unfold RealScalar.eqb. destruct (Req_dec_T r r); congruence. Qed.

Lemma look_ahead_head_shaped (S : Scalar R) :
  @fone R S = 1 -> @fzero R S = 0 ->
  @SingleHeadAttention_shaped R S 1 1 1 SingleHeadAttention.default_max_len
    Examples.look_ahead_head.
Proof.
  intros H1 H0. unfold SingleHeadAttention_shaped, Linear_shaped.
  cbn [Examples.look_ahead_head SingleHeadAttention.output_key_query_dim
       SingleHeadAttention.query SingleHeadAttention.key SingleHeadAttention.value
       SingleHeadAttention.causal_mask Linear.weight Linear.bias
       Examples.scalar_weight d1 d2].
  repeat split; try discriminate.
  unfold triu, ones2. cbn [d0 d1 d2 el]. rewrite H1, H0. reflexivity.
Qed.

Lemma two_tokens_agree (a b c : R) :
  @rows_agree_upto R 0 (Examples.two_tokens a b) (Examples.two_tokens a c).
Proof.
  split; [reflexivity|]. intros bt p k _ Hp _ _.
  assert (p = 0%nat) as -> by lia. reflexivity.
Qed.

Section EXACT.
#[local] Existing Instance RealScalar.exact.

Lemma attention_weight_pos (m : SingleHeadAttention.t R (Tensor R)) (x : Tensor R)
    (b i j : nat) :
  (j < d1 x)%nat -> 0 < attention_weight m x b i j.
Proof.
  intros Hj. unfold attention_weight.
  cbn [fdiv fexp RealScalar.exact].
  apply Rdiv_lt_0_compat; [apply exp_pos|].
  revert Hj. generalize (d1 x) as n. intros n.
  induction n as [|n IH]; intros Hj; [lia|].
  cbn [sum_n fadd fzero RealScalar.exact].
  assert (Hnonneg : forall k, 0 <= sum_n k (fun j' => exp (masked_score m x b i j'))).
  { clear. intros k. induction k as [|k IHk];
      cbn [sum_n fadd fzero RealScalar.exact]; [lra|].
    pose proof (exp_pos (masked_score m x b i k)). lra. }
  pose proof (Hnonneg n). pose proof (exp_pos (masked_score m x b i n)). lra.
Qed.

End EXACT.

Section UNDERFLOW.
#[local] Existing Instance RealScalar.underflow.

Lemma fill_value_underflows : RealScalar.exp_underflow (RealScalar.decimal (-1) 10) = 0.
Proof.
  unfold RealScalar.exp_underflow.
  destruct (Rle_dec (RealScalar.decimal (-1) 10) (-104)) as [_|Hgt]; [reflexivity|].
  exfalso. apply Hgt. unfold RealScalar.decimal.
  change (powerRZ 10 10) with (10 ^ 10). simpl pow. lra.
Qed.

Lemma underflow_masks_to_zero : MaskedToZero.
Proof.
  constructor.
  - apply real_eqb_refl.
  - apply fill_value_underflows.
  - intros z. cbn. unfold Rdiv. ring.
  - intros v. cbn. ring.
Qed.

End UNDERFLOW.

End CAUSALITY_REAL.

(** ** Shapes through the layers *)

Section LAYERS.
Context {F : Type} `{Scalar F} `{Random F}.

Lemma mapM_total {A B : Type} (f : A -> M F B) (P : B -> Prop) (xs : list A) :
  (forall a, In a xs -> forall w, exists b w', f a w = Ok (b, w') /\ P b) ->
  forall w, exists bs w', mapM f xs w = Ok (bs, w') /\ Forall P bs /\
    length bs = length xs.
Proof.
  induction xs as [|a xs IH]; intros Hf w.
  - exists [], w. split; [reflexivity|]. split; [constructor|reflexivity].
  - destruct (Hf a (or_introl eq_refl) w) as (b & w1 & Hb & HPb).
    destruct (IH (fun a' Hin => Hf a' (or_intror Hin)) w1) as (bs & w2 & Hbs & HP & Hlen).
    exists (b :: bs), w2. cbn [mapM]. rewrite (bind_step _ _ _ _ _ Hb).
    rewrite (bind_step _ _ _ _ _ Hbs). split; [reflexivity|].
    split; [constructor; assumption|]. cbn [length]. rewrite Hlen. reflexivity.
Qed.

Lemma cat2_shape (a v : Tensor F) (b n ca cv : nat) :
  shape a = (b, n, ca) -> shape v = (b, n, cv) ->
  exists t, cat2 a v = Ok t /\ shape t = (b, n, ca + cv).
Proof.
  unfold shape. intros Ha Hv. injection Ha as Ha0 Ha1 Ha2. injection Hv as Hv0 Hv1 Hv2.
  unfold cat2. rewrite Ha0, Ha1, Hv0, Hv1, !Nat.eqb_refl. cbn [andb].
  eexists. split; [reflexivity|]. cbn [d0 d1 d2]. rewrite Ha2, Hv2. reflexivity.
Qed.

Lemma cat_fold_shape (vs : list (Tensor F)) (acc : Tensor F) (b n ca c : nat) :
  shape acc = (b, n, ca) ->
  Forall (fun v => shape v = (b, n, c)) vs ->
  exists t, fold_left (fun r v => rbind r (fun a => cat2 a v)) vs (Ok acc) = Ok t /\
    shape t = (b, n, ca + length vs * c).
Proof.
  revert acc ca. induction vs as [|v vs IH]; intros acc ca Hacc Hvs.
  - exists acc. split; [reflexivity|]. cbn [length]. rewrite Hacc. f_equal; lia.
  - inversion Hvs as [|v' vs' Hv Hrest]; subst.
    destruct (cat2_shape acc v b n ca c Hacc Hv) as (t1 & Ht1 & Hs1).
    cbn [fold_left rbind]. rewrite Ht1.
    destruct (IH t1 (ca + c) Hs1 Hrest) as (t & Ht & Hs).
    exists t. split; [exact Ht|]. rewrite Hs. cbn [length]. f_equal; lia.
Qed.

Lemma cat_shape (vs : list (Tensor F)) (b n c : nat) :
  0 < length vs ->
  Forall (fun v => shape v = (b, n, c)) vs ->
  exists t, cat vs = Ok t /\ shape t = (b, n, length vs * c).
Proof.
  intros Hlen Hvs. destruct vs as [|v vs]; [cbn in Hlen; lia|].
  inversion Hvs as [|v' vs' Hv Hrest]; subst.
  destruct (cat_fold_shape vs v b n c c Hv Hrest) as (t & Ht & Hs).
  exists t. split; [exact Ht|]. rewrite Hs. cbn [length]. f_equal; lia.
Qed.

(** The heads of a well-shaped attention layer all run, and their outputs
    concatenate to a tensor whose last dimension is the number of heads
    times the width of one head. *)
Lemma MultiHeadAttention_heads_concat (d num_heads : nat)
    (m : MultiHeadAttention.t F (Tensor F)) (x : Tensor F) (w : World F) :
  MultiHeadAttention_shaped d num_heads m ->
  d2 x = d -> d1 x <= SingleHeadAttention.default_max_len -> 0 < num_heads ->
  exists values w1 c,
    mapM (fun i => head ← MultiHeadAttention.get_head m i;
                   SingleHeadAttention.forward head x)
         (seq 0 (MultiHeadAttention.num_heads m)) w = Ok (values, w1) /\
    cat values = Ok c /\
    shape c = (d0 x, d1 x, num_heads * head_width d num_heads).
Proof.
  intros (Hnh & Hlen & Hheads & _) Hd Hn Hpos.
  destruct (mapM_total
              (fun i => head ← MultiHeadAttention.get_head m i;
                        SingleHeadAttention.forward head x)
              (fun v => shape v = (d0 x, d1 x, head_width d num_heads))
              (seq 0 (MultiHeadAttention.num_heads m))) with (w := w)
    as (values & w1 & Hvalues & Hshapes & Hcount).
  { intros i Hin w0. apply List.in_seq in Hin. rewrite Hnh in Hin.
    destruct (nth_error (MultiHeadAttention.heads m) i) as [h|] eqn:Hh.
    2:{ apply List.nth_error_None in Hh. lia. }
    assert (Hsh : SingleHeadAttention_shaped d (head_width d num_heads)
                    (head_width d num_heads) SingleHeadAttention.default_max_len h).
    { rewrite List.Forall_forall in Hheads. apply Hheads. eapply List.nth_error_In. exact Hh. }
    destruct (SingleHeadAttention_forward_spec _ _ _ _ h x w0 Hsh Hd Hn)
      as (y & w' & Hy & Hsy & _).
    exists y, w'. split; [|exact Hsy].
    rewrite bind_unfold. unfold MultiHeadAttention.get_head. rewrite Hh.
    rewrite ret_unfold. exact Hy. }
  rewrite List.length_seq, Hnh in Hcount.
  destruct (cat_shape values (d0 x) (d1 x) (head_width d num_heads)) as (c & Hc & Hsc);
    [lia|exact Hshapes|].
  exists values, w1, c. split; [exact Hvalues|]. split; [exact Hc|].
  rewrite Hsc, Hcount. reflexivity.
Qed.

Lemma MultiHeadAttention_forward_shape (d num_heads : nat)
    (m : MultiHeadAttention.t F (Tensor F)) (x : Tensor F) (w : World F) :
  MultiHeadAttention_shaped d num_heads m -> heads_fit d num_heads ->
  d2 x = d -> d1 x <= SingleHeadAttention.default_max_len ->
  exists y w', MultiHeadAttention.forward m x w = Ok (y, w') /\ shape y = shape x.
Proof.
  intros Hshaped (Hpos & Hfit) Hd Hn.
  destruct (MultiHeadAttention_heads_concat d num_heads m x w Hshaped Hd Hn Hpos)
    as (values & w1 & c & Hvalues & Hc & Hsc).
  destruct Hshaped as (_ & _ & _ & (Ho2 & Ho1 & Hob)).
  destruct (shape_dims c (mkT (d0 x) (d1 x) (num_heads * head_width d num_heads)
                            (el c)) Hsc) as (Hc0 & Hc1 & Hc2).
  cbn [d0 d1 d2] in Hc0, Hc1, Hc2.
  destruct (linear_shape c (Linear.weight (MultiHeadAttention.out m))
              (Linear.bias (MultiHeadAttention.out m))) as (o & Ho & Hso).
  { rewrite Hc2, Hfit, Ho2. reflexivity. }
  { intros bs Hbs. rewrite (Hob bs Hbs), Ho1. reflexivity. }
  destruct (Dropout_forward_spec (MultiHeadAttention.dropout m) o w1)
    as (y & w' & Hy & Hsy & _).
  exists y, w'. split.
  - unfold MultiHeadAttention.forward. rewrite (bind_step _ _ _ _ _ Hvalues).
    rewrite Hc. run_monad. unfold Linear.forward. rewrite Ho. run_monad. exact Hy.
  - rewrite Hsy, Hso, Hc0, Hc1, Ho1, <- Hd. reflexivity.
Qed.

(** When the heads do not tile the embedding, the output projection
    rejects the concatenated heads. *)
Lemma MultiHeadAttention_forward_mismatch (d num_heads : nat)
    (m : MultiHeadAttention.t F (Tensor F)) (x : Tensor F) (w : World F) :
  MultiHeadAttention_shaped d num_heads m ->
  0 < num_heads -> num_heads * head_width d num_heads <> d ->
  d2 x = d -> d1 x <= SingleHeadAttention.default_max_len ->
  MultiHeadAttention.forward m x w = Err (RuntimeError OpLinear).
Proof.
  intros Hshaped Hpos Hfit Hd Hn.
  destruct (MultiHeadAttention_heads_concat d num_heads m x w Hshaped Hd Hn Hpos)
    as (values & w1 & c & Hvalues & Hc & Hsc).
  destruct Hshaped as (_ & _ & _ & (Ho2 & Ho1 & Hob)).
  destruct (shape_dims c (mkT (d0 x) (d1 x) (num_heads * head_width d num_heads)
                            (el c)) Hsc) as (Hc0 & Hc1 & Hc2).
  cbn [d0 d1 d2] in Hc0, Hc1, Hc2.
  unfold MultiHeadAttention.forward. rewrite (bind_step _ _ _ _ _ Hvalues).
  rewrite Hc. run_monad. unfold Linear.forward.
  rewrite linear_mismatch by (rewrite Hc2, Ho2; exact Hfit).
  reflexivity.
Qed.

Lemma FeedForwardLayer_forward_shape (d : nat)
    (m : FeedForwardLayer.t F (Tensor F)) (x : Tensor F) (w : World F) :
  FeedForwardLayer_shaped d m -> d2 x = d ->
  exists y w', FeedForwardLayer.forward m x w = Ok (y, w') /\ shape y = shape x.
Proof.
  intros ((H12 & H11 & H1b) & (H22 & H21 & H2b)) Hd.
  destruct (linear_shape x (Linear.weight (FeedForwardLayer.fc1 m))
              (Linear.bias (FeedForwardLayer.fc1 m))) as (a & Ha & Hsa).
  { rewrite Hd, H12. reflexivity. }
  { intros bs Hbs. rewrite (H1b bs Hbs), H11. reflexivity. }
  destruct (linear_shape (tmap fgelu a) (Linear.weight (FeedForwardLayer.fc2 m))
              (Linear.bias (FeedForwardLayer.fc2 m))) as (o & Ho & Hso).
  { cbn [tmap d2]. destruct (shape_dims a (mkT (d0 x) (d1 x) _ (el a)) Hsa) as (_ & _ & Ha2).
    cbn [d2] in Ha2. rewrite Ha2, H11, H22. reflexivity. }
  { intros bs Hbs. rewrite (H2b bs Hbs), H21. reflexivity. }
  destruct (Dropout_forward_spec (FeedForwardLayer.dropout m) o w)
    as (y & w' & Hy & Hsy & _).
  exists y, w'. split.
  - unfold FeedForwardLayer.forward, Linear.forward. rewrite Ha. run_monad.
    rewrite Ho. run_monad. exact Hy.
  - rewrite Hsy, Hso. cbn [tmap d0 d1].
    destruct (shape_dims a (mkT (d0 x) (d1 x) _ (el a)) Hsa) as (Ha0 & Ha1 & _).
    cbn [d0 d1] in Ha0, Ha1. rewrite Ha0, Ha1, H21, <- Hd. reflexivity.
Qed.

Lemma LayerNorm_forward_shape (d : nat) (m : LayerNorm.t F (Tensor F)) (x : Tensor F) :
  LayerNorm_shaped d m -> d2 x = d ->
  exists y, LayerNorm.forward m x = Ok y /\ shape y = shape x.
Proof.
  intros (g & b & Hg & Hb & Hsg & Hsb) Hd. subst d.
  destruct (LayerNorm_forward_el m g b x (conj Hg (conj Hb (conj Hsg Hsb))))
    as (y & Hy & Hs & _).
  exists y. split; assumption.
Qed.

Lemma TransformerLayer_forward_shape (d num_heads : nat)
    (m : TransformerLayer.t F (Tensor F)) (x : Tensor F) (w : World F) :
  TransformerLayer_shaped d num_heads m -> heads_fit d num_heads ->
  d2 x = d -> d1 x <= SingleHeadAttention.default_max_len ->
  exists y w', TransformerLayer.forward m x w = Ok (y, w') /\ shape y = shape x.
Proof.
  intros (Hn1 & Hatt & Hn2 & Hff) Hfit Hd Hn.
  destruct (LayerNorm_forward_shape d _ x Hn1 Hd) as (n1 & Hn1eq & Hs1).
  destruct (shape_dims _ _ Hs1) as (H10 & H11 & H12).
  destruct (MultiHeadAttention_forward_shape d num_heads _ n1 w Hatt Hfit)
    as (a & w1 & Ha & Hsa); [congruence|lia|].
  destruct (broadcast2_same OpAdd fadd a x) as (cache & Hcache & Hsc & _);
    [congruence|].
  destruct (shape_dims _ _ Hsa) as (Ha0 & Ha1 & Ha2).
  destruct (shape_dims _ _ Hsc) as (Hc0 & Hc1 & Hc2).
  destruct (LayerNorm_forward_shape d _ cache Hn2) as (n2 & Hn2eq & Hs2); [congruence|].
  destruct (shape_dims _ _ Hs2) as (H20 & H21 & H22).
  destruct (FeedForwardLayer_forward_shape d _ n2 w1 Hff) as (f & w2 & Hf & Hsf);
    [congruence|].
  destruct (broadcast2_same OpAdd fadd f cache) as (out & Hout & Hso & _);
    [congruence|].
  exists out, w2. split.
  - unfold TransformerLayer.forward. rewrite Hn1eq. run_monad.
    rewrite Ha. unfold tadd. rewrite Hcache. run_monad. rewrite Hn2eq. run_monad.
    rewrite Hf. rewrite Hout. run_monad. reflexivity.
  - congruence.
Qed.

Lemma TransformerLayers_forward_shape (d num_heads : nat)
    (layers : list (TransformerLayer.t F (Tensor F))) (x : Tensor F) (w : World F) :
  Forall (TransformerLayer_shaped d num_heads) layers -> heads_fit d num_heads ->
  d2 x = d -> d1 x <= SingleHeadAttention.default_max_len ->
  exists y w', foldM TransformerLayer.forward layers x w = Ok (y, w') /\
    shape y = shape x.
Proof.
  intros Hlayers Hfit. revert x w.
  induction Hlayers as [|m layers Hm Hrest IH]; intros x w Hd Hn.
  - exists x, w. split; reflexivity.
  - destruct (TransformerLayer_forward_shape d num_heads m x w Hm Hfit Hd Hn)
      as (y1 & w1 & Hy1 & Hs1).
    destruct (shape_dims _ _ Hs1) as (H0' & H1' & H2').
    destruct (IH y1 w1) as (y & w' & Hy & Hs); [congruence|lia|].
    exists y, w'. split; [|congruence].
    cbn [foldM]. rewrite (bind_step _ _ _ _ _ Hy1). exact Hy.
Qed.

End LAYERS.

(** ** MiniGPT: when the forward pass returns, and when it cannot *)

Section MINIGPT_FORWARD.
Context {F : Type} `{Scalar F} `{Random F}.

Lemma tokens_in_range_unsqueeze0 (n : nat) (l : list nat) :
  tokens_in_range n (unsqueeze0 l) = tokens_in_range n (Tok1 l).
Proof.
  cbn [tokens_in_range unsqueeze0 seq forallb]. rewrite andb_true_r.
  apply eq_true_iff_eq. rewrite !List.forallb_forall. split.
  - intros Hl t Ht. destruct (List.In_nth l t 0 Ht) as (j & Hj & <-).
    apply Hl. apply List.in_seq. lia.
  - intros Hl j Hj. apply List.in_seq in Hj. apply Hl. apply List.nth_In. lia.
Qed.

Lemma tokens_in_range_as_batch (n : nat) (x : Tokens) :
  tokens_in_range n (as_batch x) = tokens_in_range n x.
Proof. destruct x as [l|b s tok]; [apply tokens_in_range_unsqueeze0|reflexivity]. Qed.

Lemma embedding_shape (x : Tokens) (wt : Tensor F) :
  tokens_in_range (d1 wt) x = true ->
  exists e, embedding x wt = Ok e /\ shape e = (batch_of x, seq_len_of x, d2 wt).
Proof.
  intros Hx. unfold embedding. rewrite Hx.
  destruct x as [l|b n tok]; eexists; split; reflexivity.
Qed.

Lemma embedding_arange (n : nat) (wt : Tensor F) :
  d1 wt = n ->
  exists table, embedding (Tok1 (arange n)) wt = Ok table /\ shape table = (1, n, d2 wt).
Proof.
  intros Hn.
  destruct (embedding_shape (Tok1 (arange n)) wt) as (table & Ht & Hs).
  - cbn [tokens_in_range]. apply List.forallb_forall. intros t Ht.
    apply List.in_seq in Ht. apply Nat.ltb_lt. lia.
  - exists table. split; [exact Ht|]. rewrite Hs. cbn [batch_of seq_len_of].
    unfold arange. rewrite List.length_seq. reflexivity.
Qed.

(** Adding the positional rows: the rows are as many as the tokens, or a
    single row that is repeated. *)
Lemma tadd_positional (e position : Tensor F) (b n p dm : nat) :
  shape e = (b, n, dm) -> shape position = (1, p, dm) -> p = n \/ p = 1 ->
  exists out, tadd e position = Ok out /\ shape out = (b, n, dm).
Proof.
  unfold shape. intros He Hp Hpn. injection He as He0 He1 He2. injection Hp as Hp0 Hp1 Hp2.
  unfold tadd, broadcast2. rewrite He0, He1, He2, Hp0, Hp1, Hp2, bdim_1_r, bdim_refl.
  destruct Hpn as [->| ->]; rewrite ?bdim_refl, ?bdim_1_r;
    eexists; split; reflexivity.
Qed.

Lemma tadd_positional_mismatch (e position : Tensor F) (b n p dm : nat) :
  shape e = (b, n, dm) -> shape position = (1, p, dm) ->
  p <> n -> p <> 1 -> n <> 1 ->
  tadd e position = Err (RuntimeError OpAdd).
Proof.
  unfold shape. intros He Hp Hne Hp1' Hn1. injection He as He0 He1 He2.
  injection Hp as Hp0 Hp1 Hp2.
  unfold tadd, broadcast2. rewrite He0, He1, Hp0, Hp1, bdim_1_r.
  rewrite (bdim_None n p) by congruence. reflexivity.
Qed.

(** The first two stages of the forward pass: the token embeddings and the
    slice of the positional table. *)
Lemma MiniGPT_embed_stage (config : MiniGPT.Config F) (m : MiniGPT.t F (Tensor F))
    (x : Tokens) :
  MiniGPT_shaped config m ->
  tokens_in_range (MiniGPT.vocab_size config) x = true ->
  exists e table,
    Embedding.forward (MiniGPT.vocab_embedding m)
      (match x with Tok1 l => unsqueeze0 l | Tok2 _ _ _ => x end) = Ok e /\
    shape e = (batch_of x, seq_len_of x, MiniGPT.embed_dim config) /\
    Embedding.forward (MiniGPT.positional_embedding m) (Tok1 (MiniGPT.pos m)) = Ok table /\
    shape (slice_rows table (d1 e))
    = (1, Nat.min (seq_len_of x) (MiniGPT.context_length config),
       MiniGPT.embed_dim config).
Proof.
  intros (Hv & Hp & Hpos & _) Hx.
  destruct (shape_dims _ (mkT _ _ _ (el (Embedding.weight (MiniGPT.vocab_embedding m)))) Hv)
    as (_ & Hv1 & Hv2).
  destruct (shape_dims _ (mkT _ _ _ (el (Embedding.weight (MiniGPT.positional_embedding m))))
              Hp) as (_ & Hp1 & Hp2).
  cbn [d1 d2] in Hv1, Hv2, Hp1, Hp2.
  destruct (embedding_shape
              (match x with Tok1 l => unsqueeze0 l | Tok2 _ _ _ => x end)
              (Embedding.weight (MiniGPT.vocab_embedding m))) as (e & He & Hse).
  { rewrite Hv1. fold (as_batch x). rewrite tokens_in_range_as_batch. exact Hx. }
  destruct (embedding_arange (MiniGPT.context_length config)
              (Embedding.weight (MiniGPT.positional_embedding m)) Hp1)
    as (table & Ht & Hst).
  exists e, table. unfold Embedding.forward. rewrite Hpos.
  split; [exact He|]. split.
  { rewrite Hse, Hv2. destruct x; reflexivity. }
  split; [exact Ht|].
  destruct (shape_dims _ (mkT _ _ _ (el e)) Hse) as (_ & He1 & _).
  destruct (shape_dims _ (mkT _ _ _ (el table)) Hst) as (Ht0 & Ht1 & Ht2).
  cbn [d0 d1 d2] in He1, Ht0, Ht1, Ht2.
  unfold shape. cbn [slice_rows d0 d1 d2]. rewrite Ht0, Ht1, Ht2, He1, Hp2.
  destruct x; reflexivity.
Qed.

Lemma MiniGPT_forward_shape (config : MiniGPT.Config F) (m : MiniGPT.t F (Tensor F))
    (x : Tokens) (w : World F) :
  MiniGPT_shaped config m ->
  heads_fit (MiniGPT.embed_dim config) (MiniGPT.cfg_num_heads config) ->
  tokens_in_range (MiniGPT.vocab_size config) x = true ->
  seq_len_of x <= SingleHeadAttention.default_max_len ->
  seq_len_of x <= MiniGPT.context_length config \/ MiniGPT.context_length config = 1 ->
  exists logits w', MiniGPT.forward m x w = Ok (logits, w') /\
    shape logits = (batch_of x, seq_len_of x, MiniGPT.vocab_size config).
Proof.
  intros Hshaped Hfit Hx Hmax Hctx.
  destruct (MiniGPT_embed_stage config m x Hshaped Hx) as (e & table & He & Hse & Ht & Hsp).
  destruct Hshaped as (_ & _ & _ & _ & Hlayers & Hnorm & (Hh2 & Hh1 & Hhb)).
  destruct (tadd_positional e (slice_rows table (d1 e)) _ _ _ _ Hse Hsp) as (s & Hs & Hss).
  { lia. }
  destruct (Dropout_forward_spec (MiniGPT.embed_dropout m) s w)
    as (dr & w1 & Hdr & Hsdr & _).
  rewrite Hss in Hsdr.
  destruct (shape_dims _ (mkT _ _ _ (el dr)) Hsdr) as (Hd0 & Hd1 & Hd2).
  cbn [d0 d1 d2] in Hd0, Hd1, Hd2.
  destruct (TransformerLayers_forward_shape _ _ (MiniGPT.transformer_layers m) dr w1
              Hlayers Hfit Hd2) as (l & w2 & Hl & Hsl); [lia|].
  destruct (shape_dims _ _ Hsl) as (Hl0 & Hl1 & Hl2).
  destruct (LayerNorm_forward_shape _ _ l Hnorm) as (nrm & Hnrm & Hsn); [congruence|].
  destruct (shape_dims _ _ Hsn) as (Hn0 & Hn1 & Hn2).
  destruct (linear_shape nrm (Linear.weight (MiniGPT.head m)) (Linear.bias (MiniGPT.head m)))
    as (logits & Hlogits & Hslog).
  { congruence. }
  { intros bs Hbs. rewrite (Hhb bs Hbs), Hh1. reflexivity. }
  exists logits, w2. split.
  - unfold MiniGPT.forward. rewrite He. run_monad. rewrite Ht. run_monad.
    rewrite Hs. run_monad. rewrite Hdr. run_monad. rewrite Hl. run_monad.
    rewrite Hnrm. run_monad.
    unfold Linear.forward. rewrite Hlogits. run_monad. reflexivity.
  - rewrite Hslog, Hn0, Hn1, Hl0, Hl1, Hd0, Hd1, Hh1. reflexivity.
Qed.

Lemma MiniGPT_forward_too_long (config : MiniGPT.Config F) (m : MiniGPT.t F (Tensor F))
    (x : Tokens) (w : World F) :
  MiniGPT_shaped config m ->
  tokens_in_range (MiniGPT.vocab_size config) x = true ->
  MiniGPT.context_length config < seq_len_of x ->
  MiniGPT.context_length config <> 1 -> seq_len_of x <> 1 ->
  MiniGPT.forward m x w = Err (RuntimeError OpAdd).
Proof.
  intros Hshaped Hx Hlong Hctx Hn.
  destruct (MiniGPT_embed_stage config m x Hshaped Hx) as (e & table & He & Hse & Ht & Hsp).
  unfold MiniGPT.forward. rewrite He. run_monad. rewrite Ht. run_monad.
  rewrite (tadd_positional_mismatch e (slice_rows table (d1 e)) _ _ _ _ Hse Hsp) by lia.
  reflexivity.
Qed.

Lemma MiniGPT_forward_bad_token (config : MiniGPT.Config F) (m : MiniGPT.t F (Tensor F))
    (x : Tokens) (w : World F) :
  MiniGPT_shaped config m ->
  tokens_in_range (MiniGPT.vocab_size config) x = false ->
  MiniGPT.forward m x w = Err IndexError.
Proof.
  intros (Hv & _) Hx.
  destruct (shape_dims _ (mkT _ _ _ (el (Embedding.weight (MiniGPT.vocab_embedding m)))) Hv)
    as (_ & Hv1 & _).
  cbn [d1] in Hv1.
  unfold MiniGPT.forward, Embedding.forward, embedding. fold (as_batch x).
  rewrite Hv1, tokens_in_range_as_batch, Hx. reflexivity.
Qed.

End MINIGPT_FORWARD.

(** ** The constructors and the parameter store *)

Section STORE.
Context {F : Type} `{Scalar F} `{Random F}.

Lemma later_refl (w : World F) : later w w.
Proof. split; [lia|]. intros l _. reflexivity. Qed.

Lemma later_trans (w1 w2 w3 : World F) : later w1 w2 -> later w2 w3 -> later w1 w3.
Proof.
  intros (Hn12 & Hs12) (Hn23 & Hs23). split; [lia|].
  intros l Hl. rewrite (Hs23 l) by lia. apply Hs12. exact Hl.
Qed.

Lemma established_mono (w0 w1 w2 w3 : World F) (Q : gmap loc (Tensor F) -> Prop) :
  later w0 w1 -> established w1 w2 Q -> later w2 w3 -> established w0 w3 Q.
Proof.
  intros H01 (H12 & HQ) H23. split.
  - exact (later_trans _ _ _ H01 (later_trans _ _ _ H12 H23)).
  - intros h Hh. apply HQ. intros l Hl.
    destruct H01 as (Hn01 & _). destruct H12 as (Hn12 & _). destruct H23 as (Hn23 & Hs23).
    rewrite (Hh l) by lia. apply Hs23. lia.
Qed.

Lemma established_impl (w w' : World F) (Q Q' : gmap loc (Tensor F) -> Prop) :
  (forall h, Q h -> Q' h) -> established w w' Q -> established w w' Q'.
Proof. intros HQQ (Hl & HQ). split; [exact Hl|]. intros h Hh. apply HQQ, HQ, Hh. Qed.

Lemma established_and (w w' : World F) (Q Q' : gmap loc (Tensor F) -> Prop) :
  established w w' Q -> established w w' Q' -> established w w' (fun h => Q h /\ Q' h).
Proof.
  intros (Hl & HQ) (_ & HQ'). split; [exact Hl|]. intros h Hh. split; auto.
Qed.

Lemma load_insert_eq (h : gmap loc (Tensor F)) (l : loc) (t : Tensor F) :
  load (<[l := t]> h) l = t.
Proof. unfold load. rewrite lookup_insert_eq. reflexivity. Qed.

Lemma load_insert_ne (h : gmap loc (Tensor F)) (l l' : loc) (t : Tensor F) :
  l <> l' -> load (<[l := t]> h) l' = load h l'.
Proof. intros Hne. unfold load. rewrite lookup_insert_ne by exact Hne. reflexivity. Qed.

(** A new parameter: the location is the next free one, and the store
    holds the tensor there. *)
Lemma alloc_spec (t : Tensor F) (w : World F) :
  exists w', alloc t w = Ok (next w, w') /\
    established w w' (fun h => shape (load h (next w)) = shape t).
Proof.
  eexists. split; [reflexivity|]. split.
  - split; [cbn [next]; lia|]. intros l Hl. cbn [heap].
    rewrite load_insert_ne by lia. reflexivity.
  - intros h Hh. cbn [next heap] in Hh. rewrite (Hh (next w)) by lia.
    rewrite load_insert_eq. reflexivity.
Qed.

Lemma draw_uniform_spec (lo hi : F) (w : World F) :
  exists v w', draw_uniform lo hi w = Ok (v, w') /\
    next w' = next w /\ heap w' = heap w.
Proof.
  unfold draw_uniform. destruct (uniform (gen w) lo hi) as [v g].
  eexists _, _. split; [reflexivity|]. split; reflexivity.
Qed.

Lemma draw_normal_spec (mean std : F) (w : World F) :
  exists v w', draw_normal mean std w = Ok (v, w') /\
    next w' = next w /\ heap w' = heap w.
Proof.
  unfold draw_normal. destruct (normal (gen w) mean std) as [v g].
  eexists _, _. split; [reflexivity|]. split; reflexivity.
Qed.

Lemma later_same_store (w w' : World F) :
  next w' = next w -> heap w' = heap w -> later w w'.
Proof. intros Hn Hh. split; [lia|]. intros l _. rewrite Hh. reflexivity. Qed.

(** A drawn tensor becomes a parameter of the given shape. *)
Lemma draw_alloc_spec (draw : M F (nat -> nat -> nat -> F)) (a b c : nat) (w : World F) :
  (forall w0, exists v w1, draw w0 = Ok (v, w1) /\ next w1 = next w0 /\ heap w1 = heap w0) ->
  exists l w', (v ← draw; alloc (mkT a b c v)) w = Ok (l, w') /\
    established w w' (fun h => shape (load h l) = (a, b, c)).
Proof.
  intros Hdraw. destruct (Hdraw w) as (v & w1 & Hv & Hn & Hh).
  destruct (alloc_spec (mkT a b c v) w1) as (w' & Hal & Hest).
  exists (next w1), w'. split.
  - rewrite (bind_step _ _ _ _ _ Hv). exact Hal.
  - apply (established_mono w w1 w' w').
    + apply later_same_store; assumption.
    + exact Hest.
    + apply later_refl.
Qed.

Lemma Linear_init_spec (i o : nat) (b : bool) (w : World F) :
  exists m w', Linear.__init__ i o b w = Ok (m, w') /\
    established w w' (fun h => Linear_shaped i o (Linear.read h m)).
Proof.
  set (bound := fdiv fone (fsqrt (of_nat i))).
  destruct (draw_alloc_spec (draw_uniform (fsub fzero bound) bound) 1 o i w)
    as (lw & w1 & Hlw & Hew).
  { intros w0. apply draw_uniform_spec. }
  unfold Linear.__init__. fold bound.
  rewrite bind_unfold in Hlw.
  destruct (draw_uniform (fsub fzero bound) bound w) as [[v wv]|e] eqn:Hv; [|discriminate].
  rewrite (bind_step _ _ _ _ _ Hv), (bind_step _ _ _ _ _ Hlw).
  destruct b.
  - destruct (draw_alloc_spec (draw_uniform (fsub fzero bound) bound) 1 1 o w1)
      as (lb & w2 & Hlb & Heb).
    { intros w0. apply draw_uniform_spec. }
    rewrite bind_unfold in Hlb.
    destruct (draw_uniform (fsub fzero bound) bound w1) as [[v' wv']|e] eqn:Hv';
      [|discriminate].
    rewrite (bind_step _ _ _ _ _ Hv'), (bind_step _ _ _ _ _ Hlb).
    eexists _, w2. split; [reflexivity|].
    pose proof (established_mono w w w1 w2 _ (later_refl w) Hew (proj1 Heb)) as Hw.
    pose proof (established_mono w w1 w2 w2 _ (proj1 Hew) Heb (later_refl w2)) as Hb.
    eapply established_impl; [|exact (established_and _ _ _ _ Hw Hb)].
    intros h (Hsw & Hsb). cbn beta in Hsw, Hsb.
    unfold Linear_shaped.
    cbn [Linear.read Linear.weight Linear.bias fmap option_fmap option_map].
    destruct (shape_dims _ (mkT _ _ _ (el (load h lw))) Hsw) as (_ & Hw1 & Hw2).
    destruct (shape_dims _ (mkT _ _ _ (el (load h lb))) Hsb) as (_ & _ & Hb2).
    cbn [d1 d2] in Hw1, Hw2, Hb2.
    split; [exact Hw2|]. split; [exact Hw1|].
    intros bs Hbs. injection Hbs as <-. exact Hb2.
  - eexists _, w1. split; [reflexivity|].
    eapply established_impl; [|exact Hew].
    intros h HQ. cbn beta in HQ.
    unfold Linear_shaped.
    cbn [Linear.read Linear.weight Linear.bias fmap option_fmap option_map].
    destruct (shape_dims _ (mkT _ _ _ (el (load h lw))) HQ) as (_ & Hw1 & Hw2).
    cbn [d1 d2] in Hw1, Hw2.
    split; [exact Hw2|]. split; [exact Hw1|]. discriminate.
Qed.

Lemma Linear_init_est (i o : nat) (b : bool) (w : World F) m w' :
  Linear.__init__ i o b w = Ok (m, w') ->
  established w w' (fun h => Linear_shaped i o (Linear.read h m)).
Proof.
  intros Hinit. destruct (Linear_init_spec i o b w) as (m1 & w1 & Hinit1 & Hest).
  rewrite Hinit in Hinit1. injection Hinit1 as <- <-. exact Hest.
Qed.

Lemma SingleHeadAttention_init_est input_dim kq v p max_len (w : World F) m w' :
  SingleHeadAttention.__init__ input_dim kq v p max_len w = Ok (m, w') ->
  established w w'
    (fun h => SingleHeadAttention_shaped input_dim (or_default kq input_dim)
                (or_default v input_dim) max_len (SingleHeadAttention.read h m)).
Proof.
  intros Hinit.
  apply SingleHeadAttention_init_inv in Hinit
    as (key & w1 & query & w2 & value & Hk & Hq & Hv & ->).
  pose proof (Linear_init_est _ _ _ _ _ _ Hk) as Hek.
  pose proof (Linear_init_est _ _ _ _ _ _ Hq) as Heq.
  pose proof (Linear_init_est _ _ _ _ _ _ Hv) as Hev.
  pose proof (established_mono w w w1 w' _ (later_refl w) Hek
                (later_trans _ _ _ (proj1 Heq) (proj1 Hev))) as Hk'.
  pose proof (established_mono w w1 w2 w' _ (proj1 Hek) Heq (proj1 Hev)) as Hq'.
  pose proof (established_mono w w2 w' w' _ (later_trans _ _ _ (proj1 Hek) (proj1 Heq))
                Hev (later_refl w')) as Hv'.
  eapply established_impl;
    [|exact (established_and _ _ _ _ Hk' (established_and _ _ _ _ Hq' Hv'))].
  intros h (Hsk & Hsq & Hsv). cbn beta in Hsk, Hsq, Hsv.
  unfold SingleHeadAttention_shaped.
  cbn [SingleHeadAttention.read SingleHeadAttention.output_key_query_dim
       SingleHeadAttention.query SingleHeadAttention.key SingleHeadAttention.value
       SingleHeadAttention.causal_mask].
  auto.
Qed.

(** A loop of constructors: everything the iterations establish holds of
    the final store. *)
Lemma mapM_init_est {A T : Type} (f : A -> M F T)
    (Q : T -> gmap loc (Tensor F) -> Prop) (xs : list A) :
  (forall a w m w', f a w = Ok (m, w') -> established w w' (Q m)) ->
  forall w ms w', mapM f xs w = Ok (ms, w') ->
    length ms = length xs /\ established w w' (fun h => Forall (fun m => Q m h) ms).
Proof.
  intros Hf. induction xs as [|a xs IH]; intros w ms w' Hmap.
  - cbn [mapM] in Hmap. rewrite ret_unfold in Hmap. injection Hmap as <- <-.
    split; [reflexivity|]. split; [apply later_refl|]. intros h _. constructor.
  - cbn [mapM] in Hmap.
    apply bind_ok in Hmap as (m & w1 & Hm & Hmap).
    apply bind_ok in Hmap as (rest & w2 & Hrest & Hmap).
    rewrite ret_unfold in Hmap. injection Hmap as <- <-.
    destruct (IH _ _ _ Hrest) as (Hlen & Hest).
    pose proof (Hf _ _ _ _ Hm) as Hm_est.
    split; [cbn [length]; rewrite Hlen; reflexivity|].
    pose proof (established_mono w w w1 w2 _ (later_refl w) Hm_est (proj1 Hest)) as H1.
    pose proof (established_mono w w1 w2 w2 _ (proj1 Hm_est) Hest (later_refl w2)) as H2.
    eapply established_impl; [|exact (established_and _ _ _ _ H1 H2)].
    intros h (HQ & HF). constructor; assumption.
Qed.

Lemma mapM_init_total {A T : Type} (f : A -> M F T) (xs : list A) :
  (forall a w, exists m w', f a w = Ok (m, w')) ->
  forall w, exists ms w', mapM f xs w = Ok (ms, w').
Proof.
  intros Hf w.
  destruct (mapM_total f (fun _ => True) xs) with (w := w) as (ms & w' & Hms & _).
  - intros a _ w0. destruct (Hf a w0) as (m & w1 & Hm). exists m, w1. auto.
  - exists ms, w'. exact Hms.
Qed.

Lemma MultiHeadAttention_init_zero (d : nat) (p : F) (w : World F) :
  MultiHeadAttention.__init__ d 0 p w = Err ZeroDivisionError.
Proof. reflexivity. Qed.

Lemma MultiHeadAttention_init_inv (d num_heads : nat) (p : F) (w : World F) m w' :
  MultiHeadAttention.__init__ d num_heads p w = Ok (m, w') ->
  0 < num_heads /\
  exists heads w1 out,
    mapM (fun _ : nat =>
            SingleHeadAttention.__init__ d (Some (d / num_heads)) (Some (d / num_heads))
              SingleHeadAttention.default_dropout SingleHeadAttention.default_max_len)
         (seq 0 num_heads) w = Ok (heads, w1) /\
    Linear.__init__ d d true w1 = Ok (out, w') /\
    m = MultiHeadAttention.mk d num_heads heads out (Dropout.__init__ p).
Proof.
  unfold MultiHeadAttention.__init__, MultiHeadAttention.head_dim. intros Hinit.
  destruct num_heads as [|n]; [discriminate|]. split; [lia|].
  cbn [Nat.eqb] in Hinit.
  apply bind_ok in Hinit as (hd & w0 & Hhd & Hinit).
  apply lift_ok in Hhd as (Hhd & ->). injection Hhd as <-.
  apply bind_ok in Hinit as (heads & w1 & Hheads & Hinit).
  apply bind_ok in Hinit as (out & w2 & Hout & Hinit).
  rewrite ret_unfold in Hinit. injection Hinit as <- <-.
  exists heads, w1, out. auto.
Qed.

Lemma MultiHeadAttention_init_total (d num_heads : nat) (p : F) (w : World F) :
  0 < num_heads ->
  exists m w', MultiHeadAttention.__init__ d num_heads p w = Ok (m, w').
Proof.
  intros Hpos. unfold MultiHeadAttention.__init__, MultiHeadAttention.head_dim.
  destruct num_heads as [|n]; [lia|]. cbn [Nat.eqb]. run_monad.
  destruct (mapM_init_total
              (fun _ : nat =>
                 SingleHeadAttention.__init__ d (Some (d / S n)) (Some (d / S n))
                   SingleHeadAttention.default_dropout SingleHeadAttention.default_max_len)
              (seq 0 (S n))) with (w := w) as (heads & w1 & Hheads).
  { intros _ w0. apply SingleHeadAttention_init_total. }
  destruct (Linear_init_total d d true w1) as (out & w2 & Hout).
  rewrite Hheads. rewrite (bind_step _ _ _ _ _ Hout).
  eexists _, _. reflexivity.
Qed.

Lemma MultiHeadAttention_init_est (d num_heads : nat) (p : F) (w : World F) m w' :
  MultiHeadAttention.__init__ d num_heads p w = Ok (m, w') ->
  established w w'
    (fun h => MultiHeadAttention_shaped d num_heads (MultiHeadAttention.read h m)).
Proof.
  intros Hinit.
  apply MultiHeadAttention_init_inv in Hinit
    as (Hpos & heads & w1 & out & Hheads & Hout & ->).
  destruct (mapM_init_est _
              (fun m h => SingleHeadAttention_shaped d (head_width d num_heads)
                            (head_width d num_heads) SingleHeadAttention.default_max_len
                            (SingleHeadAttention.read h m))
              _ (fun _ w0 m0 w0' Hm => SingleHeadAttention_init_est _ _ _ _ _ w0 m0 w0' Hm)
              _ _ _ Hheads) as (Hlen & Hest).
  pose proof (Linear_init_est _ _ _ _ _ _ Hout) as Heo.
  pose proof (established_mono w w w1 w' _ (later_refl w) Hest (proj1 Heo)) as H1.
  pose proof (established_mono w w1 w' w' _ (proj1 Hest) Heo (later_refl w')) as H2.
  eapply established_impl; [|exact (established_and _ _ _ _ H1 H2)].
  intros h (Hhs & Hos). cbn beta in Hhs, Hos.
  unfold MultiHeadAttention_shaped.
  cbn [MultiHeadAttention.read MultiHeadAttention.num_heads MultiHeadAttention.heads
       MultiHeadAttention.out].
  split; [reflexivity|]. split.
  { rewrite length_fmap, Hlen, List.length_seq. reflexivity. }
  split; [|exact Hos].
  apply Forall_fmap. exact Hhs.
Qed.

(** *** Composing constructors *)

Lemma builds_intro {T : Type} (init : M F T) (Q : T -> gmap loc (Tensor F) -> Prop) :
  (forall w, exists m w', init w = Ok (m, w')) ->
  (forall w m w', init w = Ok (m, w') -> established w w' (Q m)) ->
  builds init Q.
Proof.
  intros Htotal Hest w. destruct (Htotal w) as (m & w' & Hinit).
  exists m, w'. split; [exact Hinit|]. apply Hest. exact Hinit.
Qed.

Lemma builds_impl {T : Type} (init : M F T) (Q Q' : T -> gmap loc (Tensor F) -> Prop) :
  (forall m h, Q m h -> Q' m h) -> builds init Q -> builds init Q'.
Proof.
  intros HQQ Hb w. destruct (Hb w) as (m & w' & Hinit & Hest).
  exists m, w'. split; [exact Hinit|].
  eapply established_impl; [|exact Hest]. intros h. apply HQQ.
Qed.

Lemma builds_ret {T : Type} (a : T) : builds (mret a) (fun m _ => m = a).
Proof.
  intros w. exists a, w. split; [reflexivity|]. split; [apply later_refl|].
  intros h _. reflexivity.
Qed.

Lemma builds_bind {A B : Type} (init : M F A) (f : A -> M F B)
    (Q1 : A -> gmap loc (Tensor F) -> Prop) (Q2 : A -> B -> gmap loc (Tensor F) -> Prop) :
  builds init Q1 -> (forall a, builds (f a) (Q2 a)) ->
  builds (init ≫= f) (fun b h => exists a, Q1 a h /\ Q2 a b h).
Proof.
  intros H1 H2 w.
  destruct (H1 w) as (a & w1 & Ha & Hea).
  destruct (H2 a w1) as (b & w2 & Hb & Heb).
  exists b, w2. split.
  - rewrite (bind_step _ _ _ _ _ Ha). exact Hb.
  - pose proof (established_mono w w w1 w2 _ (later_refl w) Hea (proj1 Heb)) as Ha'.
    pose proof (established_mono w w1 w2 w2 _ (proj1 Hea) Heb (later_refl w2)) as Hb'.
    eapply established_impl; [|exact (established_and _ _ _ _ Ha' Hb')].
    intros h (HQ1 & HQ2). exists a. split; assumption.
Qed.

Lemma builds_mapM {A T : Type} (f : A -> M F T)
    (Q : T -> gmap loc (Tensor F) -> Prop) (xs : list A) :
  (forall a, builds (f a) Q) ->
  builds (mapM f xs) (fun ms h => length ms = length xs /\ Forall (fun m => Q m h) ms).
Proof.
  intros Hf. apply builds_intro.
  - apply mapM_init_total. intros a w. destruct (Hf a w) as (m & w' & Hm & _).
    exists m, w'. exact Hm.
  - intros w ms w' Hmap.
    destruct (mapM_init_est f Q xs) with (w := w) (ms := ms) (w' := w') as (Hlen & Hest).
    + intros a w0 m w0' Hm. destruct (Hf a w0) as (m1 & w1 & Hm1 & Hest1).
      rewrite Hm in Hm1. injection Hm1 as <- <-. exact Hest1.
    + exact Hmap.
    + eapply established_impl; [|exact Hest]. intros h HF. split; assumption.
Qed.

Lemma builds_keeping_shapes {T : Type} (act : M F T) :
  keeps_shapes act -> builds act (fun _ _ => True).
Proof.
  intros Hact w. destruct (Hact w) as (m & w' & Hm & Hn & Hs).
  exists m, w'. split; [exact Hm|]. split; [|intros; exact I].
  split; [lia|]. intros l _. apply Hs.
Qed.

(** *** The constructors of the layers *)

Lemma builds_alloc (t : Tensor F) : builds (alloc t) (fun l h => shape (load h l) = shape t).
Proof. intros w. destruct (alloc_spec t w) as (w' & Hal & Hest). eauto. Qed.

Lemma builds_Linear (i o : nat) (b : bool) :
  builds (Linear.__init__ i o b) (fun m h => Linear_shaped i o (Linear.read h m)).
Proof.
  apply builds_intro; [apply Linear_init_total|]. intros w m w'. apply Linear_init_est.
Qed.

Lemma builds_MultiHeadAttention (d num_heads : nat) (p : F) :
  0 < num_heads ->
  builds (MultiHeadAttention.__init__ d num_heads p)
         (fun m h => MultiHeadAttention_shaped d num_heads (MultiHeadAttention.read h m)).
Proof.
  intros Hpos. apply builds_intro.
  - intros w. apply MultiHeadAttention_init_total. exact Hpos.
  - intros w m w'. apply MultiHeadAttention_init_est.
Qed.

Lemma builds_Embedding (n d : nat) :
  builds (Embedding.__init__ n d)
         (fun m h => shape (Embedding.weight (Embedding.read h m)) = (1, n, d)).
Proof.
  unfold Embedding.__init__.
  eapply builds_impl; [|apply builds_bind with
      (Q1 := fun _ _ => True)
      (Q2 := fun v m h => shape (Embedding.weight (Embedding.read h m)) = (1, n, d))].
  - intros m h (v & _ & Hm). exact Hm.
  - apply builds_keeping_shapes. intros w.
    destruct (draw_normal_spec fzero fone w) as (v & w' & Hv & Hn & Hh).
    exists v, w'. split; [exact Hv|]. split; [exact Hn|]. intros l. rewrite Hh. reflexivity.
  - intros v.
    eapply builds_impl; [|apply builds_bind with
        (Q1 := fun l h => shape (load h l) = shape (mkT 1 n d v))
        (Q2 := fun l m _ => m = Embedding.mk n d l)].
    + intros m h (l & Hl & ->). exact Hl.
    + apply builds_alloc.
    + intros l. apply builds_ret.
Qed.

Lemma builds_LayerNorm (d : nat) (eps : F) :
  builds (LayerNorm.__init__ d eps true)
         (fun m h => LayerNorm_shaped d (LayerNorm.read h m)).
Proof.
  unfold LayerNorm.__init__.
  eapply builds_impl; [|apply builds_bind with
      (Q1 := fun l h => shape (load h l) = shape (ones1 d))
      (Q2 := fun g m h => exists b, shape (load h b) = shape (zeros1 d) /\
                            m = LayerNorm.mk d eps true (Some g) (Some b))].
  - intros m h (g & Hg & b & Hb & ->).
    exists (load h g), (load h b). repeat split; assumption.
  - apply builds_alloc.
  - intros g.
    eapply builds_impl; [|apply builds_bind with
        (Q1 := fun l h => shape (load h l) = shape (zeros1 d))
        (Q2 := fun b m _ => m = LayerNorm.mk d eps true (Some g) (Some b))].
    + intros m h (b & Hb & ->). exists b. split; [exact Hb|reflexivity].
    + apply builds_alloc.
    + intros b. apply builds_ret.
Qed.

Lemma builds_FeedForwardLayer (d : nat) (p : F) :
  builds (FeedForwardLayer.__init__ d None p)
         (fun m h => FeedForwardLayer_shaped d (FeedForwardLayer.read h m)).
Proof.
  unfold FeedForwardLayer.__init__.
  eapply builds_impl; [|apply builds_bind with
      (Q1 := fun m h => Linear_shaped d (d * 4) (Linear.read h m))
      (Q2 := fun fc1 m h => exists fc2, Linear_shaped (d * 4) d (Linear.read h fc2) /\
                              m = FeedForwardLayer.mk fc1 fc2 (Dropout.__init__ p))].
  - intros m h (fc1 & H1 & fc2 & H2 & ->). split; assumption.
  - apply builds_Linear.
  - intros fc1.
    eapply builds_impl; [|apply builds_bind with
        (Q1 := fun m h => Linear_shaped (d * 4) d (Linear.read h m))
        (Q2 := fun fc2 m _ => m = FeedForwardLayer.mk fc1 fc2 (Dropout.__init__ p))].
    + intros m h (fc2 & H2 & ->). exists fc2. split; [exact H2|reflexivity].
    + apply builds_Linear.
    + intros fc2. apply builds_ret.
Qed.

Lemma builds_TransformerLayer (d num_heads : nat) (ff : option nat) :
  0 < num_heads ->
  builds (TransformerLayer.__init__ d num_heads ff)
         (fun m h => TransformerLayer_shaped d num_heads (TransformerLayer.read h m)).
Proof.
  intros Hpos. unfold TransformerLayer.__init__.
  eapply builds_impl; [|apply builds_bind with
      (Q1 := fun m h => LayerNorm_shaped d (LayerNorm.read h m))
      (Q2 := fun n1 m h => exists att n2 f,
                 MultiHeadAttention_shaped d num_heads (MultiHeadAttention.read h att) /\
                 LayerNorm_shaped d (LayerNorm.read h n2) /\
                 FeedForwardLayer_shaped d (FeedForwardLayer.read h f) /\
                 m = TransformerLayer.mk n1 att n2 f)].
  - intros m h (n1 & H1 & att & n2 & f & Ha & H2 & Hf & ->).
    exact (conj H1 (conj Ha (conj H2 Hf))).
  - apply builds_LayerNorm.
  - intros n1.
    eapply builds_impl; [|apply builds_bind with
        (Q1 := fun m h => MultiHeadAttention_shaped d num_heads (MultiHeadAttention.read h m))
        (Q2 := fun att m h => exists n2 f,
                   LayerNorm_shaped d (LayerNorm.read h n2) /\
                   FeedForwardLayer_shaped d (FeedForwardLayer.read h f) /\
                   m = TransformerLayer.mk n1 att n2 f)].
    + intros m h (att & Ha & n2 & f & H2 & Hf & ->). exists att, n2, f. auto.
    + apply builds_MultiHeadAttention. exact Hpos.
    + intros att.
      eapply builds_impl; [|apply builds_bind with
          (Q1 := fun m h => LayerNorm_shaped d (LayerNorm.read h m))
          (Q2 := fun n2 m h => exists f,
                     FeedForwardLayer_shaped d (FeedForwardLayer.read h f) /\
                     m = TransformerLayer.mk n1 att n2 f)].
      * intros m h (n2 & H2 & f & Hf & ->). exists n2, f. auto.
      * apply builds_LayerNorm.
      * intros n2.
        eapply builds_impl; [|apply builds_bind with
            (Q1 := fun m h => FeedForwardLayer_shaped d (FeedForwardLayer.read h m))
            (Q2 := fun f m _ => m = TransformerLayer.mk n1 att n2 f)].
        -- intros m h (f & Hf & ->). exists f. auto.
        -- apply builds_FeedForwardLayer.
        -- intros f. apply builds_ret.
Qed.

(** *** In-place initialisation *)

Lemma keeps_shapes_ret {T : Type} (a : T) : keeps_shapes (mret a : M F T).
Proof. intros w. exists a, w. split; [reflexivity|]. split; reflexivity. Qed.

Lemma keeps_shapes_bind {A B : Type} (act : M F A) (f : A -> M F B) :
  keeps_shapes act -> (forall a, keeps_shapes (f a)) -> keeps_shapes (act ≫= f).
Proof.
  intros H1 H2 w. destruct (H1 w) as (a & w1 & Ha & Hn1 & Hs1).
  destruct (H2 a w1) as (b & w2 & Hb & Hn2 & Hs2).
  exists b, w2. split; [rewrite (bind_step _ _ _ _ _ Ha); exact Hb|].
  split; [lia|]. intros l. rewrite Hs2. apply Hs1.
Qed.

Lemma keeps_shapes_fill (l : loc) (v : nat -> nat -> nat -> F) : keeps_shapes (fill_ l v).
Proof.
  intros w. eexists tt, _. split; [reflexivity|]. split; [reflexivity|].
  intros l'. cbn [heap]. destruct (Nat.eq_dec l l') as [<-|Hne].
  - rewrite load_insert_eq. reflexivity.
  - rewrite load_insert_ne by exact Hne. reflexivity.
Qed.

Lemma keeps_shapes_normal (l : loc) (mean std : F) : keeps_shapes (normal_ l mean std).
Proof.
  intros w. unfold normal_.
  destruct (draw_normal_spec mean std w) as (v & w1 & Hv & Hn & Hh). rewrite Hv.
  destruct (keeps_shapes_fill l v w1) as (u & w2 & Hf & Hn2 & Hs2).
  exists u, w2. split; [exact Hf|]. split; [lia|].
  intros l'. rewrite Hs2, Hh. reflexivity.
Qed.

Lemma keeps_shapes_init_weights (self : MiniGPT.t F loc) (m : MiniGPT.module loc) :
  keeps_shapes (MiniGPT._init_weights self m).
Proof.
  destruct m as [l|e|name]; cbn [MiniGPT._init_weights].
  - apply keeps_shapes_bind.
    + cbn [MiniGPT._get_name Linear._get_name String.eqb Ascii.eqb Bool.eqb].
      apply keeps_shapes_normal.
    + intros _. destruct (Linear.bias l) as [b|].
      * apply keeps_shapes_fill.
      * apply keeps_shapes_ret.
  - apply keeps_shapes_normal.
  - apply keeps_shapes_ret.
Qed.

Lemma keeps_shapes_forM {A : Type} (f : A -> M F unit) (xs : list A) :
  (forall a, keeps_shapes (f a)) -> keeps_shapes (forM_ f xs).
Proof.
  intros Hf. induction xs as [|a xs IH]; cbn [forM_].
  - apply keeps_shapes_ret.
  - apply keeps_shapes_bind; [apply Hf|intros _; exact IH].
Qed.

Lemma keeps_shapes_apply (self : MiniGPT.t F loc) :
  keeps_shapes (MiniGPT.apply self MiniGPT._init_weights).
Proof.
  unfold MiniGPT.apply. apply keeps_shapes_forM. apply keeps_shapes_init_weights.
Qed.

(** *** The constructor of the model *)

(** What the constructor of the model establishes: the shapes of all
    parameters, and, under weight tying, that the head's [weight] is the
    embedding's parameter object. *)
Lemma builds_MiniGPT (config : MiniGPT.Config F) :
  0 < MiniGPT.cfg_num_heads config ->
  builds (MiniGPT.__init__ config)
         (fun m h => MiniGPT_shaped config (MiniGPT.read h m) /\
                     (MiniGPT.weight_tie config = true ->
                      Linear.weight (MiniGPT.head m)
                      = Embedding.weight (MiniGPT.vocab_embedding m))).
Proof.
  intros Hpos. unfold MiniGPT.__init__.
  set (V := MiniGPT.vocab_size config). set (D := MiniGPT.embed_dim config).
  set (C := MiniGPT.context_length config). set (NH := MiniGPT.cfg_num_heads config).
  set (finish := fun ve pe layers pn head =>
    MiniGPT.mk ve pe (Dropout.__init__ (MiniGPT.cfg_embed_dropout config)) layers pn
      (if MiniGPT.weight_tie config then MiniGPT.tie head ve else head) (arange C)).
  eapply builds_impl; [|apply builds_bind with
      (Q1 := fun m h => shape (Embedding.weight (Embedding.read h m)) = (1, V, D))
      (Q2 := fun ve m h => exists pe layers pn head,
                 shape (Embedding.weight (Embedding.read h pe)) = (1, C, D) /\
                 (length layers = MiniGPT.num_layers config /\
                  Forall (fun l => TransformerLayer_shaped D NH (TransformerLayer.read h l))
                         layers) /\
                 LayerNorm_shaped D (LayerNorm.read h pn) /\
                 Linear_shaped D V (Linear.read h head) /\
                 m = finish ve pe layers pn head)].
  - intros m h (ve & Hve & pe & layers & pn & head & Hpe & (Hlen & Hlayers) & Hpn & Hhead & ->).
    split.
    + unfold MiniGPT_shaped, finish.
      cbn [MiniGPT.read MiniGPT.vocab_embedding MiniGPT.positional_embedding MiniGPT.pos
           MiniGPT.transformer_layers MiniGPT.prehead_norm MiniGPT.head].
      split; [exact Hve|]. split; [exact Hpe|]. split; [reflexivity|].
      split; [rewrite length_fmap; exact Hlen|].
      split; [apply Forall_fmap; exact Hlayers|].
      split; [exact Hpn|].
      destruct (MiniGPT.weight_tie config); [|exact Hhead].
      destruct Hhead as (_ & _ & Hbias).
      destruct (shape_dims _ (mkT _ _ _ (el (Embedding.weight (Embedding.read h ve)))) Hve)
        as (_ & Hv1 & Hv2).
      split; [exact Hv2|]. split; [exact Hv1|]. exact Hbias.
    + intros Htie. unfold finish. cbn [MiniGPT.head MiniGPT.vocab_embedding].
      rewrite Htie. reflexivity.
  - apply builds_Embedding.
  - intros ve.
    eapply builds_impl; [|apply builds_bind with
        (Q1 := fun m h => shape (Embedding.weight (Embedding.read h m)) = (1, C, D))
        (Q2 := fun pe m h => exists layers pn head,
                   (length layers = MiniGPT.num_layers config /\
                    Forall (fun l => TransformerLayer_shaped D NH (TransformerLayer.read h l))
                           layers) /\
                   LayerNorm_shaped D (LayerNorm.read h pn) /\
                   Linear_shaped D V (Linear.read h head) /\
                   m = finish ve pe layers pn head)].
    + intros m h (pe & Hpe & layers & pn & head & Hl & Hpn & Hhead & ->).
      exists pe, layers, pn, head. auto.
    + apply builds_Embedding.
    + intros pe. cbn zeta.
      eapply builds_impl; [|apply builds_bind with
          (Q1 := fun ms h => length ms = length (seq 0 (MiniGPT.num_layers config)) /\
                   Forall (fun l => TransformerLayer_shaped D NH (TransformerLayer.read h l))
                          ms)
          (Q2 := fun layers m h => exists pn head,
                     LayerNorm_shaped D (LayerNorm.read h pn) /\
                     Linear_shaped D V (Linear.read h head) /\
                     m = finish ve pe layers pn head)].
      * intros m h (layers & (Hlen & Hl) & pn & head & Hpn & Hhead & ->).
        exists layers, pn, head. rewrite List.length_seq in Hlen. auto.
      * apply builds_mapM. intros _. apply builds_TransformerLayer. exact Hpos.
      * intros layers.
        eapply builds_impl; [|apply builds_bind with
            (Q1 := fun m h => LayerNorm_shaped D (LayerNorm.read h m))
            (Q2 := fun pn m h => exists head,
                       Linear_shaped D V (Linear.read h head) /\
                       m = finish ve pe layers pn head)].
        -- intros m h (pn & Hpn & head & Hhead & ->). exists pn, head. auto.
        -- apply builds_LayerNorm.
        -- intros pn.
           eapply builds_impl; [|apply builds_bind with
               (Q1 := fun m h => Linear_shaped D V (Linear.read h m))
               (Q2 := fun head m _ => m = finish ve pe layers pn head)].
           ++ intros m h (head & Hhead & ->). exists head. auto.
           ++ apply builds_Linear.
           ++ intros head. cbn zeta. fold (finish ve pe layers pn head).
              eapply builds_impl; [|apply builds_bind with
                  (Q1 := fun _ _ => True)
                  (Q2 := fun _ m _ => m = finish ve pe layers pn head)].
              ** intros m h (u & _ & ->). reflexivity.
              ** apply builds_keeping_shapes, keeps_shapes_apply.
              ** intros _. apply builds_ret.
Qed.

End STORE.

(** ** C5 and C9: the shape of the attention output *)

Section ATTENTION_SHAPE.
Context {F : Type} `{Scalar F} `{Random F}.

Lemma head_width_fits (d num_heads : nat) :
  0 < num_heads -> (num_heads * head_width d num_heads = d <-> Nat.divide num_heads d).
Proof.
  intros Hpos. unfold head_width, or_default.
  destruct (d / num_heads) as [|q] eqn:Hq.
  - apply Nat.div_small_iff in Hq; [|lia]. split.
    + intros Hd. assert (d = 0) as -> by nia. apply Nat.divide_0_r.
    + intros (k & Hk). assert (k = 0) by nia. subst k. nia.
  - split.
    + intros Hd. exists (S q). lia.
    + intros (k & Hk). subst d. rewrite Nat.div_mul in Hq by lia. subst k. lia.
Qed.

Lemma SingleHeadAttention_forward_wrong_width (d kq dv max_len : nat)
    (m : SingleHeadAttention.t F (Tensor F)) (x : Tensor F) (w : World F) :
  SingleHeadAttention_shaped d kq dv max_len m -> d2 x <> d ->
  SingleHeadAttention.forward m x w = Err (RuntimeError OpLinear).
Proof.
  intros (_ & (Hq2 & _) & _) Hd.
  unfold SingleHeadAttention.forward, Linear.forward.
  rewrite (linear_mismatch x (Linear.weight (SingleHeadAttention.query m)) _)
    by congruence.
  reflexivity.
Qed.

Lemma SingleHeadAttention_forward_too_long (d kq dv max_len : nat)
    (m : SingleHeadAttention.t F (Tensor F)) (x : Tensor F) (w : World F) :
  SingleHeadAttention_shaped d kq dv max_len m ->
  d2 x = d -> max_len < d1 x -> 2 <= max_len ->
  SingleHeadAttention.forward m x w = Err (RuntimeError OpMaskedFill).
Proof.
  intros (Hkq & (Hq2 & Hq1 & Hqb) & (Hk2 & Hk1 & Hkb) & (Hv2 & Hv1 & Hvb) & Hmask)
         Hx Hlong Hmax.
  unfold SingleHeadAttention.forward, Linear.forward.
  rewrite (linear_ok x _ _ (eq_trans Hx (eq_sym Hq2))
             (fun bs Hbs => eq_trans (Hqb bs Hbs) (eq_sym Hq1))).
  rewrite (linear_ok x _ _ (eq_trans Hx (eq_sym Hk2))
             (fun bs Hbs => eq_trans (Hkb bs Hbs) (eq_sym Hk1))).
  rewrite (linear_ok x _ _ (eq_trans Hx (eq_sym Hv2))
             (fun bs Hbs => eq_trans (Hvb bs Hbs) (eq_sym Hv1))).
  run_monad.
  rewrite matmul_ok; [|reflexivity|cbn [d1 d2 transpose]; congruence].
  run_monad. unfold masked_fill_. rewrite Hmask.
  cbn [b0 b1 b2 d0 d1 d2 teq_scalar slice2 tdiv_scalar tmap transpose triu ones2].
  replace (Nat.min (d1 x) max_len) with max_len by lia.
  unfold expandable.
  destruct (Nat.eqb_spec max_len (d1 x)); [lia|].
  destruct (Nat.eqb_spec max_len 1); [lia|].
  rewrite andb_false_r. reflexivity.
Qed.

Lemma MultiHeadAttention_forward_bad_input (d num_heads : nat)
    (m : MultiHeadAttention.t F (Tensor F)) (x : Tensor F) (w : World F) :
  MultiHeadAttention_shaped d num_heads m -> 0 < num_heads ->
  d2 x <> d \/ SingleHeadAttention.default_max_len < d1 x ->
  exists e, MultiHeadAttention.forward m x w = Err e.
Proof.
  intros (Hnh & Hlen & Hheads & _) Hpos Hbad.
  unfold MultiHeadAttention.forward. rewrite Hnh.
  destruct num_heads as [|n]; [lia|].
  destruct (MultiHeadAttention.heads m) as [|h hs] eqn:Hhs; [discriminate|].
  inversion Hheads as [|h' hs' Hh _]; subst.
  assert (Hfail : exists e, SingleHeadAttention.forward h x w = Err e).
  { destruct (Nat.eq_dec (d2 x) d) as [Hd|Hd].
    - destruct Hbad as [Hbad|Hbad]; [contradiction|].
      eexists. eapply SingleHeadAttention_forward_too_long; eauto.
      unfold SingleHeadAttention.default_max_len. lia.
    - eexists. eapply SingleHeadAttention_forward_wrong_width; eauto. }
  destruct Hfail as (e & He). exists e.
  cbn [seq mapM]. rewrite !bind_unfold.
  unfold MultiHeadAttention.get_head. rewrite Hhs. cbn [nth_error].
  rewrite ret_unfold, He. reflexivity.
Qed.

(** What the constructor of a single head builds: on inputs of its width
    and of at most [max_len] tokens, the output keeps the batch and token
    dimensions and has [output_value_dim] features ([input_dim] when that
    argument is absent or zero). *)
Lemma SingleHeadAttention_output_shape input_dim kq v (p : F) max_len (w : World F) :
  exists m w',
    SingleHeadAttention.__init__ input_dim kq v p max_len w = Ok (m, w') /\
    forall h, same_shapes (next w) (next w') h (heap w') ->
    forall x w2, d2 x = input_dim -> d1 x <= max_len ->
    exists y w3,
      SingleHeadAttention.forward (SingleHeadAttention.read h m) x w2 = Ok (y, w3) /\
      shape y = (d0 x, d1 x, or_default v input_dim).
Proof.
  destruct (SingleHeadAttention_init_total input_dim kq v p max_len w) as (m & w' & Hinit).
  exists m, w'. split; [exact Hinit|].
  intros h Hh x w2 Hd Hn.
  pose proof (proj2 (SingleHeadAttention_init_est _ _ _ _ _ _ _ _ Hinit) h Hh) as Hshaped.
  cbn beta in Hshaped.
  destruct (SingleHeadAttention_forward_spec _ _ _ _ _ x w2 Hshaped Hd Hn)
    as (y & w3 & Hy & Hsy & _).
  exists y, w3. split; assumption.
Qed.

(** C5, as the code has it.  A [SingleHeadAttention] maps an input of shape
    [(batch, n, input_dim)] with [n <= max_len] to an output of shape
    [(batch, n, output_value_dim)], where [output_value_dim] is
    [input_dim] when the argument is absent or zero; the output has the
    shape of the input exactly when the two widths are equal.  A
    [MultiHeadAttention] whose [num_heads] is positive and divides
    [input_dim] maps an input of shape [(batch, n, input_dim)] with
    [n <= 512] to an output of the same shape.  Both hold for every value
    of the parameters (every store with the shapes the constructor
    allocated). *)
Theorem attention_output_shape
    (input_dim : nat) (kq v : option nat) (p : F) (max_len num_heads : nat) (w : World F) :
  (exists m w',
     SingleHeadAttention.__init__ input_dim kq v p max_len w = Ok (m, w') /\
     forall h, same_shapes (next w) (next w') h (heap w') ->
     forall x w2, d2 x = input_dim -> d1 x <= max_len ->
     exists y w3,
       SingleHeadAttention.forward (SingleHeadAttention.read h m) x w2 = Ok (y, w3) /\
       shape y = (d0 x, d1 x, or_default v input_dim) /\
       (or_default v input_dim = input_dim -> shape y = shape x)) /\
  (0 < num_heads -> Nat.divide num_heads input_dim ->
   exists m w',
     MultiHeadAttention.__init__ input_dim num_heads p w = Ok (m, w') /\
     forall h, same_shapes (next w) (next w') h (heap w') ->
     forall x w2, d2 x = input_dim -> d1 x <= SingleHeadAttention.default_max_len ->
     exists y w3,
       MultiHeadAttention.forward (MultiHeadAttention.read h m) x w2 = Ok (y, w3) /\
       shape y = shape x).
Proof.
  split.
  - destruct (SingleHeadAttention_output_shape input_dim kq v p max_len w)
      as (m & w' & Hinit & Hfwd).
    exists m, w'. split; [exact Hinit|].
    intros h Hh x w2 Hd Hn. destruct (Hfwd h Hh x w2 Hd Hn) as (y & w3 & Hy & Hs).
    exists y, w3. split; [exact Hy|]. split; [exact Hs|].
    intros Hv. rewrite Hs, Hv, <- Hd. reflexivity.
  - intros Hpos Hdiv.
    destruct (MultiHeadAttention_init_total input_dim num_heads p w Hpos)
      as (m & w' & Hinit).
    exists m, w'. split; [exact Hinit|].
    intros h Hh x w2 Hd Hn.
    pose proof (proj2 (MultiHeadAttention_init_est _ _ _ _ _ _ Hinit) h Hh) as Hshaped.
    cbn beta in Hshaped.
    apply (MultiHeadAttention_forward_shape input_dim num_heads); try assumption.
    split; [exact Hpos|]. apply head_width_fits; assumption.
Qed.

(** C9, as the code has it.  With [num_heads >= 1] that does not divide
    [input_dim], the constructor builds heads of width
    [head_width = floor(input_dim / num_heads)], or [input_dim] when that
    quotient is zero; the forward pass fails on every input; and on every
    input of the right width and at most 512 tokens the heads run, their
    concatenation has last dimension [num_heads * head_width], different
    from [input_dim], and the final linear layer raises the shape-mismatch
    error. *)
Theorem indivisible_heads_fail
    (input_dim num_heads : nat) (p : F) (w : World F) :
  0 < num_heads -> ~ Nat.divide num_heads input_dim ->
  exists m w',
    MultiHeadAttention.__init__ input_dim num_heads p w = Ok (m, w') /\
    num_heads * head_width input_dim num_heads <> input_dim /\
    forall h, same_shapes (next w) (next w') h (heap w') ->
      (forall x w2, exists e,
          MultiHeadAttention.forward (MultiHeadAttention.read h m) x w2 = Err e) /\
      (forall x w2, d2 x = input_dim -> d1 x <= SingleHeadAttention.default_max_len ->
         (exists values w3 c,
             mapM (fun i => head ← MultiHeadAttention.get_head (MultiHeadAttention.read h m) i;
                            SingleHeadAttention.forward head x)
                  (seq 0 num_heads) w2 = Ok (values, w3) /\
             cat values = Ok c /\
             d2 c = num_heads * head_width input_dim num_heads) /\
         MultiHeadAttention.forward (MultiHeadAttention.read h m) x w2
         = Err (RuntimeError OpLinear)).
Proof.
  intros Hpos Hndiv.
  destruct (MultiHeadAttention_init_total input_dim num_heads p w Hpos) as (m & w' & Hinit).
  exists m, w'. split; [exact Hinit|].
  assert (Hne : num_heads * head_width input_dim num_heads <> input_dim).
  { intros Heq. apply Hndiv. apply head_width_fits; assumption. }
  split; [exact Hne|].
  intros h Hh.
  pose proof (proj2 (MultiHeadAttention_init_est _ _ _ _ _ _ Hinit) h Hh) as Hshaped.
  cbn beta in Hshaped.
  assert (Hwell : forall x w2, d2 x = input_dim -> d1 x <= SingleHeadAttention.default_max_len ->
            MultiHeadAttention.forward (MultiHeadAttention.read h m) x w2
            = Err (RuntimeError OpLinear)).
  { intros x w2 Hd Hn.
    apply (MultiHeadAttention_forward_mismatch input_dim num_heads); assumption. }
  split.
  - intros x w2.
    destruct (Nat.eq_dec (d2 x) input_dim) as [Hd|Hd];
      [destruct (le_lt_dec (d1 x) SingleHeadAttention.default_max_len) as [Hn|Hn]|].
    + eexists. apply Hwell; assumption.
    + apply (MultiHeadAttention_forward_bad_input input_dim num_heads); auto.
    + apply (MultiHeadAttention_forward_bad_input input_dim num_heads); auto.
  - intros x w2 Hd Hn. split; [|apply Hwell; assumption].
    destruct (MultiHeadAttention_heads_concat input_dim num_heads _ x w2 Hshaped Hd Hn Hpos)
      as (values & w3 & c & Hvalues & Hc & Hsc).
    exists values, w3, c.
    replace (MultiHeadAttention.num_heads (MultiHeadAttention.read h m))
      with num_heads in Hvalues by (symmetry; apply Hshaped).
    split; [exact Hvalues|]. split; [exact Hc|].
    destruct (shape_dims c (mkT _ _ _ (el c)) Hsc) as (_ & _ & Hc2). exact Hc2.
Qed.

End ATTENTION_SHAPE.

Section ATTENTION_SHAPE_EXAMPLES.
#[local] Existing Instance RealScalar.exact.
#[local] Existing Instance Counter.random.

Lemma same_shapes_refl (lo hi : loc) (h : gmap loc (Tensor R)) : same_shapes lo hi h h.
Proof. intros l _. reflexivity. Qed.

Lemma attention_output_shape_witness :
  (exists m w',
     SingleHeadAttention.__init__ 4 (Some 2) None SingleHeadAttention.default_dropout 8
       Examples.fresh_world = Ok (m, w') /\
     forall h, same_shapes (next Examples.fresh_world) (next w') h (heap w') ->
     forall x w2, d2 x = 4 -> d1 x <= 8 ->
     exists y w3,
       SingleHeadAttention.forward (SingleHeadAttention.read h m) x w2 = Ok (y, w3) /\
       shape y = (d0 x, d1 x, or_default None 4) /\
       (or_default None 4 = 4 -> shape y = shape x)) /\
  (exists m w',
     MultiHeadAttention.__init__ 4 2 MultiHeadAttention.default_dropout
       Examples.fresh_world = Ok (m, w') /\
     forall h, same_shapes (next Examples.fresh_world) (next w') h (heap w') ->
     forall x w2, d2 x = 4 -> d1 x <= SingleHeadAttention.default_max_len ->
     exists y w3,
       MultiHeadAttention.forward (MultiHeadAttention.read h m) x w2 = Ok (y, w3) /\
       shape y = shape x).
Proof.
  destruct (attention_output_shape 4 (Some 2) None SingleHeadAttention.default_dropout
              8 2 Examples.fresh_world) as (Hsingle & Hmulti).
  split; [exact Hsingle|].
  apply Hmulti; [lia|]. exists 2. reflexivity.
Defined.

(** C5 as stated fails for a head whose [output_value_dim] is not its
    [input_dim]: built with [input_dim = 2] and [output_value_dim = 1], the
    head maps an input of shape [(1, 1, 2)] to an output of shape
    [(1, 1, 1)]. *)
Lemma narrow_head_changes_shape :
  exists m w',
    SingleHeadAttention.__init__ 2 None (Some 1) SingleHeadAttention.default_dropout
      SingleHeadAttention.default_max_len Examples.fresh_world = Ok (m, w') /\
    exists y w3,
      SingleHeadAttention.forward (SingleHeadAttention.read (heap w') m)
        Examples.zero_row w' = Ok (y, w3) /\
      shape y = (1, 1, 1) /\ shape y <> shape Examples.zero_row.
Proof.
  destruct (SingleHeadAttention_output_shape 2 None (Some 1)
              SingleHeadAttention.default_dropout SingleHeadAttention.default_max_len
              Examples.fresh_world) as (m & w' & Hinit & Hfwd).
  exists m, w'. split; [exact Hinit|].
  destruct (Hfwd (heap w') (same_shapes_refl _ _ _) Examples.zero_row w' eq_refl)
    as (y & w3 & Hy & Hs).
  { cbn. unfold SingleHeadAttention.default_max_len. lia. }
  exists y, w3. split; [exact Hy|]. split; [exact Hs|].
  rewrite Hs. discriminate.
Qed.

Lemma indivisible_heads_fail_witness :
  exists m w',
    MultiHeadAttention.__init__ 5 2 MultiHeadAttention.default_dropout
      Examples.fresh_world = Ok (m, w') /\
    2 * head_width 5 2 <> 5 /\
    forall h, same_shapes (next Examples.fresh_world) (next w') h (heap w') ->
      (forall x w2, exists e,
          MultiHeadAttention.forward (MultiHeadAttention.read h m) x w2 = Err e) /\
      (forall x w2, d2 x = 5 -> d1 x <= SingleHeadAttention.default_max_len ->
         (exists values w3 c,
             mapM (fun i => head ← MultiHeadAttention.get_head (MultiHeadAttention.read h m) i;
                            SingleHeadAttention.forward head x)
                  (seq 0 2) w2 = Ok (values, w3) /\
             cat values = Ok c /\
             d2 c = 2 * head_width 5 2) /\
         MultiHeadAttention.forward (MultiHeadAttention.read h m) x w2
         = Err (RuntimeError OpLinear)).
Proof.
  apply (indivisible_heads_fail 5 2 MultiHeadAttention.default_dropout
           Examples.fresh_world); [lia|].
  intros (k & Hk). lia.
Defined.

(** C9 as stated fails when [num_heads] exceeds [input_dim]: with
    [input_dim = 2] and [num_heads = 3] the quotient [floor(2 / 3)] is zero,
    each head is built with the default width [input_dim = 2], and the
    concatenated head outputs have last dimension [6], not
    [3 * floor(2 / 3) = 0]. *)
Lemma three_heads_over_two_features_concat_six :
  exists m w',
    MultiHeadAttention.__init__ 2 3 MultiHeadAttention.default_dropout
      Examples.fresh_world = Ok (m, w') /\
    exists values w3 c,
      mapM (fun i => head ← MultiHeadAttention.get_head
                              (MultiHeadAttention.read (heap w') m) i;
                     SingleHeadAttention.forward head Examples.zero_row)
           (seq 0 3) w' = Ok (values, w3) /\
      cat values = Ok c /\
      d2 c = 6 /\ d2 c <> 3 * (2 / 3).
Proof.
  destruct (MultiHeadAttention_init_total 2 3 MultiHeadAttention.default_dropout
              Examples.fresh_world) as (m & w' & Hinit); [lia|].
  exists m, w'. split; [exact Hinit|].
  pose proof (proj2 (MultiHeadAttention_init_est _ _ _ _ _ _ Hinit) (heap w')
                (same_shapes_refl _ _ _)) as Hshaped.
  cbn beta in Hshaped.
  destruct (MultiHeadAttention_heads_concat 2 3 _ Examples.zero_row w' Hshaped eq_refl)
    as (values & w3 & c & Hv & Hc & Hsc).
  { cbn. unfold SingleHeadAttention.default_max_len. lia. }
  { lia. }
  exists values, w3, c.
  replace (MultiHeadAttention.num_heads (MultiHeadAttention.read (heap w') m))
    with 3 in Hv by (symmetry; apply Hshaped).
  split; [exact Hv|]. split; [exact Hc|].
  destruct (shape_dims c (mkT _ _ _ (el c)) Hsc) as (_ & _ & Hd).
  rewrite Hd. cbn. split; [reflexivity|lia].
Qed.

End ATTENTION_SHAPE_EXAMPLES.


(** ** The layers cannot tell apart two tensors that are the same tensor *)

Section CONGRUENCE.
Context {F : Type} `{Scalar F} `{Random F}.

Lemma tensor_eq_refl (t : Tensor F) : tensor_eq t t.
Proof. split; [reflexivity|]. intros; reflexivity. Qed.

Lemma tensor_eq_dims (x y : Tensor F) :
  tensor_eq x y -> d0 x = d0 y /\ d1 x = d1 y /\ d2 x = d2 y.
Proof. intros (Hs & _). apply shape_dims. exact Hs. Qed.

Lemma same_result_refl (r : result (Tensor F)) : same_result r r.
Proof. destruct r; [apply tensor_eq_refl|reflexivity]. Qed.

Lemma same_result_bind (r1 r2 : result (Tensor F)) (f g : Tensor F -> result (Tensor F)) :
  same_result r1 r2 ->
  (forall a b, tensor_eq a b -> same_result (f a) (g b)) ->
  same_result (r1 ≫= f) (r2 ≫= g).
Proof.
  intros Hr Hfg. destruct r1 as [a|e1], r2 as [b|e2]; cbn in *;
    try contradiction; [apply Hfg; exact Hr|exact Hr].
Qed.

Lemma same_run_lift (r1 r2 : result (Tensor F)) (w : World F) :
  same_result r1 r2 -> same_run (lift r1 w) (lift r2 w).
Proof.
  intros Hr. destruct r1 as [a|e1], r2 as [b|e2]; cbn in *;
    try contradiction; auto.
Qed.

Lemma same_run_bind (m1 m2 : M F (Tensor F)) (f g : Tensor F -> M F (Tensor F))
    (w : World F) :
  same_run (m1 w) (m2 w) ->
  (forall a b w', tensor_eq a b -> same_run (f a w') (g b w')) ->
  same_run ((m1 ≫= f) w) ((m2 ≫= g) w).
Proof.
  intros Hm Hfg. rewrite !bind_unfold.
  destruct (m1 w) as [[a w1]|e1], (m2 w) as [[b w2]|e2]; cbn in Hm;
    try contradiction; [|exact Hm].
  destruct Hm as (Hab & <-). apply Hfg. exact Hab.
Qed.

Lemma same_run_ret (a b : Tensor F) (w : World F) :
  tensor_eq a b -> same_run ((mret a : M F (Tensor F)) w) ((mret b : M F (Tensor F)) w).
Proof. intros Hab. split; [exact Hab|reflexivity]. Qed.

(** *** The library operations *)

Lemma bidx_bound (p q a i : nat) :
  bdim p q = Some a -> i < a -> bidx p i < p /\ bidx q i < q.
Proof.
  unfold bdim, bidx. intros Hb Hi.
  destruct (Nat.eqb_spec p q) as [->|Hpq].
  - injection Hb as <-. destruct (Nat.eqb_spec q 1); lia.
  - destruct (Nat.eqb_spec p 1) as [->|Hp1].
    + injection Hb as <-. destruct (Nat.eqb_spec q 1); lia.
    + destruct (Nat.eqb_spec q 1) as [->|Hq1]; [|discriminate].
      injection Hb as <-. lia.
Qed.

Lemma broadcast2_cong (o : op) (f : F -> F -> F) (x x' y y' : Tensor F) :
  tensor_eq x x' -> tensor_eq y y' ->
  same_result (broadcast2 o f x y) (broadcast2 o f x' y').
Proof.
  intros Hx Hy.
  destruct (tensor_eq_dims _ _ Hx) as (Hx0 & Hx1 & Hx2).
  destruct (tensor_eq_dims _ _ Hy) as (Hy0 & Hy1 & Hy2).
  unfold broadcast2. rewrite <- Hx0, <- Hx1, <- Hx2, <- Hy0, <- Hy1, <- Hy2.
  destruct (bdim (d0 x) (d0 y)) as [a|] eqn:Ha; [|reflexivity].
  destruct (bdim (d1 x) (d1 y)) as [b|] eqn:Hb; [|reflexivity].
  destruct (bdim (d2 x) (d2 y)) as [c|] eqn:Hc; [|reflexivity].
  split; [reflexivity|]. cbn [d0 d1 d2 el]. intros i j k Hi Hj Hk.
  destruct (bidx_bound _ _ _ _ Ha Hi) as (Hxi & Hyi).
  destruct (bidx_bound _ _ _ _ Hb Hj) as (Hxj & Hyj).
  destruct (bidx_bound _ _ _ _ Hc Hk) as (Hxk & Hyk).
  rewrite (proj2 Hx _ _ _ Hxi Hxj Hxk), (proj2 Hy _ _ _ Hyi Hyj Hyk). reflexivity.
Qed.

Lemma tmap_cong (f : F -> F) (x x' : Tensor F) :
  tensor_eq x x' -> tensor_eq (tmap f x) (tmap f x').
Proof.
  intros Hx. destruct (tensor_eq_dims _ _ Hx) as (Hx0 & Hx1 & Hx2).
  split; [unfold shape; cbn [tmap d0 d1 d2]; congruence|].
  cbn [tmap d0 d1 d2 el]. intros i j k Hi Hj Hk.
  rewrite (proj2 Hx _ _ _ Hi Hj Hk). reflexivity.
Qed.

Lemma transpose_cong (x x' : Tensor F) :
  tensor_eq x x' -> tensor_eq (transpose x) (transpose x').
Proof.
  intros Hx. destruct (tensor_eq_dims _ _ Hx) as (Hx0 & Hx1 & Hx2).
  split; [unfold shape; cbn [transpose d0 d1 d2]; congruence|].
  cbn [transpose d0 d1 d2 el]. intros i j k Hi Hj Hk.
  apply (proj2 Hx); assumption.
Qed.

Lemma softmax_cong (x x' : Tensor F) :
  tensor_eq x x' -> tensor_eq (softmax x) (softmax x').
Proof.
  intros Hx. destruct (tensor_eq_dims _ _ Hx) as (Hx0 & Hx1 & Hx2).
  split; [unfold shape; cbn [softmax d0 d1 d2]; congruence|].
  cbn [softmax d0 d1 d2 el]. intros i j k Hi Hj Hk.
  rewrite <- Hx2, (proj2 Hx _ _ _ Hi Hj Hk). f_equal.
  apply sum_n_ext. intros t Ht. rewrite (proj2 Hx _ _ _ Hi Hj Ht). reflexivity.
Qed.

Lemma mean_cong (x x' : Tensor F) :
  tensor_eq x x' ->
  tensor_eq (unsqueeze_last (mean_last x)) (unsqueeze_last (mean_last x')).
Proof.
  intros Hx. destruct (tensor_eq_dims _ _ Hx) as (Hx0 & Hx1 & Hx2).
  split; [unfold shape; cbn [unsqueeze_last mean_last d0 d1 d2]; congruence|].
  cbn [unsqueeze_last mean_last d0 d1 d2 el]. intros i j k Hi Hj _.
  rewrite <- Hx2. f_equal. apply sum_n_ext. intros t Ht.
  apply (proj2 Hx); assumption.
Qed.

Lemma var_cong (x x' : Tensor F) :
  tensor_eq x x' ->
  tensor_eq (unsqueeze_last (var_last x)) (unsqueeze_last (var_last x')).
Proof.
  intros Hx. destruct (tensor_eq_dims _ _ Hx) as (Hx0 & Hx1 & Hx2).
  split; [unfold shape; cbn [unsqueeze_last var_last d0 d1 d2]; congruence|].
  cbn [unsqueeze_last var_last d0 d1 d2 el]. intros i j k Hi Hj _.
  rewrite <- Hx2.
  assert (Hsum : sum_n (d2 x) (el x i j) = sum_n (d2 x) (el x' i j)).
  { apply sum_n_ext. intros t Ht. apply (proj2 Hx); assumption. }
  rewrite <- Hsum. f_equal. apply sum_n_ext. intros t Ht.
  rewrite (proj2 Hx _ _ _ Hi Hj Ht). reflexivity.
Qed.

Lemma linear_cong (x x' wt : Tensor F) (bias : option (Tensor F)) :
  tensor_eq x x' -> same_result (linear x wt bias) (linear x' wt bias).
Proof.
  intros Hx. destruct (tensor_eq_dims _ _ Hx) as (Hx0 & Hx1 & Hx2).
  unfold linear. rewrite <- Hx0, <- Hx1, <- Hx2.
  destruct ((d2 x =? d2 wt) && _); [|reflexivity].
  split; [reflexivity|]. cbn [d0 d1 d2 el]. intros i j k Hi Hj Hk.
  assert (Hdot : sum_n (d2 x) (fun t => fmul (el x i j t) (el wt 0 k t))
                 = sum_n (d2 x) (fun t => fmul (el x' i j t) (el wt 0 k t))).
  { apply sum_n_ext. intros t Ht. rewrite (proj2 Hx _ _ _ Hi Hj Ht). reflexivity. }
  rewrite Hdot. reflexivity.
Qed.

Lemma matmul_cong (x x' y y' : Tensor F) :
  tensor_eq x x' -> tensor_eq y y' -> same_result (matmul x y) (matmul x' y').
Proof.
  intros Hx Hy.
  destruct (tensor_eq_dims _ _ Hx) as (Hx0 & Hx1 & Hx2).
  destruct (tensor_eq_dims _ _ Hy) as (Hy0 & Hy1 & Hy2).
  unfold matmul. rewrite <- Hx0, <- Hx1, <- Hx2, <- Hy0, <- Hy1, <- Hy2.
  destruct (bdim (d0 x) (d0 y)) as [b|] eqn:Hb; [|reflexivity].
  destruct (Nat.eqb_spec (d2 x) (d1 y)) as [Hinner|_]; [|reflexivity].
  split; [reflexivity|]. cbn [d0 d1 d2 el]. intros i j k Hi Hj Hk.
  destruct (bidx_bound _ _ _ _ Hb Hi) as (Hxi & Hyi).
  apply sum_n_ext. intros t Ht.
  rewrite (proj2 Hx _ _ _ Hxi Hj Ht), (proj2 Hy _ _ _ Hyi) by lia. reflexivity.
Qed.

Lemma masked_fill_cong (t t' : Tensor F) (mask : Tensor F) (c v : F) :
  tensor_eq t t' ->
  same_result (masked_fill_ t (teq_scalar (slice2 mask (d1 t) (d2 t)) c) v)
              (masked_fill_ t' (teq_scalar (slice2 mask (d1 t') (d2 t')) c) v).
Proof.
  intros Ht. destruct (tensor_eq_dims _ _ Ht) as (Ht0 & Ht1 & Ht2).
  unfold masked_fill_. rewrite <- Ht0, <- Ht1, <- Ht2.
  destruct (_ && _ && _); [|reflexivity].
  split; [reflexivity|]. cbn [d0 d1 d2 el]. intros i j k Hi Hj Hk.
  rewrite (proj2 Ht _ _ _ Hi Hj Hk). reflexivity.
Qed.

Lemma cat2_cong (a a' b b' : Tensor F) :
  tensor_eq a a' -> tensor_eq b b' -> same_result (cat2 a b) (cat2 a' b').
Proof.
  intros Ha Hb.
  destruct (tensor_eq_dims _ _ Ha) as (Ha0 & Ha1 & Ha2).
  destruct (tensor_eq_dims _ _ Hb) as (Hb0 & Hb1 & Hb2).
  unfold cat2. rewrite <- Ha0, <- Ha1, <- Ha2, <- Hb0, <- Hb1, <- Hb2.
  destruct (Nat.eqb_spec (d0 a) (d0 b)) as [H0'|_]; [|reflexivity].
  destruct (Nat.eqb_spec (d1 a) (d1 b)) as [H1'|_]; [|reflexivity].
  split; [reflexivity|]. cbn [d0 d1 d2 el andb]. intros i j k Hi Hj Hk.
  destruct (Nat.ltb_spec k (d2 a)) as [Hlt|Hge].
  - apply (proj2 Ha); assumption.
  - apply (proj2 Hb); lia.
Qed.

Lemma cat_cong (vs vs' : list (Tensor F)) :
  Forall2 tensor_eq vs vs' -> same_result (cat vs) (cat vs').
Proof.
  intros Hvs. destruct Hvs as [|v v' vs vs' Hv Hrest]; [reflexivity|].
  cbn [cat].
  assert (Hacc : same_result (Ok v) (Ok v')) by exact Hv.
  revert Hacc. generalize (Ok v) (Ok v'). 
  induction Hrest as [|u u' us us' Hu Hus IH]; intros r r' Hacc; [exact Hacc|].
  cbn [fold_left]. apply IH.
  destruct r as [a|e], r' as [a'|e']; cbn in *; try contradiction; [|exact Hacc].
  apply cat2_cong; assumption.
Qed.

(** *** The layers *)

Lemma LayerNorm_cong (m : LayerNorm.t F (Tensor F)) (x x' : Tensor F) :
  tensor_eq x x' -> same_result (LayerNorm.forward m x) (LayerNorm.forward m x').
Proof.
  intros Hx. unfold LayerNorm.forward.
  apply same_result_bind; [apply broadcast2_cong; [exact Hx|apply mean_cong, Hx]|].
  intros c c' Hc.
  apply same_result_bind.
  { apply broadcast2_cong; [exact Hc|]. unfold tsqrt, tadd_scalar.
    apply tmap_cong, tmap_cong, var_cong, Hx. }
  intros n n' Hn.
  destruct (LayerNorm.attr (LayerNorm.gamma m)) as [g|e]; [|reflexivity].
  cbn [mbind result_bind rbind].
  apply same_result_bind; [apply broadcast2_cong; [exact Hn|apply tensor_eq_refl]|].
  intros s s' Hs.
  destruct (LayerNorm.attr (LayerNorm.beta m)) as [b|e]; [|reflexivity].
  cbn [mbind result_bind rbind].
  apply broadcast2_cong; [exact Hs|apply tensor_eq_refl].
Qed.

Lemma Dropout_cong (m : Dropout.t F) (x x' : Tensor F) (w : World F) :
  tensor_eq x x' -> same_run (Dropout.forward m x w) (Dropout.forward m x' w).
Proof.
  intros Hx. destruct (tensor_eq_dims _ _ Hx) as (Hx0 & Hx1 & Hx2).
  unfold Dropout.forward. destruct (Dropout.training m); [|apply same_run_ret, Hx].
  rewrite !bind_unfold. unfold draw_bernoulli.
  destruct (bernoulli (gen w) _) as [keep g]. cbn.
  split; [|reflexivity]. split; [unfold shape; cbn [d0 d1 d2]; congruence|].
  cbn [d0 d1 d2 el]. intros i j k Hi Hj Hk.
  rewrite (proj2 Hx _ _ _ Hi Hj Hk). reflexivity.
Qed.

Lemma SingleHeadAttention_cong (m : SingleHeadAttention.t F (Tensor F))
    (x x' : Tensor F) (w : World F) :
  tensor_eq x x' ->
  same_run (SingleHeadAttention.forward m x w) (SingleHeadAttention.forward m x' w).
Proof.
  intros Hx. unfold SingleHeadAttention.forward, Linear.forward.
  apply same_run_bind; [apply same_run_lift, linear_cong, Hx|].
  intros Q Q' w1 HQ.
  apply same_run_bind; [apply same_run_lift, linear_cong, Hx|].
  intros K K' w2 HK.
  apply same_run_bind; [apply same_run_lift, linear_cong, Hx|].
  intros V V' w3 HV.
  apply same_run_bind.
  { apply same_run_lift, matmul_cong; [exact HQ|apply transpose_cong, HK]. }
  intros qk qk' w4 Hqk. cbn zeta.
  apply same_run_bind.
  { apply same_run_lift.
    apply (masked_fill_cong
             (tdiv_scalar qk (fsqrt (of_nat (SingleHeadAttention.output_key_query_dim m))))
             (tdiv_scalar qk' (fsqrt (of_nat (SingleHeadAttention.output_key_query_dim m))))).
    unfold tdiv_scalar. apply tmap_cong, Hqk. }
  intros o o' w5 Ho.
  apply same_run_bind; [apply Dropout_cong, softmax_cong, Ho|].
  intros a a' w6 Ha.
  apply same_run_lift, matmul_cong; assumption.
Qed.

Lemma same_runs_mapM {A : Type} (f g : A -> M F (Tensor F)) (xs : list A) (w : World F) :
  (forall a w', same_run (f a w') (g a w')) ->
  same_runs (mapM f xs w) (mapM g xs w).
Proof.
  intros Hfg. revert w. induction xs as [|a xs IH]; intros w.
  - cbn. split; [constructor|reflexivity].
  - cbn [mapM]. rewrite !bind_unfold.
    specialize (Hfg a w).
    destruct (f a w) as [[y w1]|e1], (g a w) as [[y' w1']|e1']; cbn in Hfg;
      try contradiction; [|exact Hfg].
    destruct Hfg as (Hy & <-).
    rewrite !bind_unfold. specialize (IH w1).
    destruct (mapM f xs w1) as [[ys w2]|e2], (mapM g xs w1) as [[ys' w2']|e2'];
      cbn in IH; try contradiction; [|exact IH].
    destruct IH as (Hys & <-). cbn.
    split; [constructor; assumption|reflexivity].
Qed.

Lemma MultiHeadAttention_cong (m : MultiHeadAttention.t F (Tensor F))
    (x x' : Tensor F) (w : World F) :
  tensor_eq x x' ->
  same_run (MultiHeadAttention.forward m x w) (MultiHeadAttention.forward m x' w).
Proof.
  intros Hx. unfold MultiHeadAttention.forward. rewrite !bind_unfold.
  pose proof (same_runs_mapM
                (fun i => head ← MultiHeadAttention.get_head m i;
                          SingleHeadAttention.forward head x)
                (fun i => head ← MultiHeadAttention.get_head m i;
                          SingleHeadAttention.forward head x')
                (seq 0 (MultiHeadAttention.num_heads m)) w) as Hheads.
  match type of Hheads with ?P -> _ => assert (Hstep : P) end.
  { intros i w'. rewrite !bind_unfold. unfold MultiHeadAttention.get_head.
    destruct (nth_error (MultiHeadAttention.heads m) i) as [h|]; [|reflexivity].
    rewrite ret_unfold. apply SingleHeadAttention_cong, Hx. }
  specialize (Hheads Hstep).
  destruct (mapM _ (seq 0 (MultiHeadAttention.num_heads m)) w) as [[vs w1]|e1];
    destruct (mapM _ (seq 0 (MultiHeadAttention.num_heads m)) w) as [[vs' w1']|e1'];
    cbn in Hheads; try contradiction; [|exact Hheads].
  destruct Hheads as (Hvs & <-).
  change (same_run
            ((lift (cat vs) ≫= fun o => lift (Linear.forward (MultiHeadAttention.out m) o)
                ≫= fun o => Dropout.forward (MultiHeadAttention.dropout m) o) w1)
            ((lift (cat vs') ≫= fun o => lift (Linear.forward (MultiHeadAttention.out m) o)
                ≫= fun o => Dropout.forward (MultiHeadAttention.dropout m) o) w1)).
  apply same_run_bind; [apply same_run_lift, cat_cong, Hvs|].
  intros c c' w2 Hc.
  apply same_run_bind; [apply same_run_lift, linear_cong, Hc|].
  intros o o' w3 Ho. apply Dropout_cong, Ho.
Qed.

Lemma FeedForwardLayer_cong (m : FeedForwardLayer.t F (Tensor F))
    (x x' : Tensor F) (w : World F) :
  tensor_eq x x' ->
  same_run (FeedForwardLayer.forward m x w) (FeedForwardLayer.forward m x' w).
Proof.
  intros Hx. unfold FeedForwardLayer.forward, Linear.forward.
  apply same_run_bind; [apply same_run_lift, linear_cong, Hx|].
  intros a a' w1 Ha. cbn zeta.
  apply same_run_bind; [apply same_run_lift, linear_cong, tmap_cong, Ha|].
  intros o o' w2 Ho. apply Dropout_cong, Ho.
Qed.

Lemma TransformerLayer_cong (m : TransformerLayer.t F (Tensor F))
    (x x' : Tensor F) (w : World F) :
  tensor_eq x x' ->
  same_run (TransformerLayer.forward m x w) (TransformerLayer.forward m x' w).
Proof.
  intros Hx. unfold TransformerLayer.forward.
  apply same_run_bind; [apply same_run_lift, LayerNorm_cong, Hx|].
  intros n1 n1' w1 Hn1.
  apply same_run_bind; [apply MultiHeadAttention_cong, Hn1|].
  intros a a' w2 Ha.
  apply same_run_bind; [apply same_run_lift, broadcast2_cong; assumption|].
  intros c c' w3 Hc.
  apply same_run_bind; [apply same_run_lift, LayerNorm_cong, Hc|].
  intros n2 n2' w4 Hn2.
  apply same_run_bind; [apply FeedForwardLayer_cong, Hn2|].
  intros f f' w5 Hf.
  apply same_run_bind; [apply same_run_lift, broadcast2_cong; assumption|].
  intros o o' w6 Ho. apply same_run_ret, Ho.
Qed.

Lemma TransformerLayers_cong (layers : list (TransformerLayer.t F (Tensor F)))
    (x x' : Tensor F) (w : World F) :
  tensor_eq x x' ->
  same_run (foldM TransformerLayer.forward layers x w)
           (foldM TransformerLayer.forward layers x' w).
Proof.
  revert x x' w. induction layers as [|m layers IH]; intros x x' w Hx.
  - apply same_run_ret, Hx.
  - cbn [foldM]. apply same_run_bind; [apply TransformerLayer_cong, Hx|].
    intros y y' w1 Hy. apply IH, Hy.
Qed.

(** The pipeline gives the same outcome for two tensors of positional
    embeddings that are the same tensor. *)
Lemma pipeline_cong (m : MiniGPT.t F (Tensor F)) (p p' : Tensor F) (x : Tokens)
    (w : World F) :
  tensor_eq p p' -> same_run (pipeline m p x w) (pipeline m p' x w).
Proof.
  intros Hp. unfold pipeline.
  apply same_run_bind; [apply same_run_lift, same_result_refl|].
  intros e e' w1 He.
  apply same_run_bind; [apply same_run_lift, broadcast2_cong; assumption|].
  intros s s' w2 Hs.
  apply same_run_bind; [apply Dropout_cong, Hs|].
  intros dr dr' w3 Hdr.
  apply same_run_bind; [apply TransformerLayers_cong, Hdr|].
  intros l l' w4 Hl.
  apply same_run_bind; [apply same_run_lift, LayerNorm_cong, Hl|].
  intros n n' w5 Hn.
  apply same_run_lift, linear_cong, Hn.
Qed.

End CONGRUENCE.

(** ** C3 and C10: the forward pass of the model *)

Section MINIGPT_PIPELINE.
Context {F : Type} `{Scalar F} `{Random F}.

Lemma embedding_arange_rows (n : nat) (wt : Tensor F) :
  d1 wt = n ->
  exists table, embedding (Tok1 (arange n)) wt = Ok table /\
    forall rows, rows <= n ->
      tensor_eq (slice_rows table rows) (mkT 1 rows (d2 wt) (fun _ i k => el wt 0 i k)).
Proof.
  intros Hn. unfold embedding.
  assert (Hin : tokens_in_range (d1 wt) (Tok1 (arange n)) = true).
  { cbn [tokens_in_range]. apply List.forallb_forall. intros t Ht.
    apply List.in_seq in Ht. apply Nat.ltb_lt. lia. }
  rewrite Hin. eexists. split; [reflexivity|].
  intros rows Hrows. split.
  - unfold shape. cbn [slice_rows d0 d1 d2]. unfold arange. rewrite List.length_seq.
    replace (Nat.min rows n) with rows by lia. reflexivity.
  - cbn [slice_rows d0 d1 d2 el]. intros i j k _ Hj _.
    unfold arange in *. rewrite List.length_seq in Hj.
    rewrite List.seq_nth by lia. reflexivity.
Qed.

(** The forward pass of a model with the shapes its constructor
    establishes is the pipeline; on at most [context_length] tokens, the
    tensor added to the token embeddings is the first [seq_len] rows of the
    positional table. *)
Lemma MiniGPT_forward_pipeline (config : MiniGPT.Config F) (m : MiniGPT.t F (Tensor F))
    (x : Tokens) (w : World F) :
  MiniGPT_shaped config m ->
  exists positions,
    (seq_len_of x <= MiniGPT.context_length config ->
     tensor_eq positions (positional_rows m (seq_len_of x))) /\
    MiniGPT.forward m x w = pipeline m positions x w.
Proof.
  intros (_ & Hp & Hpos & _).
  destruct (shape_dims _ (mkT _ _ _ (el (Embedding.weight (MiniGPT.positional_embedding m))))
              Hp) as (_ & Hp1 & _).
  cbn [d1] in Hp1.
  unfold MiniGPT.forward, pipeline, Embedding.forward. fold (as_batch x).
  destruct (embedding (as_batch x) (Embedding.weight (MiniGPT.vocab_embedding m)))
    as [e|err] eqn:He.
  - assert (Hd1 : d1 e = seq_len_of x).
    { unfold embedding in He.
      destruct (tokens_in_range _ (as_batch x)); [|discriminate].
      destruct x as [l|b n tok]; cbn [as_batch unsqueeze0] in He;
        injection He as <-; reflexivity. }
    destruct (embedding_arange_rows (MiniGPT.context_length config)
                (Embedding.weight (MiniGPT.positional_embedding m)) Hp1)
      as (table & Ht & Heq).
    exists (slice_rows table (d1 e)). split.
    + intros Hn. rewrite <- Hd1. apply Heq. lia.
    + rewrite Hpos, Ht. run_monad.
      destruct (tadd e (slice_rows table (d1 e))) as [s|err]; run_monad; [|reflexivity].
      destruct (Dropout.forward (MiniGPT.embed_dropout m) s w) as [[dr w1]|err];
        run_monad; [|reflexivity].
      destruct (foldM TransformerLayer.forward (MiniGPT.transformer_layers m) dr w1)
        as [[l w2]|err]; run_monad; [|reflexivity].
      destruct (LayerNorm.forward (MiniGPT.prehead_norm m) l) as [nrm|err];
        run_monad; [|reflexivity].
      destruct (Linear.forward (MiniGPT.head m) nrm) as [logits|err];
        run_monad; reflexivity.
  - exists (positional_rows m (seq_len_of x)). split; [intros _; apply tensor_eq_refl|].
    run_monad. reflexivity.
Qed.

(** On at most [context_length] tokens the forward pass and the pipeline
    with the first [seq_len] positional rows cannot be told apart. *)
Lemma MiniGPT_forward_positional (config : MiniGPT.Config F) (m : MiniGPT.t F (Tensor F))
    (x : Tokens) (w : World F) :
  MiniGPT_shaped config m ->
  seq_len_of x <= MiniGPT.context_length config ->
  same_run (MiniGPT.forward m x w) (positional_pipeline m x w).
Proof.
  intros Hm Hn.
  destruct (MiniGPT_forward_pipeline config m x w Hm) as (p & Hp & ->).
  apply pipeline_cong, Hp, Hn.
Qed.

(** C3.  The constructor returns a model whose forward pass, for every
    value of the parameters and every input, is the fixed composition:
    token embedding lookup (a rank-one input counting as a batch of one),
    addition of a tensor of positional embeddings, embedding dropout, the
    transformer layers in sequence, the final LayerNorm and the linear head;
    nothing else is applied.  The two sides are equal as computations: same
    logits, same generator state, same error when one is raised.  On an
    input of at most [context_length] tokens the tensor that is added holds
    the learned positional embeddings of the positions [0 .. seq_len-1], and
    the forward pass cannot be told apart from the pipeline that adds
    exactly those rows. *)
Theorem forward_is_the_pipeline (config : MiniGPT.Config F) (w : World F) :
  0 < MiniGPT.cfg_num_heads config ->
  exists m w',
    MiniGPT.__init__ config w = Ok (m, w') /\
    forall h, same_shapes (next w) (next w') h (heap w') ->
    forall x w2,
      (exists positions,
         (seq_len_of x <= MiniGPT.context_length config ->
          tensor_eq positions (positional_rows (MiniGPT.read h m) (seq_len_of x))) /\
         MiniGPT.forward (MiniGPT.read h m) x w2
         = pipeline (MiniGPT.read h m) positions x w2) /\
      (seq_len_of x <= MiniGPT.context_length config ->
       same_run (MiniGPT.forward (MiniGPT.read h m) x w2)
                (positional_pipeline (MiniGPT.read h m) x w2)).
Proof.
  intros Hpos.
  destruct (builds_MiniGPT config Hpos w) as (m & w' & Hinit & _ & Hest).
  exists m, w'. split; [exact Hinit|].
  intros h Hh x w2.
  destruct (Hest h Hh) as (Hshaped & _).
  split.
  - apply (MiniGPT_forward_pipeline config). exact Hshaped.
  - intros Hn. apply (MiniGPT_forward_positional config); assumption.
Qed.

(** C10, as the code has it.  The constructor returns a model whose
    positional table has [context_length] rows, and whose forward pass
    fails on every input that is longer than [context_length], provided
    that [context_length] is not 1 and the input is not a single token: at
    the addition of the positional rows, with the library's broadcast
    error, when the tokens are valid, and at the embedding lookup
    otherwise.  (A table of one row is broadcast over all positions.) *)
Theorem forward_rejects_long_sequences (config : MiniGPT.Config F) (w : World F) :
  0 < MiniGPT.cfg_num_heads config ->
  exists m w',
    MiniGPT.__init__ config w = Ok (m, w') /\
    forall h, same_shapes (next w) (next w') h (heap w') ->
      shape (Embedding.weight (MiniGPT.positional_embedding (MiniGPT.read h m)))
        = (1, MiniGPT.context_length config, MiniGPT.embed_dim config) /\
      forall x w2,
        MiniGPT.context_length config < seq_len_of x ->
        MiniGPT.context_length config <> 1 -> seq_len_of x <> 1 ->
        MiniGPT.forward (MiniGPT.read h m) x w2
        = Err (if tokens_in_range (MiniGPT.vocab_size config) x
               then RuntimeError OpAdd else IndexError).
Proof.
  intros Hpos.
  destruct (builds_MiniGPT config Hpos w) as (m & w' & Hinit & _ & Hest).
  exists m, w'. split; [exact Hinit|].
  intros h Hh. destruct (Hest h Hh) as (Hshaped & _).
  split; [apply Hshaped|].
  intros x w2 Hlong Hctx Hn.
  destruct (tokens_in_range (MiniGPT.vocab_size config) x) eqn:Hx.
  - apply (MiniGPT_forward_too_long config); assumption.
  - apply (MiniGPT_forward_bad_token config); assumption.
Qed.

End MINIGPT_PIPELINE.

Section MINIGPT_EXAMPLES.
#[local] Existing Instance RealScalar.exact.
#[local] Existing Instance Counter.random.

Lemma tiny_heads_fit (c : nat) :
  heads_fit (MiniGPT.embed_dim (Examples.tiny_config c))
            (MiniGPT.cfg_num_heads (Examples.tiny_config c)).
Proof. split; [cbn; lia|reflexivity]. Qed.

Lemma forward_is_the_pipeline_witness :
  exists m w',
    MiniGPT.__init__ (Examples.tiny_config 4) Examples.fresh_world = Ok (m, w') /\
    forall h, same_shapes (next Examples.fresh_world) (next w') h (heap w') ->
    forall x w2,
      (exists positions,
         (seq_len_of x <= 4 ->
          tensor_eq positions (positional_rows (MiniGPT.read h m) (seq_len_of x))) /\
         MiniGPT.forward (MiniGPT.read h m) x w2
         = pipeline (MiniGPT.read h m) positions x w2) /\
      (seq_len_of x <= 4 ->
       same_run (MiniGPT.forward (MiniGPT.read h m) x w2)
                (positional_pipeline (MiniGPT.read h m) x w2)).
Proof.
  apply (forward_is_the_pipeline (Examples.tiny_config 4) Examples.fresh_world).
  cbn. lia.
Defined.

Lemma forward_rejects_long_sequences_witness :
  exists m w',
    MiniGPT.__init__ (Examples.tiny_config 4) Examples.fresh_world = Ok (m, w') /\
    forall h, same_shapes (next Examples.fresh_world) (next w') h (heap w') ->
      shape (Embedding.weight (MiniGPT.positional_embedding (MiniGPT.read h m)))
        = (1, 4, 4) /\
      forall x w2,
        4 < seq_len_of x -> 4 <> 1 -> seq_len_of x <> 1 ->
        MiniGPT.forward (MiniGPT.read h m) x w2
        = Err (if tokens_in_range 3 x then RuntimeError OpAdd else IndexError).
Proof.
  apply (forward_rejects_long_sequences (Examples.tiny_config 4) Examples.fresh_world).
  cbn. lia.
Defined.

(** C10 as stated fails when [context_length] is 1: the positional table
    has a single row, the slice of its first two rows is that row, and the
    addition broadcasts it over both positions.  The forward pass on a
    sequence of two tokens returns logits of shape [(1, 2, vocab_size)]. *)
Lemma single_row_table_is_broadcast :
  exists m w',
    MiniGPT.__init__ (Examples.tiny_config 1) Examples.fresh_world = Ok (m, w') /\
    MiniGPT.context_length (Examples.tiny_config 1) < seq_len_of (Examples.zero_tokens 2) /\
    exists logits w3,
      MiniGPT.forward (MiniGPT.read (heap w') m) (Examples.zero_tokens 2) w'
      = Ok (logits, w3) /\
      shape logits = (1, 2, 3).
Proof.
  destruct (builds_MiniGPT (Examples.tiny_config 1)) with (w := Examples.fresh_world)
    as (m & w' & Hinit & _ & Hest); [cbn; lia|].
  exists m, w'. split; [exact Hinit|]. split; [cbn; lia|].
  destruct (Hest (heap w') (same_shapes_refl _ _ _)) as (Hshaped & _).
  apply (MiniGPT_forward_shape (Examples.tiny_config 1)).
  - exact Hshaped.
  - apply tiny_heads_fit.
  - reflexivity.
  - cbn. unfold SingleHeadAttention.default_max_len. lia.
  - right. reflexivity.
Qed.

End MINIGPT_EXAMPLES.

(** ** C8: sampling *)

Section GENERATE.
Context {F : Type} `{Scalar F} `{Random F}.

Lemma last_n_length (n : nat) (l : list nat) :
  length (MiniGPT.last_n n l) = Nat.min n (length l).
Proof. unfold MiniGPT.last_n. rewrite List.length_skipn. lia. Qed.

Lemma forallb_skipn {A : Type} (f : A -> bool) (k : nat) (l : list A) :
  forallb f l = true -> forallb f (skipn k l) = true.
Proof.
  revert l. induction k as [|k IH]; intros l Hl; [exact Hl|].
  destruct l as [|a l]; [reflexivity|]. cbn [skipn]. cbn [forallb] in Hl.
  apply andb_prop in Hl as (_ & Hl). apply IH. exact Hl.
Qed.

Lemma forallb_app_true {A : Type} (f : A -> bool) (l l' : list A) :
  forallb f l = true -> forallb f l' = true -> forallb f (l ++ l') = true.
Proof. intros Hl Hl'. rewrite List.forallb_app, Hl, Hl'. reflexivity. Qed.

(** The window handed to the model depends on the stream only through its
    last ten tokens, so does the sampled token. *)
Lemma generate_step_window (m : MiniGPT.t F (Tensor F)) (s1 s2 : list nat)
    (w : World F) (o1 : list nat) (w1 : World F) :
  MiniGPT.last_n 10 s1 = MiniGPT.last_n 10 s2 ->
  MiniGPT.generate_step m s1 w = Ok (o1, w1) ->
  exists pred, o1 = s1 ++ pred /\ MiniGPT.generate_step m s2 w = Ok (s2 ++ pred, w1).
Proof.
  unfold MiniGPT.generate_step. intros Hwin Hstep. rewrite <- Hwin.
  apply bind_ok in Hstep as (output & wa & Hout & Hstep).
  apply bind_ok in Hstep as (last & wb & Hlast & Hstep).
  apply bind_ok in Hstep as (pred & wc & Hpred & Hstep).
  rewrite ret_unfold in Hstep. injection Hstep as <- <-.
  exists pred. split; [reflexivity|].
  rewrite (bind_step _ _ _ _ _ Hout), (bind_step _ _ _ _ _ Hlast),
    (bind_step _ _ _ _ _ Hpred).
  reflexivity.
Qed.

Section SHAPED.
Variables (config : MiniGPT.Config F) (m : MiniGPT.t F (Tensor F)).
Hypothesis Hshaped : MiniGPT_shaped config m.
Hypothesis Hfit : heads_fit (MiniGPT.embed_dim config) (MiniGPT.cfg_num_heads config).

Lemma generate_step_empty (w : World F) :
  MiniGPT.generate_step m [] w = Err IndexError.
Proof.
  unfold MiniGPT.generate_step.
  destruct (MiniGPT_forward_shape config m (Tok1 (MiniGPT.last_n 10 [])) w Hshaped Hfit)
    as (logits & w1 & Hlogits & Hs).
  - reflexivity.
  - cbn. lia.
  - left. cbn. lia.
  - rewrite (bind_step _ _ _ _ _ Hlogits).
    destruct (shape_dims _ (mkT _ _ _ (el logits)) Hs) as (_ & Hl1 & _).
    cbn in Hl1. unfold select_last. cbn [softmax d1]. rewrite Hl1. reflexivity.
Qed.

Hypothesis Hsampler : sampler_total.

Lemma generate_step_spec (stream : list nat) (w : World F) :
  stream <> [] ->
  tokens_in_range (MiniGPT.vocab_size config) (Tok1 stream) = true ->
  Nat.min 10 (length stream) <= MiniGPT.context_length config ->
  exists t w', MiniGPT.generate_step m stream w = Ok (stream ++ [t], w') /\
    t < MiniGPT.vocab_size config.
Proof.
  intros Hne Hvalid Hwin.
  assert (Hvocab : 0 < MiniGPT.vocab_size config).
  { destruct stream as [|t0 rest]; [contradiction|]. cbn in Hvalid.
    apply andb_prop in Hvalid as (Ht0 & _). apply Nat.ltb_lt in Ht0. lia. }
  assert (Hlen : 0 < length stream) by (destruct stream; [contradiction|cbn; lia]).
  pose proof (last_n_length 10 stream) as Hwlen.
  destruct (MiniGPT_forward_shape config m (Tok1 (MiniGPT.last_n 10 stream)) w Hshaped Hfit)
    as (logits & w1 & Hlogits & Hs).
  - cbn [tokens_in_range] in *. unfold MiniGPT.last_n. apply forallb_skipn. exact Hvalid.
  - cbn [seq_len_of]. unfold SingleHeadAttention.default_max_len. lia.
  - left. cbn [seq_len_of]. lia.
  - destruct (shape_dims _ (mkT _ _ _ (el logits)) Hs) as (Hl0 & Hl1 & Hl2).
    cbn [d0 d1 d2 batch_of seq_len_of] in Hl0, Hl1, Hl2.
    set (probs := mkT 1 (d0 (softmax logits)) (d2 (softmax logits))
                    (fun _ b k => el (softmax logits) b (d1 (softmax logits) - 1) k)).
    assert (Hsel : select_last (softmax logits) = Ok probs).
    { unfold select_last. cbn [softmax d1].
      destruct (Nat.eqb_spec (d1 logits) 0) as [H0'|_]; [lia|]. reflexivity. }
    destruct (Hsampler (gen w1) (MiniGPT.vocab_size config) (el probs 0 0) Hvocab)
      as (t & g' & Ht & Hlt).
    exists t, (mkWorld g' (heap w1) (next w1)). split; [|exact Hlt].
    unfold MiniGPT.generate_step. rewrite (bind_step _ _ _ _ _ Hlogits).
    rewrite Hsel. run_monad. unfold MiniGPT.sample_rows.
    replace (d1 probs) with 1 by (cbn [probs d1 d0 softmax]; lia).
    replace (d2 probs) with (MiniGPT.vocab_size config)
      by (cbn [probs d2 softmax]; lia).
    cbn [seq mapM]. run_monad. unfold draw_multinomial. rewrite Ht.
    run_monad. reflexivity.
Qed.

Lemma generate_loop_spec (iterations : nat) (stream : list nat) (w : World F) :
  stream <> [] ->
  tokens_in_range (MiniGPT.vocab_size config) (Tok1 stream) = true ->
  (forall k, k < iterations ->
     Nat.min 10 (length stream + k) <= MiniGPT.context_length config) ->
  exists new w', MiniGPT.generate_loop m iterations stream w = Ok (stream ++ new, w') /\
    length new = iterations /\
    tokens_in_range (MiniGPT.vocab_size config) (Tok1 (stream ++ new)) = true.
Proof.
  revert stream w. induction iterations as [|n IH]; intros stream w Hne Hvalid Hwin.
  - exists [], w. rewrite app_nil_r. cbn [MiniGPT.generate_loop]. auto.
  - destruct (generate_step_spec stream w Hne Hvalid) as (t & w1 & Hstep & Hlt).
    { specialize (Hwin 0). rewrite Nat.add_0_r in Hwin. apply Hwin. lia. }
    destruct (IH (stream ++ [t]) w1) as (new & w' & Hloop & Hlen & Hvalid').
    + destruct stream; discriminate.
    + cbn [tokens_in_range] in *. apply forallb_app_true; [exact Hvalid|].
      cbn [forallb]. rewrite andb_true_r. apply Nat.ltb_lt. exact Hlt.
    + intros k Hk. rewrite List.length_app. cbn [length].
      replace (length stream + 1 + k) with (length stream + S k) by lia.
      apply Hwin. lia.
    + exists (t :: new), w'. cbn [MiniGPT.generate_loop].
      rewrite (bind_step _ _ _ _ _ Hstep).
      rewrite <- app_assoc in Hloop, Hvalid'. cbn [app] in Hloop, Hvalid'.
      split; [exact Hloop|]. split; [cbn [length]; lia|exact Hvalid'].
Qed.

End SHAPED.


End GENERATE.

Section GENERATE_EXAMPLES.
#[local] Existing Instance RealScalar.exact.
#[local] Existing Instance Counter.random.

Lemma counter_sampler_total : @sampler_total R Counter.random.
Proof.
  intros g n probs Hn. exists (g mod n), (S g). split.
  - cbn [multinomial Counter.random]. unfold Counter.sample.
    destruct (Nat.eqb_spec n 0); [lia|reflexivity].
  - apply Nat.mod_upper_bound. lia.
Qed.



End GENERATE_EXAMPLES.

(** ** C7: weight tying *)

Section WEIGHT_TYING.
Context {F : Type} `{Scalar F} `{Random F}.

Lemma MiniGPT_init_inv (config : MiniGPT.Config F) (w : World F) m w' :
  MiniGPT.__init__ config w = Ok (m, w') ->
  exists vocab_embedding w1 positional_embedding w2 layers w3 prehead_norm w4 head w5,
    Embedding.__init__ (MiniGPT.vocab_size config) (MiniGPT.embed_dim config) w
    = Ok (vocab_embedding, w1) /\
    Embedding.__init__ (MiniGPT.context_length config) (MiniGPT.embed_dim config) w1
    = Ok (positional_embedding, w2) /\
    mapM (fun _ : nat =>
            TransformerLayer.__init__ (MiniGPT.embed_dim config)
              (MiniGPT.cfg_num_heads config) (MiniGPT.feedforward_size config))
         (seq 0 (MiniGPT.num_layers config)) w2 = Ok (layers, w3) /\
    LayerNorm.__init__ (MiniGPT.embed_dim config) LayerNorm.default_eps true w3
    = Ok (prehead_norm, w4) /\
    Linear.__init__ (MiniGPT.embed_dim config) (MiniGPT.vocab_size config) true w4
    = Ok (head, w5) /\
    m = MiniGPT.mk vocab_embedding positional_embedding
          (Dropout.__init__ (MiniGPT.cfg_embed_dropout config)) layers prehead_norm
          (if MiniGPT.weight_tie config then MiniGPT.tie head vocab_embedding else head)
          (arange (MiniGPT.context_length config)) /\
    MiniGPT.apply m MiniGPT._init_weights w5 = Ok (tt, w').
Proof.
  unfold MiniGPT.__init__. intros Hinit.
  apply bind_ok in Hinit as (ve & w1 & Hve & Hinit).
  apply bind_ok in Hinit as (pe & w2 & Hpe & Hinit).
  apply bind_ok in Hinit as (layers & w3 & Hlayers & Hinit).
  apply bind_ok in Hinit as (pn & w4 & Hpn & Hinit).
  apply bind_ok in Hinit as (head & w5 & Hhead & Hinit).
  apply bind_ok in Hinit as ([] & w6 & Happly & Hinit).
  rewrite ret_unfold in Hinit. injection Hinit as <- <-.
  exists ve, w1, pe, w2, layers, w3, pn, w4, head, w5. auto 10.
Qed.

Lemma builds_later {T : Type} (init : M F T) (Q : T -> gmap loc (Tensor F) -> Prop)
    (w : World F) m w' :
  builds init Q -> init w = Ok (m, w') -> later w w'.
Proof.
  intros Hb Hinit. destruct (Hb w) as (m1 & w1 & Hinit1 & Hest).
  rewrite Hinit in Hinit1. injection Hinit1 as <- <-. apply Hest.
Qed.

Lemma Embedding_init_loc (n d : nat) (w : World F) m w' :
  Embedding.__init__ n d w = Ok (m, w') ->
  Embedding.weight m = next w /\ next w' = S (next w).
Proof.
  unfold Embedding.__init__. intros Hinit.
  apply bind_ok in Hinit as (v & w1 & Hv & Hinit).
  destruct (draw_normal_spec fzero fone w) as (v' & w1' & Hv' & Hn & _).
  rewrite Hv in Hv'. injection Hv' as <- <-.
  apply bind_ok in Hinit as (l & w2 & Hl & Hinit).
  unfold alloc in Hl. injection Hl as <- <-.
  rewrite ret_unfold in Hinit. injection Hinit as <- <-.
  cbn [Embedding.weight next]. rewrite Hn. auto.
Qed.

Lemma Linear_init_loc (i o : nat) (b : bool) (w : World F) m w' :
  Linear.__init__ i o b w = Ok (m, w') -> Linear.weight m = next w.
Proof.
  unfold Linear.__init__. intros Hinit.
  apply bind_ok in Hinit as (v & w1 & Hv & Hinit).
  destruct (draw_uniform_spec (fsub fzero (fdiv fone (fsqrt (of_nat i))))
              (fdiv fone (fsqrt (of_nat i))) w) as (v' & w1' & Hv' & Hn & _).
  rewrite Hv in Hv'. injection Hv' as <- <-.
  apply bind_ok in Hinit as (l & w2 & Hl & Hinit).
  unfold alloc in Hl. injection Hl as <- <-.
  destruct b.
  - apply bind_ok in Hinit as (vb & w3 & _ & Hinit).
    apply bind_ok in Hinit as (lb & w4 & _ & Hinit).
    rewrite ret_unfold in Hinit. injection Hinit as <- <-. exact Hn.
  - rewrite ret_unfold in Hinit. injection Hinit as <- <-. exact Hn.
Qed.

(** Without weight tying the head keeps the parameter its own constructor
    allocated, which is not the embedding's. *)
Lemma untied_head_has_its_own_weight (config : MiniGPT.Config F) (w : World F) m w' :
  MiniGPT.weight_tie config = false ->
  0 < MiniGPT.cfg_num_heads config ->
  MiniGPT.__init__ config w = Ok (m, w') ->
  Linear.weight (MiniGPT.head m) <> Embedding.weight (MiniGPT.vocab_embedding m).
Proof.
  intros Htie Hpos Hinit.
  apply MiniGPT_init_inv in Hinit
    as (ve & w1 & pe & w2 & layers & w3 & pn & w4 & head & w5
        & Hve & Hpe & Hlayers & Hpn & Hhead & -> & _).
  rewrite Htie. cbn [MiniGPT.head MiniGPT.vocab_embedding].
  destruct (Embedding_init_loc _ _ _ _ _ Hve) as (-> & Hn1).
  rewrite (Linear_init_loc _ _ _ _ _ _ Hhead).
  pose proof (builds_later _ _ _ _ _ (builds_Embedding _ _) Hpe) as (H12 & _).
  pose proof (builds_later _ _ _ _ _
                (builds_mapM _ _ _ (fun _ => builds_TransformerLayer _ _ _ Hpos))
                Hlayers) as (H23 & _).
  pose proof (builds_later _ _ _ _ _ (builds_LayerNorm _ _) Hpn) as (H34 & _).
  lia.
Qed.

(** C7.  With [weight_tie] set, the model returned by the constructor, after
    the [_init_weights] pass, holds in [head.weight] the very parameter
    object of [vocab_embedding.weight]: the same location of the store, so
    the two read the same tensor and a write in place through the head is
    read back through the embedding.  With at least one head per layer the
    constructor does return, and the shared parameter has the shape
    [vocab_size x embed_dim]. *)
Theorem tied_head_shares_the_embedding_weight (config : MiniGPT.Config F) (w : World F) :
  MiniGPT.weight_tie config = true ->
  (forall m w', MiniGPT.__init__ config w = Ok (m, w') ->
     Linear.weight (MiniGPT.head m) = Embedding.weight (MiniGPT.vocab_embedding m) /\
     load (heap w') (Linear.weight (MiniGPT.head m))
     = load (heap w') (Embedding.weight (MiniGPT.vocab_embedding m)) /\
     forall v, exists w2,
       fill_ (Linear.weight (MiniGPT.head m)) v w' = Ok (tt, w2) /\
       el (load (heap w2) (Embedding.weight (MiniGPT.vocab_embedding m))) = v) /\
  (0 < MiniGPT.cfg_num_heads config ->
   exists m w', MiniGPT.__init__ config w = Ok (m, w') /\
     shape (load (heap w') (Embedding.weight (MiniGPT.vocab_embedding m)))
     = (1, MiniGPT.vocab_size config, MiniGPT.embed_dim config)).
Proof.
  intros Htie. split.
  - intros m w' Hinit.
    apply MiniGPT_init_inv in Hinit
      as (ve & w1 & pe & w2 & layers & w3 & pn & w4 & head & w5
          & _ & _ & _ & _ & _ & -> & _).
    rewrite Htie. cbn [MiniGPT.head MiniGPT.vocab_embedding MiniGPT.tie Linear.weight].
    split; [reflexivity|]. split; [reflexivity|].
    intros v. eexists. split; [reflexivity|].
    cbn [heap]. rewrite load_insert_eq. reflexivity.
  - intros Hpos.
    destruct (builds_MiniGPT config Hpos w) as (m & w' & Hinit & _ & Hest).
    exists m, w'. split; [exact Hinit|].
    destruct (Hest (heap w')) as (Hshaped & _); [intros l _; reflexivity|].
    apply Hshaped.
Qed.

End WEIGHT_TYING.

Section WEIGHT_TYING_EXAMPLE.
#[local] Existing Instance RealScalar.exact.
#[local] Existing Instance Counter.random.

Lemma tied_head_shares_the_embedding_weight_witness :
  (forall m w',
     MiniGPT.__init__ (Examples.tiny_config 16) Examples.fresh_world = Ok (m, w') ->
     Linear.weight (MiniGPT.head m) = Embedding.weight (MiniGPT.vocab_embedding m) /\
     load (heap w') (Linear.weight (MiniGPT.head m))
     = load (heap w') (Embedding.weight (MiniGPT.vocab_embedding m)) /\
     forall v, exists w2,
       fill_ (Linear.weight (MiniGPT.head m)) v w' = Ok (tt, w2) /\
       el (load (heap w2) (Embedding.weight (MiniGPT.vocab_embedding m))) = v) /\
  (0 < 2 ->
   exists m w',
     MiniGPT.__init__ (Examples.tiny_config 16) Examples.fresh_world = Ok (m, w') /\
     shape (load (heap w') (Embedding.weight (MiniGPT.vocab_embedding m))) = (1, 3, 4)).
Proof.
  apply (tied_head_shares_the_embedding_weight (Examples.tiny_config 16)
           Examples.fresh_world).
  reflexivity.
Defined.

End WEIGHT_TYING_EXAMPLE.

(** ** BigramLanguageModel *)

Section BIGRAM.
Context {F : Type} `{Scalar F} `{Random F}.

Lemma keeps_shapes_Bigram_init_weights (self : BigramLanguageModel.t F loc)
    (m : MiniGPT.module loc) :
  keeps_shapes (BigramLanguageModel._init_weights self m).
Proof.
  destruct m as [l|e|name]; cbn [BigramLanguageModel._init_weights].
  - apply keeps_shapes_bind; [apply keeps_shapes_normal|].
    intros _. destruct (Linear.bias l) as [b|].
    + apply keeps_shapes_fill.
    + apply keeps_shapes_ret.
  - apply keeps_shapes_normal.
  - apply keeps_shapes_ret.
Qed.

Lemma builds_Bigram (config : BigramLanguageModel.Config F) :
  builds (BigramLanguageModel.__init__ config)
         (fun m h => BigramLanguageModel_shaped config (BigramLanguageModel.read h m)).
Proof.
  unfold BigramLanguageModel.__init__.
  set (V := BigramLanguageModel.vocab_size config).
  set (D := BigramLanguageModel.embed_dim config).
  set (finish := fun (e : Embedding.t loc) (l : Linear.t loc) =>
    BigramLanguageModel.mk e l (Dropout.__init__ (BigramLanguageModel.cfg_dropout config))).
  eapply builds_impl; [|apply builds_bind with
      (Q1 := fun m h => shape (Embedding.weight (Embedding.read h m)) = (1, V, D))
      (Q2 := fun e m h => exists l, Linear_shaped D V (Linear.read h l) /\ m = finish e l)].
  - intros m h (e & He & l & Hl & ->). split; [exact He|exact Hl].
  - apply builds_Embedding.
  - intros e.
    eapply builds_impl; [|apply builds_bind with
        (Q1 := fun m h => Linear_shaped D V (Linear.read h m))
        (Q2 := fun l m _ => m = finish e l)].
    + intros m h (l & Hl & ->). exists l. auto.
    + apply builds_Linear.
    + intros l. cbn zeta. fold (finish e l).
      eapply builds_impl; [|apply builds_bind with
          (Q1 := fun _ _ => True) (Q2 := fun _ m _ => m = finish e l)].
      * intros m h (u & _ & ->). reflexivity.
      * apply builds_keeping_shapes. unfold BigramLanguageModel.apply.
        apply keeps_shapes_forM, keeps_shapes_Bigram_init_weights.
      * intros _. apply builds_ret.
Qed.

(** The forward pass of a model with the constructor's shapes, on tokens
    of the vocabulary: where it returns and what each logit is. *)
Lemma Bigram_forward_spec (config : BigramLanguageModel.Config F)
    (m : BigramLanguageModel.t F (Tensor F)) (x : Tokens) (w : World F) :
  BigramLanguageModel_shaped config m ->
  tokens_in_range (BigramLanguageModel.vocab_size config) x = true ->
  exists logits w', BigramLanguageModel.forward m x w = Ok (logits, w') /\
    shape logits = (batch_of x, seq_len_of x, BigramLanguageModel.vocab_size config) /\
    (Dropout.training (BigramLanguageModel.dropout m) = false ->
     w' = w /\
     forall b i t, el logits b i t = bigram_logit m (token_at x b i) t).
Proof.
  intros (He & Hl) Hx.
  destruct (shape_dims _ (mkT _ _ _ (el (Embedding.weight (BigramLanguageModel.embeddings m))))
              He) as (_ & He1 & He2).
  cbn [d1 d2] in He1, He2.
  destruct Hl as (Hl2 & Hl1 & Hlb).
  unfold BigramLanguageModel.forward, Embedding.forward. fold (as_batch x).
  unfold embedding. rewrite tokens_in_range_as_batch, He1, Hx.
  set (e := match as_batch x with
            | Tok1 l => Ok _
            | Tok2 b s tok => Ok _
            end).
  assert (He' : exists emb, e = Ok emb /\ shape emb = (batch_of x, seq_len_of x, d2 (Embedding.weight (BigramLanguageModel.embeddings m))) /\
            forall b i k, el emb b i k = el (Embedding.weight (BigramLanguageModel.embeddings m)) 0 (token_at x b i) k).
  { subst e. destruct x as [l|b s tok]; cbn [as_batch unsqueeze0];
      eexists; (split; [reflexivity|]); split; reflexivity. }
  destruct He' as (emb & -> & Hes & Hel).
  destruct (shape_dims _ (mkT _ _ _ (el emb)) Hes) as (Hs0 & Hs1 & Hs2).
  cbn [d0 d1 d2] in Hs0, Hs1, Hs2.
  run_monad. unfold Linear.forward.
  rewrite linear_ok
    by first [congruence | intros bs Hbs; rewrite (Hlb bs Hbs); congruence].
  run_monad.
  match goal with |- context [Dropout.forward _ ?y w] => set (lin := y) end.
  destruct (Dropout_forward_spec (BigramLanguageModel.dropout m) lin w)
    as (y & w' & Hy & Hys & Heval).
  rewrite Hy. run_monad. exists y, w'. split; [reflexivity|].
  split.
  - rewrite Hys. subst lin. unfold shape. cbn [d0 d1 d2]. congruence.
  - intros Htr. destruct (Heval Htr) as (-> & ->). split; [reflexivity|].
    intros b i t. subst lin. cbn [el]. unfold bigram_logit. cbn zeta.
    rewrite Hs2.
    assert (Hsum : sum_n (d2 (Embedding.weight (BigramLanguageModel.embeddings m)))
                     (fun t0 => fmul (el emb b i t0)
                                  (el (Linear.weight (BigramLanguageModel.linear m)) 0 t t0))
                   = sum_n (d2 (Embedding.weight (BigramLanguageModel.embeddings m)))
                     (fun k => fmul (el (Embedding.weight (BigramLanguageModel.embeddings m))
                                       0 (token_at x b i) k)
                                  (el (Linear.weight (BigramLanguageModel.linear m)) 0 t k))).
    { apply sum_n_ext. intros k _. rewrite Hel. reflexivity. }
    rewrite Hsum. reflexivity.
Qed.

Lemma Bigram_forward_bad_token (config : BigramLanguageModel.Config F)
    (m : BigramLanguageModel.t F (Tensor F)) (x : Tokens) (w : World F) :
  BigramLanguageModel_shaped config m ->
  tokens_in_range (BigramLanguageModel.vocab_size config) x = false ->
  BigramLanguageModel.forward m x w = Err IndexError.
Proof.
  intros (He & _) Hx.
  destruct (shape_dims _ (mkT _ _ _ (el (Embedding.weight (BigramLanguageModel.embeddings m))))
              He) as (_ & He1 & _).
  cbn [d1] in He1.
  unfold BigramLanguageModel.forward, Embedding.forward. fold (as_batch x).
  unfold embedding. rewrite tokens_in_range_as_batch, He1, Hx. reflexivity.
Qed.


Lemma Bigram_init_store (config : BigramLanguageModel.Config F) (w : World F) :
  exists m w',
    BigramLanguageModel.__init__ config w = Ok (m, w') /\
    Embedding.weight (BigramLanguageModel.embeddings m) = next w /\
    Linear.weight (BigramLanguageModel.linear m) = S (next w) /\
    Linear.bias (BigramLanguageModel.linear m) = Some (S (S (next w))) /\
    next w' = S (S (S (next w))) /\
    shape (load (heap w') (next w))
    = (1, BigramLanguageModel.vocab_size config, BigramLanguageModel.embed_dim config) /\
    shape (load (heap w') (S (next w)))
    = (1, BigramLanguageModel.vocab_size config, BigramLanguageModel.embed_dim config) /\
    load (heap w') (S (S (next w)))
    = mkT 1 1 (BigramLanguageModel.vocab_size config) (fun _ _ _ => fzero).
Proof.
  unfold BigramLanguageModel.__init__, Embedding.__init__, Linear.__init__.
  unfold BigramLanguageModel.apply, BigramLanguageModel.modules.
  cbn [forM_ BigramLanguageModel._init_weights].
  run_monad. unfold draw_normal at 1.
  destruct (normal (gen w) fzero fone) as [v0 g0].
  run_monad. unfold alloc at 1. run_monad. cbn [gen heap next].
  unfold draw_uniform at 1. cbn [gen heap next].
  destruct (uniform g0 _ _) as [v1 g1].
  run_monad. unfold alloc at 1. run_monad. cbn [gen heap next].
  unfold draw_uniform at 1. cbn [gen heap next].
  destruct (uniform g1 _ _) as [v2 g2].
  run_monad. unfold alloc at 1. run_monad. cbn [gen heap next].
  cbn [BigramLanguageModel.embeddings BigramLanguageModel.linear Embedding.weight
       Linear.weight Linear.bias].
  unfold normal_ at 1, draw_normal at 1. cbn [gen heap next].
  destruct (normal g2 _ _) as [v3 g3].
  unfold fill_ at 1. cbn [gen heap next]. run_monad.
  unfold normal_ at 1, draw_normal at 1. cbn [gen heap next].
  destruct (normal g3 _ _) as [v4 g4].
  unfold fill_ at 1. cbn [gen heap next]. run_monad.
  unfold zeros_, fill_. cbn [gen heap next]. run_monad.
  eexists _, _. split; [reflexivity|].
  cbn [BigramLanguageModel.embeddings BigramLanguageModel.linear Embedding.weight
       Linear.weight Linear.bias heap next].
  repeat (split; [reflexivity|]).
  repeat first [rewrite load_insert_eq | rewrite load_insert_ne by lia].
  cbn [d0 d1 d2]. repeat split.
Qed.


(** X2.  After [model.eval()] the forward pass of the bigram model
    consumes no randomness, and the logit it gives to token [t] at a
    position is the embedding row of the token at that position against row
    [t] of the linear layer, plus the bias: it depends on no other token of
    the input, nor on the position. *)
Theorem bigram_logits_follow_the_token (config : BigramLanguageModel.Config F) (w : World F) :
  exists m w',
    BigramLanguageModel.__init__ config w = Ok (m, w') /\
    forall h, same_shapes (next w) (next w') h (heap w') ->
    forall x w2,
      tokens_in_range (BigramLanguageModel.vocab_size config) x = true ->
      exists logits,
        BigramLanguageModel.forward (BigramLanguageModel.eval (BigramLanguageModel.read h m))
          x w2 = Ok (logits, w2) /\
        (forall b i t,
            el logits b i t
            = bigram_logit (BigramLanguageModel.read h m) (token_at x b i) t) /\
        (forall x' logits' w3 b i b' i' t,
            BigramLanguageModel.forward
              (BigramLanguageModel.eval (BigramLanguageModel.read h m)) x' w2
            = Ok (logits', w3) ->
            token_at x b i = token_at x' b' i' ->
            el logits b i t = el logits' b' i' t).
Proof.
  destruct (builds_Bigram config w) as (m & w' & Hinit & _ & Hest).
  exists m, w'. split; [exact Hinit|].
  intros h Hh x w2 Hx. specialize (Hest h Hh).
  assert (Heval : BigramLanguageModel_shaped config
                    (BigramLanguageModel.eval (BigramLanguageModel.read h m)))
    by exact Hest.
  destruct (Bigram_forward_spec config _ x w2 Heval Hx) as (logits & w3 & Hf & _ & Hel).
  destruct (Hel eq_refl) as (-> & Hlogit).
  exists logits. split; [exact Hf|]. split; [exact Hlogit|].
  intros x' logits' w4 b i b' i' t Hf' Htok.
  destruct (tokens_in_range (BigramLanguageModel.vocab_size config) x') eqn:Hx'.
  - destruct (Bigram_forward_spec config _ x' w2 Heval Hx') as (l2 & w5 & Hf2 & _ & Hel2).
    rewrite Hf' in Hf2. injection Hf2 as <- <-.
    destruct (Hel2 eq_refl) as (_ & Hlogit').
    rewrite Hlogit, Hlogit', Htok. reflexivity.
  - rewrite (Bigram_forward_bad_token config _ x' w2 Heval Hx') in Hf'. discriminate.
Qed.

(** X3.  The constructor of the bigram model leaves three distinct
    parameters in the store: the embedding table and the weight of the
    linear layer, both of shape [(vocab_size, embed_dim)], and the bias of
    the linear layer, which [_init_weights] has set to [vocab_size] zeros. *)
Theorem bigram_constructor_parameters (config : BigramLanguageModel.Config F) (w : World F) :
  exists m w' bias,
    BigramLanguageModel.__init__ config w = Ok (m, w') /\
    Linear.bias (BigramLanguageModel.linear m) = Some bias /\
    NoDup [Embedding.weight (BigramLanguageModel.embeddings m);
           Linear.weight (BigramLanguageModel.linear m); bias] /\
    shape (load (heap w') (Embedding.weight (BigramLanguageModel.embeddings m)))
    = (1, BigramLanguageModel.vocab_size config, BigramLanguageModel.embed_dim config) /\
    shape (load (heap w') (Linear.weight (BigramLanguageModel.linear m)))
    = (1, BigramLanguageModel.vocab_size config, BigramLanguageModel.embed_dim config) /\
    load (heap w') bias
    = mkT 1 1 (BigramLanguageModel.vocab_size config) (fun _ _ _ => fzero).
Proof.
  destruct (Bigram_init_store config w)
    as (m & w' & Hinit & He & Hl & Hb & _ & Hse & Hsl & Hzero).
  exists m, w', (S (S (next w))). split; [exact Hinit|]. split; [exact Hb|].
  rewrite He, Hl. split; [|split; [exact Hse|split; [exact Hsl|exact Hzero]]].
  repeat (apply NoDup_cons_2; [rewrite ?not_elem_of_cons; repeat split; try lia; apply not_elem_of_nil|]).
  apply NoDup_nil_2.
Qed.

End BIGRAM.

Section BIGRAM_GENERATE.
Context {F : Type} `{Scalar F} `{Random F}.
Variables (config : BigramLanguageModel.Config F) (m : BigramLanguageModel.t F (Tensor F)).
Hypothesis Hshaped : BigramLanguageModel_shaped config m.

Lemma last_n_1 (stream : list nat) :
  stream <> [] -> MiniGPT.last_n 1 stream = [List.last stream 0].
Proof.
  intros Hne. unfold MiniGPT.last_n.
  induction stream as [|a rest IH]; [contradiction|].
  destruct rest as [|b rest]; [reflexivity|].
  specialize (IH ltac:(discriminate)).
  cbn [length] in *. replace (S (S (length rest)) - 1) with (S (S (length rest) - 1)) by lia.
  cbn [skipn]. rewrite IH. reflexivity.
Qed.

Lemma Bigram_generate_step_empty (w : World F) :
  BigramLanguageModel.generate_step m [] w = Err IndexError.
Proof.
  unfold BigramLanguageModel.generate_step.
  destruct (Bigram_forward_spec config m (Tok1 (MiniGPT.last_n 1 [])) w Hshaped eq_refl)
    as (logits & w1 & Hlogits & Hs & _).
  rewrite (bind_step _ _ _ _ _ Hlogits).
  destruct (shape_dims _ (mkT _ _ _ (el logits)) Hs) as (_ & Hl1 & _).
  cbn in Hl1. unfold select_last. cbn [softmax d1]. rewrite Hl1. reflexivity.
Qed.

Lemma Bigram_generate_step_spec (stream : list nat) (w : World F) :
  sampler_total ->
  stream <> [] ->
  tokens_in_range (BigramLanguageModel.vocab_size config) (Tok1 stream) = true ->
  exists t w', BigramLanguageModel.generate_step m stream w = Ok (stream ++ [t], w') /\
    t < BigramLanguageModel.vocab_size config.
Proof.
  intros Hsampler Hne Hvalid.
  assert (Hvocab : 0 < BigramLanguageModel.vocab_size config).
  { destruct stream as [|t0 rest]; [contradiction|]. cbn in Hvalid.
    apply andb_prop in Hvalid as (Ht0 & _). apply Nat.ltb_lt in Ht0. lia. }
  assert (Hlen : 0 < length stream) by (destruct stream; [contradiction|cbn; lia]).
  pose proof (last_n_length 1 stream) as Hwlen.
  destruct (Bigram_forward_spec config m (Tok1 (MiniGPT.last_n 1 stream)) w Hshaped)
    as (logits & w1 & Hlogits & Hs & _).
  { cbn [tokens_in_range] in *. unfold MiniGPT.last_n. apply forallb_skipn. exact Hvalid. }
  destruct (shape_dims _ (mkT _ _ _ (el logits)) Hs) as (Hl0 & Hl1 & Hl2).
  cbn [d0 d1 d2 batch_of seq_len_of] in Hl0, Hl1, Hl2.
  set (probs := mkT 1 (d0 (softmax logits)) (d2 (softmax logits))
                  (fun _ b k => el (softmax logits) b (d1 (softmax logits) - 1) k)).
  assert (Hsel : select_last (softmax logits) = Ok probs).
  { unfold select_last. cbn [softmax d1].
    destruct (Nat.eqb_spec (d1 logits) 0) as [H0'|_]; [lia|]. reflexivity. }
  destruct (Hsampler (gen w1) (BigramLanguageModel.vocab_size config) (el probs 0 0) Hvocab)
    as (t & g' & Ht & Hlt).
  exists t, (mkWorld g' (heap w1) (next w1)). split; [|exact Hlt].
  unfold BigramLanguageModel.generate_step. rewrite (bind_step _ _ _ _ _ Hlogits).
  rewrite Hsel. run_monad. unfold MiniGPT.sample_rows.
  replace (d1 probs) with 1 by (cbn [probs d1 d0 softmax]; lia).
  replace (d2 probs) with (BigramLanguageModel.vocab_size config)
    by (cbn [probs d2 softmax]; lia).
  cbn [seq mapM]. run_monad. unfold draw_multinomial. rewrite Ht.
  run_monad. reflexivity.
Qed.

Lemma Bigram_generate_loop_spec (iterations : nat) (stream : list nat) (w : World F) :
  sampler_total ->
  stream <> [] ->
  tokens_in_range (BigramLanguageModel.vocab_size config) (Tok1 stream) = true ->
  exists new w',
    BigramLanguageModel.generate_loop m iterations stream w = Ok (stream ++ new, w') /\
    length new = iterations /\
    tokens_in_range (BigramLanguageModel.vocab_size config) (Tok1 (stream ++ new)) = true.
Proof.
  intros Hsampler.
  revert stream w. induction iterations as [|n IH]; intros stream w Hne Hvalid.
  - exists [], w. rewrite app_nil_r. cbn [BigramLanguageModel.generate_loop]. auto.
  - destruct (Bigram_generate_step_spec stream w Hsampler Hne Hvalid)
      as (t & w1 & Hstep & Hlt).
    destruct (IH (stream ++ [t]) w1) as (new & w' & Hloop & Hlen & Hvalid').
    + destruct stream; discriminate.
    + cbn [tokens_in_range] in *. apply forallb_app_true; [exact Hvalid|].
      cbn [forallb]. rewrite andb_true_r. apply Nat.ltb_lt. exact Hlt.
    + exists (t :: new), w'. cbn [BigramLanguageModel.generate_loop].
      rewrite (bind_step _ _ _ _ _ Hstep).
      rewrite <- app_assoc in Hloop, Hvalid'. cbn [app] in Hloop, Hvalid'.
      split; [exact Hloop|]. split; [cbn [length]; lia|exact Hvalid'].
Qed.

(** In eval mode one iteration of [generate] samples from the softmax of
    the logits of the last token of the stream. *)
Lemma Bigram_generate_step_eval (stream : list nat) (w : World F) :
  Dropout.training (BigramLanguageModel.dropout m) = false ->
  stream <> [] ->
  tokens_in_range (BigramLanguageModel.vocab_size config) (Tok1 stream) = true ->
  BigramLanguageModel.generate_step m stream w
  = (t ← draw_multinomial (BigramLanguageModel.vocab_size config)
           (bigram_next_token_prob m (List.last stream 0));
     mret (stream ++ [t])) w.
Proof.
  intros Heval Hne Hvalid.
  destruct (Bigram_forward_spec config m (Tok1 (MiniGPT.last_n 1 stream)) w Hshaped)
    as (logits & w1 & Hlogits & Hs & Hel).
  { cbn [tokens_in_range] in *. unfold MiniGPT.last_n. apply forallb_skipn. exact Hvalid. }
  destruct (Hel Heval) as (-> & Hlogit).
  destruct (shape_dims _ (mkT _ _ _ (el logits)) Hs) as (Hl0 & Hl1 & Hl2).
  rewrite (last_n_1 stream Hne) in Hl0, Hl1, Hl2, Hlogit, Hlogits.
  cbn [d0 d1 d2 batch_of seq_len_of length] in Hl0, Hl1, Hl2.
  unfold BigramLanguageModel.generate_step.
  rewrite (last_n_1 stream Hne), (bind_step _ _ _ _ _ Hlogits).
  unfold select_last. cbn [softmax d1]. rewrite Hl1. cbn [Nat.eqb].
  run_monad. unfold MiniGPT.sample_rows. cbn [softmax d0 d1 d2]. rewrite Hl0, Hl2.
  cbn [seq mapM]. run_monad.
  match goal with |- context [draw_multinomial _ ?p w] =>
    replace p with (bigram_next_token_prob m (List.last stream 0))
  end.
  2:{ apply Stdlib.Logic.FunctionalExtensionality.functional_extensionality. intros k.
      unfold bigram_next_token_prob. destruct Hshaped as (_ & _ & Hw1 & _). rewrite Hw1.
      cbn [softmax el]. rewrite Hl2, Hlogit. cbn [token_at nth Nat.sub].
      f_equal. apply sum_n_ext. intros j _. rewrite Hlogit. reflexivity. }
  unfold draw_multinomial.
  destruct (multinomial (gen w) _ _) as [[t g]|e]; reflexivity.
Qed.

End BIGRAM_GENERATE.

Section BIGRAM_GENERATE_CLAIMS.
Context {F : Type} `{Scalar F} `{Random F}.


(** X5.  On an empty context [generate] of the bigram model returns the
    empty stream when asked for no token, and raises [IndexError] when
    asked for at least one: the model returns logits for zero positions
    and the last position is selected. *)
Theorem bigram_generate_from_empty_context
    (config : BigramLanguageModel.Config F) (w : World F) :
  exists m w',
    BigramLanguageModel.__init__ config w = Ok (m, w') /\
    forall h, same_shapes (next w) (next w') h (heap w') ->
    forall w2,
      BigramLanguageModel.generate (BigramLanguageModel.read h m) [] 0 w2 = Ok ([], w2) /\
      forall n,
        BigramLanguageModel.generate (BigramLanguageModel.read h m) [] (S n) w2
        = Err IndexError.
Proof.
  destruct (builds_Bigram config w) as (m & w' & Hinit & _ & Hest).
  exists m, w'. split; [exact Hinit|].
  intros h Hh w2. split; [reflexivity|]. intros n.
  unfold BigramLanguageModel.generate. cbn [BigramLanguageModel.generate_loop].
  rewrite bind_unfold.
  rewrite (Bigram_generate_step_empty config _ (Hest h Hh) w2). reflexivity.
Qed.

(** X6.  After [model.eval()], one iteration of [generate] of the bigram
    model on a non-empty stream of tokens of the vocabulary draws one
    token, among [vocab_size] categories, from the softmax of the logits of
    the last token of the stream, and appends it: the earlier tokens have
    no influence on the draw. *)
Theorem bigram_samples_from_the_last_token
    (config : BigramLanguageModel.Config F) (w : World F) :
  exists m w',
    BigramLanguageModel.__init__ config w = Ok (m, w') /\
    forall h, same_shapes (next w) (next w') h (heap w') ->
    forall stream w2,
      stream <> [] ->
      tokens_in_range (BigramLanguageModel.vocab_size config) (Tok1 stream) = true ->
      BigramLanguageModel.generate_step
        (BigramLanguageModel.eval (BigramLanguageModel.read h m)) stream w2
      = (t ← draw_multinomial (BigramLanguageModel.vocab_size config)
               (bigram_next_token_prob (BigramLanguageModel.read h m)
                  (List.last stream 0));
         mret (stream ++ [t])) w2.
Proof.
  destruct (builds_Bigram config w) as (m & w' & Hinit & _ & Hest).
  exists m, w'. split; [exact Hinit|].
  intros h Hh stream w2 Hne Hvalid.
  assert (Heval : BigramLanguageModel_shaped config
                    (BigramLanguageModel.eval (BigramLanguageModel.read h m)))
    by exact (Hest h Hh).
  rewrite (Bigram_generate_step_eval config _ Heval stream w2 eq_refl Hne Hvalid).
  reflexivity.
Qed.

End BIGRAM_GENERATE_CLAIMS.

Section BIGRAM_EXAMPLES.
#[local] Existing Instance RealScalar.exact.
#[local] Existing Instance Counter.random.


End BIGRAM_EXAMPLES.

(** ** Further properties of the layers *)

Section LAYERS_MORE.
Context {F : Type} `{Scalar F} `{Random F}.

(** X7.  Generating [a + b] tokens is generating [a] tokens and then [b]
    more from the stream that was returned, with the generator state
    threaded through; an error in either run is the error of the whole. *)
Theorem generate_in_two_runs (m : MiniGPT.t F (Tensor F)) (context : list nat)
    (a b : nat) (w : World F) :
  MiniGPT.generate m context (a + b) w
  = (stream ← MiniGPT.generate m context a; MiniGPT.generate m stream b) w.
Proof.
  unfold MiniGPT.generate. revert context w.
  induction a as [|a IH]; intros context w.
  - cbn [Nat.add MiniGPT.generate_loop]. rewrite bind_unfold, ret_unfold. reflexivity.
  - cbn [Nat.add MiniGPT.generate_loop]. rewrite !bind_unfold.
    destruct (MiniGPT.generate_step m context w) as [[stream w1]|e]; [|reflexivity].
    rewrite IH, bind_unfold. reflexivity.
Qed.

(** X8.  A [LayerNorm] constructed with [elementwise_affine=False] has no
    parameter (the store is left as it was, [gamma] and [beta] are not
    set), and its forward pass raises [AttributeError] on every input: the
    input is centred and scaled, and then [self.gamma] is read. *)
Theorem layer_norm_without_affine_raises (d : nat) (eps : F) (w : World F) :
  exists m,
    LayerNorm.__init__ d eps false w = Ok (m, w) /\
    LayerNorm.gamma m = None /\ LayerNorm.beta m = None /\
    forall h x, LayerNorm.forward (LayerNorm.read h m) x = Err AttributeError.
Proof.
  eexists. split; [reflexivity|]. split; [reflexivity|]. split; [reflexivity|].
  intros h x. unfold LayerNorm.forward.
  destruct (broadcast2_per_row OpSub fsub x (unsqueeze_last (mean_last x)))
    as (centred & Hc & Hsc & _); [reflexivity|].
  unfold tsub. rewrite Hc. cbn [mbind result_bind rbind].
  destruct (broadcast2_per_row OpDiv fdiv centred
              (tsqrt (tadd_scalar (unsqueeze_last (var_last x)) eps)))
    as (normed & Hn & _).
  { destruct (shape_dims _ _ Hsc) as (H0' & H1' & _).
    unfold shape. cbn [tsqrt tadd_scalar tmap unsqueeze_last var_last d0 d1 d2].
    rewrite H0', H1'. reflexivity. }
  unfold tdiv. cbn [LayerNorm.read LayerNorm.eps]. rewrite Hn. reflexivity.
Qed.

Lemma builds_FeedForwardLayer_hidden (d : nat) (ff : option nat) (p : F) :
  builds (FeedForwardLayer.__init__ d ff p)
         (fun m h =>
            let hidden := match ff with Some n => n | None => d * 4 end in
            Linear_shaped d hidden (Linear.read h (FeedForwardLayer.fc1 m)) /\
            Linear_shaped hidden d (Linear.read h (FeedForwardLayer.fc2 m))).
Proof.
  unfold FeedForwardLayer.__init__.
  set (hidden := match ff with Some n => n | None => d * 4 end).
  eapply builds_impl; [|apply builds_bind with
      (Q1 := fun m h => Linear_shaped d hidden (Linear.read h m))
      (Q2 := fun fc1 m h => exists fc2, Linear_shaped hidden d (Linear.read h fc2) /\
                              m = FeedForwardLayer.mk fc1 fc2 (Dropout.__init__ p))].
  - intros m h (fc1 & H1 & fc2 & H2 & ->). split; assumption.
  - apply builds_Linear.
  - intros fc1.
    eapply builds_impl; [|apply builds_bind with
        (Q1 := fun m h => Linear_shaped hidden d (Linear.read h m))
        (Q2 := fun fc2 m _ => m = FeedForwardLayer.mk fc1 fc2 (Dropout.__init__ p))].
    + intros m h (fc2 & H2 & ->). exists fc2. split; [exact H2|reflexivity].
    + apply builds_Linear.
    + intros fc2. apply builds_ret.
Qed.

(** X9.  A [FeedForwardLayer] built with any hidden width (four times
    [input_dim] when [feedforward_dim] is [None]; an explicit [0] is kept)
    returns, on every input with [input_dim] features, an output of the
    shape of the input, and raises the shape error of the first linear
    layer on every other input. *)
Theorem feed_forward_keeps_the_shape (d : nat) (ff : option nat) (p : F) (w : World F) :
  exists m w',
    FeedForwardLayer.__init__ d ff p w = Ok (m, w') /\
    forall h, same_shapes (next w) (next w') h (heap w') ->
      let hidden := match ff with Some n => n | None => d * 4 end in
      d1 (Linear.weight (FeedForwardLayer.fc1 (FeedForwardLayer.read h m))) = hidden /\
      d2 (Linear.weight (FeedForwardLayer.fc2 (FeedForwardLayer.read h m))) = hidden /\
      forall x w2,
        (d2 x = d ->
         exists y w3,
           FeedForwardLayer.forward (FeedForwardLayer.read h m) x w2 = Ok (y, w3) /\
           shape y = shape x) /\
        (d2 x <> d ->
         FeedForwardLayer.forward (FeedForwardLayer.read h m) x w2
         = Err (RuntimeError OpLinear)).
Proof.
  destruct (builds_FeedForwardLayer_hidden d ff p w) as (m & w' & Hinit & _ & Hest).
  exists m, w'. split; [exact Hinit|].
  intros h Hh hidden. destruct (Hest h Hh) as ((H12 & H11 & H1b) & (H22 & H21 & H2b)).
  fold hidden in H11, H1b, H22.
  change (Linear.read h (FeedForwardLayer.fc1 m))
    with (FeedForwardLayer.fc1 (FeedForwardLayer.read h m)) in H12, H11, H1b.
  change (Linear.read h (FeedForwardLayer.fc2 m))
    with (FeedForwardLayer.fc2 (FeedForwardLayer.read h m)) in H22, H21, H2b.
  split; [exact H11|]. split; [exact H22|].
  intros x w2. split.
  - intros Hd.
    destruct (linear_shape x (Linear.weight (FeedForwardLayer.fc1 (FeedForwardLayer.read h m)))
                (Linear.bias (FeedForwardLayer.fc1 (FeedForwardLayer.read h m))))
      as (a & Ha & Hsa).
    { rewrite Hd, H12. reflexivity. }
    { intros bs Hbs. rewrite (H1b bs Hbs), H11. reflexivity. }
    destruct (shape_dims a (mkT (d0 x) (d1 x) _ (el a)) Hsa) as (Ha0 & Ha1 & Ha2).
    cbn [d0 d1 d2] in Ha0, Ha1, Ha2.
    destruct (linear_shape (tmap fgelu a)
                (Linear.weight (FeedForwardLayer.fc2 (FeedForwardLayer.read h m)))
                (Linear.bias (FeedForwardLayer.fc2 (FeedForwardLayer.read h m))))
      as (o & Ho & Hso).
    { cbn [tmap d2]. rewrite Ha2, H11, H22. reflexivity. }
    { intros bs Hbs. rewrite (H2b bs Hbs), H21. reflexivity. }
    destruct (Dropout_forward_spec
                (FeedForwardLayer.dropout (FeedForwardLayer.read h m)) o w2)
      as (y & w3 & Hy & Hsy & _).
    exists y, w3. split.
    + unfold FeedForwardLayer.forward, Linear.forward. rewrite Ha. run_monad.
      rewrite Ho. run_monad. exact Hy.
    + rewrite Hsy, Hso. cbn [tmap d0 d1]. rewrite Ha0, Ha1, H21, <- Hd. reflexivity.
  - intros Hd. unfold FeedForwardLayer.forward, Linear.forward.
    rewrite linear_mismatch; [reflexivity|].
    intros Heq. apply Hd. etransitivity; [exact Heq|exact H12].
Qed.

End LAYERS_MORE.

(** ** Sequences longer than the causal mask *)

Section BEYOND_THE_MASK.
Context {F : Type} `{Scalar F} `{Random F}.

(** A head whose mask has [max_len] rows fails at [masked_fill_] on an
    input of more than [max_len] tokens: the slice of the mask is the whole
    mask, which cannot be broadcast to the scores unless it has a single
    row. *)
Lemma SingleHeadAttention_forward_beyond_mask (d kq dv max_len : nat)
    (m : SingleHeadAttention.t F (Tensor F)) (x : Tensor F) (w : World F) :
  SingleHeadAttention_shaped d kq dv max_len m ->
  d2 x = d -> max_len < d1 x -> max_len <> 1 ->
  SingleHeadAttention.forward m x w = Err (RuntimeError OpMaskedFill).
Proof.
  intros (Hkq & (Hq2 & Hq1 & Hqb) & (Hk2 & Hk1 & Hkb) & (Hv2 & Hv1 & Hvb) & Hmask)
         Hx Hlong Hmax.
  unfold SingleHeadAttention.forward, Linear.forward.
  rewrite (linear_ok x _ _ (eq_trans Hx (eq_sym Hq2))
             (fun bs Hbs => eq_trans (Hqb bs Hbs) (eq_sym Hq1))).
  rewrite (linear_ok x _ _ (eq_trans Hx (eq_sym Hk2))
             (fun bs Hbs => eq_trans (Hkb bs Hbs) (eq_sym Hk1))).
  rewrite (linear_ok x _ _ (eq_trans Hx (eq_sym Hv2))
             (fun bs Hbs => eq_trans (Hvb bs Hbs) (eq_sym Hv1))).
  run_monad.
  rewrite matmul_ok; [|reflexivity|cbn [d1 d2 transpose]; congruence].
  run_monad. unfold masked_fill_. rewrite Hmask.
  cbn [b0 b1 b2 d0 d1 d2 teq_scalar slice2 tdiv_scalar tmap transpose triu ones2].
  replace (Nat.min (d1 x) max_len) with max_len by lia.
  unfold expandable.
  destruct (Nat.eqb_spec max_len (d1 x)); [lia|].
  destruct (Nat.eqb_spec max_len 1); [lia|].
  rewrite andb_false_r. reflexivity.
Qed.

(** X10.  A [SingleHeadAttention] built with a causal mask of [max_len]
    rows, [max_len] other than 1, raises the shape error of [masked_fill_]
    on every input of the right width that has more than [max_len] tokens,
    whatever the values of its parameters. *)
Theorem attention_rejects_sequences_beyond_the_mask
    (input_dim : nat) (kq v : option nat) (p : F) (max_len : nat) (w : World F) :
  max_len <> 1 ->
  exists m w',
    SingleHeadAttention.__init__ input_dim kq v p max_len w = Ok (m, w') /\
    forall h, same_shapes (next w) (next w') h (heap w') ->
    forall x w2, d2 x = input_dim -> max_len < d1 x ->
      SingleHeadAttention.forward (SingleHeadAttention.read h m) x w2
      = Err (RuntimeError OpMaskedFill).
Proof.
  intros Hmax.
  destruct (SingleHeadAttention_init_total input_dim kq v p max_len w) as (m & w' & Hinit).
  exists m, w'. split; [exact Hinit|].
  destruct (SingleHeadAttention_init_est _ _ _ _ _ _ _ _ Hinit) as (_ & Hest).
  intros h Hh x w2 Hx Hlong.
  eapply SingleHeadAttention_forward_beyond_mask; [apply Hest, Hh|exact Hx|exact Hlong|exact Hmax].
Qed.

Lemma MultiHeadAttention_forward_beyond_mask (d num_heads : nat)
    (m : MultiHeadAttention.t F (Tensor F)) (x : Tensor F) (w : World F) :
  MultiHeadAttention_shaped d num_heads m -> 0 < num_heads ->
  d2 x = d -> SingleHeadAttention.default_max_len < d1 x ->
  MultiHeadAttention.forward m x w = Err (RuntimeError OpMaskedFill).
Proof.
  intros (Hnh & Hlen & Hheads & _) Hpos Hd Hlong.
  unfold MultiHeadAttention.forward. rewrite Hnh.
  destruct num_heads as [|n]; [lia|].
  destruct (MultiHeadAttention.heads m) as [|h hs] eqn:Hhs; [discriminate|].
  inversion Hheads as [|h' hs' Hh _]; subst.
  cbn [seq mapM]. rewrite !bind_unfold.
  unfold MultiHeadAttention.get_head. rewrite Hhs. cbn [nth_error].
  rewrite ret_unfold.
  rewrite (SingleHeadAttention_forward_beyond_mask _ _ _ _ h x w Hh eq_refl Hlong)
    by (unfold SingleHeadAttention.default_max_len; lia).
  reflexivity.
Qed.

Lemma TransformerLayer_forward_beyond_mask (d num_heads : nat)
    (m : TransformerLayer.t F (Tensor F)) (x : Tensor F) (w : World F) :
  TransformerLayer_shaped d num_heads m -> 0 < num_heads ->
  d2 x = d -> SingleHeadAttention.default_max_len < d1 x ->
  TransformerLayer.forward m x w = Err (RuntimeError OpMaskedFill).
Proof.
  intros (Hn1 & Hatt & _) Hpos Hd Hlong.
  destruct (LayerNorm_forward_shape d _ x Hn1 Hd) as (n1 & Hn1eq & Hs1).
  destruct (shape_dims _ _ Hs1) as (H10 & H11 & H12).
  unfold TransformerLayer.forward. rewrite Hn1eq. run_monad.
  rewrite (MultiHeadAttention_forward_beyond_mask d num_heads _ n1 w Hatt Hpos)
    by congruence.
  reflexivity.
Qed.

Lemma MiniGPT_forward_beyond_mask (config : MiniGPT.Config F) (m : MiniGPT.t F (Tensor F))
    (x : Tokens) (w : World F) :
  MiniGPT_shaped config m ->
  0 < MiniGPT.cfg_num_heads config -> 0 < MiniGPT.num_layers config ->
  tokens_in_range (MiniGPT.vocab_size config) x = true ->
  seq_len_of x <= MiniGPT.context_length config ->
  SingleHeadAttention.default_max_len < seq_len_of x ->
  MiniGPT.forward m x w = Err (RuntimeError OpMaskedFill).
Proof.
  intros Hshaped Hheads Hnl Hx Hctx Hlong.
  destruct (MiniGPT_embed_stage config m x Hshaped Hx) as (e & table & He & Hse & Ht & Hsp).
  destruct Hshaped as (_ & _ & _ & Hlen & Hlayers & _).
  destruct (tadd_positional e (slice_rows table (d1 e)) _ _ _ _ Hse Hsp) as (s & Hs & Hss).
  { lia. }
  destruct (Dropout_forward_spec (MiniGPT.embed_dropout m) s w)
    as (dr & w1 & Hdr & Hsdr & _).
  rewrite Hss in Hsdr.
  destruct (shape_dims _ (mkT _ _ _ (el dr)) Hsdr) as (Hd0 & Hd1 & Hd2).
  cbn [d0 d1 d2] in Hd0, Hd1, Hd2.
  unfold MiniGPT.forward. rewrite He. run_monad. rewrite Ht. run_monad.
  rewrite Hs. run_monad. rewrite Hdr. run_monad.
  destruct (MiniGPT.transformer_layers m) as [|l ls]; [cbn [length] in Hlen; lia|].
  inversion Hlayers as [|l' ls' Hl _]; subst.
  cbn [foldM]. rewrite bind_unfold.
  rewrite (TransformerLayer_forward_beyond_mask _ _ l dr w1 Hl Hheads Hd2) by lia.
  reflexivity.
Qed.

(** X11.  The attention heads of a [MiniGPT] are always built with the
    default mask of 512 rows, whatever [context_length] is: a model with at
    least one layer raises the shape error of [masked_fill_] on every input
    of valid tokens that is longer than 512 tokens, also when it is no
    longer than [context_length]. *)
Theorem forward_rejects_sequences_beyond_the_mask
    (config : MiniGPT.Config F) (w : World F) :
  0 < MiniGPT.cfg_num_heads config -> 0 < MiniGPT.num_layers config ->
  exists m w',
    MiniGPT.__init__ config w = Ok (m, w') /\
    forall h, same_shapes (next w) (next w') h (heap w') ->
    forall x w2,
      tokens_in_range (MiniGPT.vocab_size config) x = true ->
      seq_len_of x <= MiniGPT.context_length config ->
      512 < seq_len_of x ->
      MiniGPT.forward (MiniGPT.read h m) x w2 = Err (RuntimeError OpMaskedFill).
Proof.
  intros Hheads Hnl.
  destruct (builds_MiniGPT config Hheads w) as (m & w' & Hinit & _ & Hest).
  exists m, w'. split; [exact Hinit|].
  intros h Hh x w2 Hx Hctx Hlong. destruct (Hest h Hh) as (Hshaped & _).
  apply (MiniGPT_forward_beyond_mask config); try assumption.
Qed.

End BEYOND_THE_MASK.

(** ** Shapes in a constructed model *)

Section MINIGPT_SHAPES.
Context {F : Type} `{Scalar F} `{Random F}.

(** X12.  When [num_heads] divides [embed_dim], the forward pass of a
    constructed [MiniGPT] returns logits of shape
    [(batch, seq_len, vocab_size)] on every input of valid tokens of at
    most [context_length] and at most 512 tokens, a rank-one input
    counting as a batch of one. *)
Theorem forward_logits_shape (config : MiniGPT.Config F) (w : World F) :
  heads_fit (MiniGPT.embed_dim config) (MiniGPT.cfg_num_heads config) ->
  exists m w',
    MiniGPT.__init__ config w = Ok (m, w') /\
    forall h, same_shapes (next w) (next w') h (heap w') ->
    forall x w2,
      tokens_in_range (MiniGPT.vocab_size config) x = true ->
      seq_len_of x <= MiniGPT.context_length config ->
      seq_len_of x <= 512 ->
      exists logits w3,
        MiniGPT.forward (MiniGPT.read h m) x w2 = Ok (logits, w3) /\
        shape logits = (batch_of x, seq_len_of x, MiniGPT.vocab_size config).
Proof.
  intros Hfit.
  destruct (builds_MiniGPT config (proj1 Hfit) w) as (m & w' & Hinit & _ & Hest).
  exists m, w'. split; [exact Hinit|].
  intros h Hh x w2 Hx Hctx Hmax. destruct (Hest h Hh) as (Hshaped & _).
  apply (MiniGPT_forward_shape config); try assumption.
  left. exact Hctx.
Qed.

(** X13.  [config.feedforward_size] has no effect: the constructor of the
    layer does not pass it on, and in every layer of a constructed
    [MiniGPT] the hidden width of the feed-forward block is four times
    [embed_dim]. *)
Theorem feedforward_size_is_ignored (config : MiniGPT.Config F) (w : World F) :
  0 < MiniGPT.cfg_num_heads config ->
  exists m w',
    MiniGPT.__init__ config w = Ok (m, w') /\
    length (MiniGPT.transformer_layers m) = MiniGPT.num_layers config /\
    forall h, same_shapes (next w) (next w') h (heap w') ->
    forall layer, In layer (MiniGPT.transformer_layers (MiniGPT.read h m)) ->
      let fc1 := Linear.weight (FeedForwardLayer.fc1 (TransformerLayer.feedforward layer)) in
      let fc2 := Linear.weight (FeedForwardLayer.fc2 (TransformerLayer.feedforward layer)) in
      d1 fc1 = MiniGPT.embed_dim config * 4 /\ d2 fc1 = MiniGPT.embed_dim config /\
      d1 fc2 = MiniGPT.embed_dim config /\ d2 fc2 = MiniGPT.embed_dim config * 4.
Proof.
  intros Hheads.
  destruct (builds_MiniGPT config Hheads w) as (m & w' & Hinit & _ & Hest).
  exists m, w'. split; [exact Hinit|]. split.
  - destruct (Hest (heap w')) as ((_ & _ & _ & Hlen & _) & _); [intros l _; reflexivity|].
    cbn [MiniGPT.read MiniGPT.transformer_layers] in Hlen.
    rewrite length_fmap in Hlen. exact Hlen.
  - intros h Hh layer Hin.
    destruct (Hest h Hh) as ((_ & _ & _ & _ & Hlayers & _) & _).
    rewrite List.Forall_forall in Hlayers.
    destruct (Hlayers layer Hin) as (_ & _ & _ & ((H12 & H11 & _) & (H22 & H21 & _))).
    cbn zeta. auto.
Qed.

End MINIGPT_SHAPES.

(** ** train.py: counting the parameters *)

Section COUNT.
Context {F : Type} `{Scalar F} `{Random F}.

Lemma total_app (h : gmap loc (Tensor F)) (a b : list loc) :
  total h (a ++ b) = total h a + total h b.
Proof. unfold total. rewrite List.map_app, List.list_sum_app. reflexivity. Qed.

Lemma total_same_shapes (h h' : gmap loc (Tensor F)) (ps : list loc) :
  (forall p, In p ps -> shape (load h p) = shape (load h' p)) ->
  total h ps = total h' ps.
Proof.
  intros Hs. unfold total. f_equal. apply List.map_ext_in. intros p Hp.
  destruct (shape_dims _ _ (Hs p Hp)) as (H0' & H1' & H2').
  unfold numel. rewrite H0', H1', H2'. reflexivity.
Qed.

Lemma total_later (w w' : World F) (ps : list loc) :
  later w w' -> (forall p, In p ps -> p < next w) ->
  total (heap w') ps = total (heap w) ps.
Proof.
  intros (_ & Hs) Hps. apply total_same_shapes. intros p Hp. apply Hs.
  specialize (Hps p Hp). lia.
Qed.

Lemma remove_duplicate_fresh (memo : gset loc) (ps : list loc) :
  List.NoDup ps -> (forall p, In p ps -> p ∉ memo) -> remove_duplicate memo ps = ps.
Proof.
  intros Hnd. revert memo. induction Hnd as [|p ps Hp _ IH]; intros memo Hmemo;
    [reflexivity|].
  cbn [remove_duplicate]. destruct (decide (p ∈ memo)) as [Hin|_].
  - exfalso. apply (Hmemo p); [left; reflexivity|exact Hin].
  - f_equal. apply IH. intros q Hq Hqm.
    apply elem_of_union in Hqm as [Hqp|Hqm].
    + apply elem_of_singleton in Hqp. subst q. contradiction.
    + apply (Hmemo q); [right; exact Hq|exact Hqm].
Qed.

Lemma remove_duplicate_app (memo : gset loc) (xs ys : list loc) :
  remove_duplicate memo (xs ++ ys)
  = remove_duplicate memo xs ++ remove_duplicate (list_to_set xs ∪ memo) ys.
Proof.
  revert memo. induction xs as [|x xs IH]; intros memo.
  - cbn [app remove_duplicate list_to_set].
    replace (∅ ∪ memo) with memo by set_solver. reflexivity.
  - cbn [app remove_duplicate list_to_set]. destruct (decide (x ∈ memo)) as [Hin|Hout].
    + rewrite IH. f_equal. f_equal. set_solver.
    + cbn [app]. rewrite IH. f_equal. f_equal. f_equal. set_solver.
Qed.

Lemma filter_all_true (grad : loc -> bool) (ps : list loc) :
  (forall p, grad p = true) -> List.filter grad ps = ps.
Proof.
  intros Hg. induction ps as [|p ps IH]; [reflexivity|].
  cbn [List.filter]. rewrite Hg, IH. reflexivity.
Qed.

(** Two runs of allocations, one after the other. *)
Lemma counts_step (w w1 w2 : World F) (pa pb : list loc) (na nb : nat) :
  later w w1 -> pa = seq (next w) (next w1 - next w) -> total (heap w1) pa = na ->
  later w1 w2 -> pb = seq (next w1) (next w2 - next w1) -> total (heap w2) pb = nb ->
  later w w2 /\ pa ++ pb = seq (next w) (next w2 - next w) /\
  total (heap w2) (pa ++ pb) = na + nb.
Proof.
  intros H01 Hpa Hna H12 Hpb Hnb.
  pose proof (proj1 H01) as Hle1. pose proof (proj1 H12) as Hle2.
  split; [exact (later_trans _ _ _ H01 H12)|]. split.
  - rewrite Hpa, Hpb.
    replace (next w2 - next w) with ((next w1 - next w) + (next w2 - next w1)) by lia.
    rewrite List.seq_app. do 2 f_equal. lia.
  - rewrite total_app, Hnb, <- Hna. f_equal.
    apply total_later; [exact H12|].
    intros p Hp. rewrite Hpa in Hp. apply List.in_seq in Hp. lia.
Qed.

Lemma Linear_init_store (i o : nat) (b : bool) (w : World F) :
  exists m w',
    Linear.__init__ i o b w = Ok (m, w') /\
    Linear.weight m = next w /\
    Linear.bias m = (if b then Some (S (next w)) else None) /\
    next w' = (if b then 2 else 1) + next w /\
    shape (load (heap w') (next w)) = (1, o, i) /\
    (b = true -> shape (load (heap w') (S (next w))) = (1, 1, o)).
Proof.
  unfold Linear.__init__. run_monad. unfold draw_uniform at 1.
  destruct (uniform (gen w) _ _) as [v0 g0].
  run_monad. unfold alloc at 1. run_monad. cbn [gen heap next].
  destruct b.
  - run_monad. unfold draw_uniform at 1. cbn [gen heap next].
    destruct (uniform g0 (fsub fzero (fdiv fone (fsqrt (of_nat i))))
                (fdiv fone (fsqrt (of_nat i)))) as [v1 g1].
    run_monad. unfold alloc at 1. run_monad. cbn [gen heap next].
    eexists _, _. split; [reflexivity|]. cbn [Linear.weight Linear.bias heap next].
    repeat (split; [reflexivity|]).
    split; [|intros _].
    + rewrite load_insert_ne by lia. rewrite load_insert_eq. reflexivity.
    + rewrite load_insert_eq. reflexivity.
  - eexists _, _. split; [reflexivity|]. cbn [Linear.weight Linear.bias heap next].
    repeat (split; [reflexivity|]).
    split; [|discriminate]. rewrite load_insert_eq. reflexivity.
Qed.

Lemma counts_Linear (i o : nat) (b : bool) :
  counts (Linear.__init__ i o b) (o * i + (if b then o else 0)).
Proof.
  intros w m w' Hinit.
  split; [exact (builds_later _ _ _ _ _ (builds_Linear i o b) Hinit)|].
  destruct (Linear_init_store i o b w) as (m1 & w1 & H1 & Hw & Hb & Hn & Hsw & Hsb).
  rewrite Hinit in H1. injection H1 as <- <-.
  unfold named_parameters, Linear_Module. rewrite Hw, Hb, Hn.
  destruct (shape_dims _ (mkT 1 o i (el (load (heap w') (next w)))) Hsw) as (A0 & A1 & A2).
  cbn [d0 d1 d2] in A0, A1, A2.
  destruct b.
  - destruct (shape_dims _ (mkT 1 1 o (el (load (heap w') (S (next w))))) (Hsb eq_refl))
      as (B0 & B1 & B2).
    cbn [d0 d1 d2] in B0, B1, B2.
    replace (2 + next w - next w) with 2 by lia. split; [reflexivity|].
    unfold total, numel. cbn [map list_sum fold_right]. rewrite A0, A1, A2, B0, B1, B2. rewrite !Nat.mul_1_l. lia.
  - replace (1 + next w - next w) with 1 by lia. split; [reflexivity|].
    unfold total, numel. cbn [map list_sum fold_right]. rewrite A0, A1, A2. rewrite !Nat.mul_1_l. lia.
Qed.

Lemma Embedding_init_store (n d : nat) (w : World F) :
  exists m w',
    Embedding.__init__ n d w = Ok (m, w') /\
    Embedding.weight m = next w /\ next w' = S (next w) /\
    shape (load (heap w') (next w)) = (1, n, d).
Proof.
  unfold Embedding.__init__. run_monad. unfold draw_normal at 1.
  destruct (normal (gen w) fzero fone) as [v0 g0].
  run_monad. unfold alloc at 1. run_monad. cbn [gen heap next].
  eexists _, _. split; [reflexivity|]. cbn [Embedding.weight heap next].
  repeat (split; [reflexivity|]). rewrite load_insert_eq. reflexivity.
Qed.

Lemma counts_Embedding (n d : nat) : counts (Embedding.__init__ n d) (n * d).
Proof.
  intros w m w' Hinit.
  split; [exact (builds_later _ _ _ _ _ (builds_Embedding n d) Hinit)|].
  destruct (Embedding_init_store n d w) as (m1 & w1 & H1 & Hw & Hn & Hsw).
  rewrite Hinit in H1. injection H1 as <- <-.
  unfold named_parameters, Embedding_Module. rewrite Hw, Hn.
  destruct (shape_dims _ (mkT 1 n d (el (load (heap w') (next w)))) Hsw) as (A0 & A1 & A2).
  cbn [d0 d1 d2] in A0, A1, A2.
  replace (S (next w) - next w) with 1 by lia. split; [reflexivity|].
  unfold total, numel. cbn [map list_sum fold_right]. rewrite A0, A1, A2, !Nat.mul_1_l. lia.
Qed.

(** The constructor of a [LayerNorm] with its affine parameters: [gamma]
    holds ones and [beta] holds zeros. *)
Lemma LayerNorm_init_store (d : nat) (eps : F) (w : World F) :
  exists w',
    LayerNorm.__init__ d eps true w
    = Ok (LayerNorm.mk d eps true (Some (next w)) (Some (S (next w))), w') /\
    next w' = S (S (next w)) /\
    load (heap w') (next w) = ones1 d /\
    load (heap w') (S (next w)) = zeros1 d /\
    forall l, l < next w -> load (heap w') l = load (heap w) l.
Proof.
  unfold LayerNorm.__init__. run_monad. unfold alloc. run_monad. cbn [gen heap next].
  eexists. split; [reflexivity|]. cbn [heap next]. split; [reflexivity|].
  split; [rewrite load_insert_ne by lia; apply load_insert_eq|].
  split; [apply load_insert_eq|].
  intros l Hl. rewrite !load_insert_ne by lia. reflexivity.
Qed.

Lemma counts_LayerNorm (d : nat) (eps : F) : counts (LayerNorm.__init__ d eps true) (2 * d).
Proof.
  intros w m w' Hinit.
  split; [exact (builds_later _ _ _ _ _ (builds_LayerNorm d eps) Hinit)|].
  destruct (LayerNorm_init_store d eps w) as (w1 & H1 & Hn & Hg & Hb & _).
  rewrite Hinit in H1. injection H1 as -> <-.
  unfold named_parameters, LayerNorm_Module. cbn [LayerNorm.gamma LayerNorm.beta app].
  rewrite Hn. replace (S (S (next w)) - next w) with 2 by lia. split; [reflexivity|].
  unfold total, numel. cbn [map list_sum fold_right]. rewrite Hg, Hb.
  cbn [ones1 zeros1 d0 d1 d2]. lia.
Qed.

Lemma counts_SingleHeadAttention (d : nat) (kq v : option nat) (p : F) (max_len : nat) :
  counts (SingleHeadAttention.__init__ d kq v p max_len)
         (or_default kq d * d + (or_default kq d * d + or_default v d * d)).
Proof.
  intros w m w' Hinit.
  destruct (SingleHeadAttention_init_inv _ _ _ _ _ _ _ _ Hinit)
    as (key & w1 & query & w2 & value & Hk & Hq & Hv & ->).
  destruct (counts_Linear _ _ _ _ _ _ Hk) as (Lk & Pk & Tk).
  destruct (counts_Linear _ _ _ _ _ _ Hq) as (Lq & Pq & Tq).
  destruct (counts_Linear _ _ _ _ _ _ Hv) as (Lv & Pv & Tv).
  destruct (counts_step _ _ _ _ _ _ _ Lq Pq Tq Lv Pv Tv) as (Lqv & Pqv & Tqv).
  destruct (counts_step _ _ _ _ _ _ _ Lk Pk Tk Lqv Pqv Tqv) as (L & P & T).
  split; [exact L|]. split; [exact P|]. etransitivity; [exact T|lia].
Qed.

Lemma counts_mapM {A T : Type} `{NNModule T} (f : A -> M F T) (n : nat) (xs : list A) :
  (forall a, counts (f a) n) ->
  forall w ms w', mapM f xs w = Ok (ms, w') ->
    later w w' /\
    concat (map named_parameters ms) = seq (next w) (next w' - next w) /\
    total (heap w') (concat (map named_parameters ms)) = length xs * n.
Proof.
  intros Hf. induction xs as [|a xs IH]; intros w ms w' Hmap.
  - cbn [mapM] in Hmap. rewrite ret_unfold in Hmap. injection Hmap as <- <-.
    split; [apply later_refl|]. rewrite Nat.sub_diag. split; reflexivity.
  - cbn [mapM] in Hmap.
    apply bind_ok in Hmap as (y & w1 & Hy & Hmap).
    apply bind_ok in Hmap as (ys & w2 & Hys & Hmap).
    rewrite ret_unfold in Hmap. injection Hmap as <- <-.
    destruct (Hf a _ _ _ Hy) as (La & Pa & Ta).
    destruct (IH _ _ _ Hys) as (Lr & Pr & Tr).
    destruct (counts_step _ _ _ _ _ _ _ La Pa Ta Lr Pr Tr) as (L & P & Tt).
    cbn [map concat length]. split; [exact L|]. split; [exact P|].
    etransitivity; [exact Tt|lia].
Qed.

Lemma counts_head (d num_heads : nat) :
  counts (SingleHeadAttention.__init__ d (Some (d / num_heads)) (Some (d / num_heads))
            SingleHeadAttention.default_dropout SingleHeadAttention.default_max_len)
         (3 * (head_width d num_heads * d)).
Proof.
  intros w m w' Hinit.
  destruct (counts_SingleHeadAttention _ _ _ _ _ _ _ _ Hinit) as (L & P & T).
  split; [exact L|]. split; [exact P|]. rewrite T. unfold head_width. lia.
Qed.

Lemma counts_MultiHeadAttention (d num_heads : nat) (p : F) :
  counts (MultiHeadAttention.__init__ d num_heads p)
         (num_heads * (3 * (head_width d num_heads * d)) + (d * d + d)).
Proof.
  intros w m w' Hinit.
  destruct (MultiHeadAttention_init_inv _ _ _ _ _ _ Hinit)
    as (Hpos & heads & w1 & out & Hheads & Hout & ->).
  destruct (counts_mapM _ _ _ (fun _ => counts_head d num_heads) _ _ _ Hheads)
    as (Lh & Ph & Th).
  destruct (counts_Linear _ _ _ _ _ _ Hout) as (Lo & Po & To).
  destruct (counts_step _ _ _ _ _ _ _ Lh Ph Th Lo Po To) as (L & P & T).
  split; [exact L|]. split; [exact P|].
  etransitivity; [exact T|rewrite List.length_seq; reflexivity].
Qed.

Lemma counts_FeedForwardLayer (d : nat) (p : F) :
  counts (FeedForwardLayer.__init__ d None p) ((d * 4 * d + d * 4) + (d * (d * 4) + d)).
Proof.
  intros w m w' Hinit. unfold FeedForwardLayer.__init__ in Hinit.
  apply bind_ok in Hinit as (fc1 & w1 & H1 & Hinit).
  apply bind_ok in Hinit as (fc2 & w2 & H2 & Hinit).
  rewrite ret_unfold in Hinit. injection Hinit as <- <-.
  destruct (counts_Linear _ _ _ _ _ _ H1) as (L1 & P1 & T1).
  destruct (counts_Linear _ _ _ _ _ _ H2) as (L2 & P2 & T2).
  destruct (counts_step _ _ _ _ _ _ _ L1 P1 T1 L2 P2 T2) as (L & P & T).
  split; [exact L|]. split; [exact P|exact T].
Qed.

Lemma counts_TransformerLayer (d num_heads : nat) (ff : option nat) :
  counts (TransformerLayer.__init__ d num_heads ff) (layer_parameter_count d num_heads).
Proof.
  intros w m w' Hinit. unfold TransformerLayer.__init__ in Hinit.
  apply bind_ok in Hinit as (n1 & w1 & H1 & Hinit).
  apply bind_ok in Hinit as (att & w2 & H2 & Hinit).
  apply bind_ok in Hinit as (n2 & w3 & H3 & Hinit).
  apply bind_ok in Hinit as (ffl & w4 & H4 & Hinit).
  rewrite ret_unfold in Hinit. injection Hinit as <- <-.
  destruct (counts_LayerNorm _ _ _ _ _ H1) as (L1 & P1 & T1).
  destruct (counts_MultiHeadAttention _ _ _ _ _ _ H2) as (L2 & P2 & T2).
  destruct (counts_LayerNorm _ _ _ _ _ H3) as (L3 & P3 & T3).
  destruct (counts_FeedForwardLayer _ _ _ _ _ H4) as (L4 & P4 & T4).
  destruct (counts_step _ _ _ _ _ _ _ L3 P3 T3 L4 P4 T4) as (L34 & P34 & T34).
  destruct (counts_step _ _ _ _ _ _ _ L2 P2 T2 L34 P34 T34) as (L24 & P24 & T24).
  destruct (counts_step _ _ _ _ _ _ _ L1 P1 T1 L24 P24 T24) as (L & P & T).
  split; [exact L|]. split; [exact P|].
  etransitivity; [exact T|unfold layer_parameter_count; lia].
Qed.

Lemma remove_duplicate_seq (lo k : nat) : remove_duplicate ∅ (seq lo k) = seq lo k.
Proof.
  apply remove_duplicate_fresh; [apply List.seq_NoDup|].
  intros p _. apply not_elem_of_empty.
Qed.

(** X14.  When every parameter requires a gradient, [count_parameters]
    of a constructed bigram model is [2 * vocab_size * embed_dim +
    vocab_size]: the embedding table, the weight of the linear layer and
    its bias. *)
Theorem count_parameters_of_the_bigram_model
    (config : BigramLanguageModel.Config F) (requires_grad : loc -> bool) (w : World F) :
  (forall p, requires_grad p = true) ->
  exists m w',
    BigramLanguageModel.__init__ config w = Ok (m, w') /\
    forall h, same_shapes (next w) (next w') h (heap w') ->
      count_parameters requires_grad h m
      = 2 * (BigramLanguageModel.vocab_size config * BigramLanguageModel.embed_dim config)
        + BigramLanguageModel.vocab_size config.
Proof.
  intros Hgrad.
  destruct (Bigram_init_store config w)
    as (m & w' & Hinit & He & Hl & Hb & Hn & Hse & Hsl & Hzero).
  exists m, w'. split; [exact Hinit|].
  intros h Hh. unfold count_parameters, parameters.
  rewrite (filter_all_true _ _ Hgrad). fold (total h (remove_duplicate ∅ (named_parameters m))).
  assert (Hnamed : named_parameters m = seq (next w) 3).
  { unfold named_parameters, BigramLanguageModel_Module.
    unfold named_parameters, Embedding_Module, Linear_Module.
    rewrite He, Hl, Hb. reflexivity. }
  rewrite Hnamed, remove_duplicate_seq.
  rewrite (total_same_shapes h (heap w')).
  2:{ intros p Hp. apply List.in_seq in Hp. apply Hh. lia. }
  unfold total, numel. cbn [seq map list_sum fold_right].
  destruct (shape_dims _ (mkT _ _ _ (el (load (heap w') (next w)))) Hse) as (A0 & A1 & A2).
  destruct (shape_dims _ (mkT _ _ _ (el (load (heap w') (S (next w))))) Hsl) as (B0 & B1 & B2).
  cbn [d0 d1 d2] in A0, A1, A2, B0, B1, B2.
  rewrite A0, A1, A2, B0, B1, B2, Hzero. cbn [d0 d1 d2]. lia.
Qed.

(** X15.  When every parameter requires a gradient, [count_parameters]
    of a constructed [MiniGPT] is the number of elements of the token and
    positional embedding tables, of the parameters of every layer, of the
    final norm and of the bias of the head, plus the weight of the head
    when the weights are not tied: a tied weight is one parameter object
    and is counted once. *)
Theorem count_parameters_of_the_model
    (config : MiniGPT.Config F) (requires_grad : loc -> bool) (w : World F) :
  0 < MiniGPT.cfg_num_heads config ->
  (forall p, requires_grad p = true) ->
  exists m w',
    MiniGPT.__init__ config w = Ok (m, w') /\
    forall h, same_shapes (next w) (next w') h (heap w') ->
      count_parameters requires_grad h m = model_parameter_count config.
Proof.
  intros Hheads Hgrad.
  destruct (builds_MiniGPT config Hheads w) as (m & w' & Hinit & _).
  exists m, w'. split; [exact Hinit|].
  destruct (MiniGPT_init_inv _ _ _ _ Hinit)
    as (ve & w1 & pe & w2 & layers & w3 & pn & w4 & head & w5
        & Hve & Hpe & Hlayers & Hpn & Hhead & Hm & Happly).
  destruct (counts_Embedding _ _ _ _ _ Hve) as (Lv & Pv & Tv).
  destruct (counts_Embedding _ _ _ _ _ Hpe) as (Lp & Pp & Tp).
  destruct (counts_mapM _ _ _
              (fun _ => counts_TransformerLayer (MiniGPT.embed_dim config)
                          (MiniGPT.cfg_num_heads config) (MiniGPT.feedforward_size config))
              _ _ _ Hlayers) as (Ll & Pl & Tl).
  destruct (counts_LayerNorm _ _ _ _ _ Hpn) as (Ln & Pn & Tn).
  destruct (counts_step _ _ _ _ _ _ _ Ll Pl Tl Ln Pn Tn) as (L24 & P24 & T24).
  destruct (counts_step _ _ _ _ _ _ _ Lp Pp Tp L24 P24 T24) as (L14 & P14 & T14).
  destruct (counts_step _ _ _ _ _ _ _ Lv Pv Tv L14 P14 T14) as (L04 & P04 & T04).
  set (body := named_parameters ve ++ named_parameters pe
               ++ concat (map named_parameters layers) ++ named_parameters pn) in *.
  destruct (Embedding_init_loc _ _ _ _ _ Hve) as (Hvloc & Hn1).
  destruct (Linear_init_store (MiniGPT.embed_dim config) (MiniGPT.vocab_size config) true w4)
    as (head1 & w5' & Hhead1 & Hhw & Hhb & Hn5 & Hshw & Hshb).
  rewrite Hhead in Hhead1. injection Hhead1 as <- <-.
  pose proof (builds_later _ _ _ _ _ (builds_Linear _ _ _) Hhead) as L45.
  destruct (keeps_shapes_apply m w5) as ([] & w6 & Happly' & Hn6 & Hs6).
  rewrite Happly in Happly'. injection Happly' as <-.
  assert (Hnamed : named_parameters m = body ++ named_parameters (MiniGPT.head m)).
  { rewrite Hm. unfold named_parameters at 1, MiniGPT_Module.
    cbn [MiniGPT.vocab_embedding MiniGPT.positional_embedding MiniGPT.transformer_layers
         MiniGPT.prehead_norm MiniGPT.head].
    unfold body. rewrite <- !app_assoc. reflexivity. }
  pose proof (proj1 L04) as Hle04. pose proof (proj1 L14) as Hle14.
  assert (Hbody5 : total (heap w5) body = MiniGPT.vocab_size config * MiniGPT.embed_dim config
                    + (MiniGPT.context_length config * MiniGPT.embed_dim config
                       + (length (seq 0 (MiniGPT.num_layers config))
                          * layer_parameter_count (MiniGPT.embed_dim config)
                              (MiniGPT.cfg_num_heads config)
                          + 2 * MiniGPT.embed_dim config))).
  { rewrite <- T04. apply total_later; [exact L45|].
    intros p Hp. rewrite P04 in Hp. apply List.in_seq in Hp. lia. }
  rewrite List.length_seq in Hbody5.
  assert (Hbias : numel (load (heap w5) (S (next w4))) = MiniGPT.vocab_size config).
  { destruct (shape_dims _ (mkT _ _ _ (el (load (heap w5) (S (next w4))))) (Hshb eq_refl))
      as (B0 & B1 & B2).
    cbn [d0 d1 d2] in B0, B1, B2. unfold numel. rewrite B0, B1, B2. lia. }
  assert (Hweight : numel (load (heap w5) (next w4))
                    = MiniGPT.vocab_size config * MiniGPT.embed_dim config).
  { destruct (shape_dims _ (mkT _ _ _ (el (load (heap w5) (next w4)))) Hshw)
      as (B0 & B1 & B2).
    cbn [d0 d1 d2] in B0, B1, B2. unfold numel. rewrite B0, B1, B2. lia. }
  intros h Hh. unfold count_parameters, parameters.
  rewrite (filter_all_true _ _ Hgrad). fold (total h (remove_duplicate ∅ (named_parameters m))).
  assert (Htotal : forall ps, (forall p, In p ps -> next w <= p < next w5) ->
                     total h ps = total (heap w5) ps).
  { intros ps Hps. apply total_same_shapes. intros p Hp.
    rewrite (Hh p) by (specialize (Hps p Hp); lia). apply Hs6. }
  rewrite P04 in Hnamed, Hbody5.
  rewrite Hnamed, Hm. cbn [MiniGPT.head]. unfold model_parameter_count. cbn zeta.
  destruct (MiniGPT.weight_tie config).
  - assert (Hhead_ps : named_parameters (MiniGPT.tie head ve) = [next w; S (next w4)]).
    { unfold named_parameters, Linear_Module. cbn [MiniGPT.tie Linear.weight Linear.bias].
      rewrite Hvloc, Hhb. reflexivity. }
    rewrite Hhead_ps, remove_duplicate_app, remove_duplicate_seq.
    cbn [remove_duplicate].
    match goal with |- context [decide ?P] => destruct (decide P) as [_|Hout] end.
    2:{ exfalso. apply Hout. apply elem_of_union. left.
        apply elem_of_list_to_set, list_elem_of_In, List.in_seq. lia. }
    match goal with |- context [decide ?P] => destruct (decide P) as [Hin|_] end.
    { exfalso. apply elem_of_union in Hin as [Hin|Hin];
        [|exact (not_elem_of_empty _ Hin)].
      apply elem_of_list_to_set, list_elem_of_In, List.in_seq in Hin. lia. }
    rewrite total_app, !Htotal, Hbody5.
    + unfold total. cbn [map list_sum fold_right]. rewrite Hbias. lia.
    + intros p [<-|[]]. lia.
    + intros p Hp. apply List.in_seq in Hp. lia.
  - assert (Hhead_ps : named_parameters head = seq (next w4) 2).
    { unfold named_parameters, Linear_Module. rewrite Hhw, Hhb. reflexivity. }
    rewrite Hhead_ps.
    replace (seq (next w4) 2) with (seq (next w + (next w4 - next w)) 2) by (f_equal; lia).
    rewrite <- List.seq_app, remove_duplicate_seq, List.seq_app, total_app.
    replace (next w + (next w4 - next w)) with (next w4) by lia.
    rewrite (Htotal (seq (next w) (next w4 - next w))), (Htotal (seq (next w4) 2)), Hbody5.
    + unfold total. cbn [seq map list_sum fold_right]. rewrite Hbias, Hweight. lia.
    + intros p Hp. apply List.in_seq in Hp. lia.
    + intros p Hp. apply List.in_seq in Hp. lia.
Qed.

End COUNT.

(** ** The constructor of the model: edge cases and initial values *)

Section MINIGPT_CONSTRUCTOR.
Context {F : Type} `{Scalar F} `{Random F}.

Lemma forM_app {A : Type} (f : A -> M F unit) (xs ys : list A) (w : World F) :
  forM_ f (xs ++ ys) w
  = match forM_ f xs w with Ok (_, w1) => forM_ f ys w1 | Err e => Err e end.
Proof.
  revert w. induction xs as [|x xs IH]; intros w; [reflexivity|].
  cbn [app forM_]. rewrite !bind_unfold.
  destruct (f x w) as [[[] w1]|e]; [apply IH|reflexivity].
Qed.

Lemma TransformerLayer_init_zero (d : nat) (ff : option nat) (w : World F) :
  TransformerLayer.__init__ d 0 ff w = Err ZeroDivisionError.
Proof.
  unfold TransformerLayer.__init__.
  destruct (builds_LayerNorm d LayerNorm.default_eps w) as (n1 & w1 & Hn1 & _).
  rewrite (bind_step _ _ _ _ _ Hn1), bind_unfold, MultiHeadAttention_init_zero.
  reflexivity.
Qed.


(** X17.  Without weight tying the head of a constructed model keeps the
    parameter its own constructor allocated: it is not the parameter of
    the embedding table, and a write in place through the head leaves the
    embedding table as it was. *)
Theorem untied_head_is_independent (config : MiniGPT.Config F) (w : World F) :
  MiniGPT.weight_tie config = false ->
  0 < MiniGPT.cfg_num_heads config ->
  exists m w',
    MiniGPT.__init__ config w = Ok (m, w') /\
    Linear.weight (MiniGPT.head m) <> Embedding.weight (MiniGPT.vocab_embedding m) /\
    forall v, exists w2,
      fill_ (Linear.weight (MiniGPT.head m)) v w' = Ok (tt, w2) /\
      load (heap w2) (Embedding.weight (MiniGPT.vocab_embedding m))
      = load (heap w') (Embedding.weight (MiniGPT.vocab_embedding m)).
Proof.
  intros Htie Hheads.
  destruct (builds_MiniGPT config Hheads w) as (m & w' & Hinit & _).
  exists m, w'. split; [exact Hinit|].
  pose proof (untied_head_has_its_own_weight config w m w' Htie Hheads Hinit) as Hne.
  split; [exact Hne|].
  intros v. eexists. split; [reflexivity|].
  cbn [heap]. apply load_insert_ne. exact Hne.
Qed.

(** X18.  After the constructor, the bias of the head of the model holds
    [vocab_size] zeros: [_init_weights] visits the head last among the
    layers with parameters and zeroes its bias in place. *)
Theorem head_bias_starts_at_zero (config : MiniGPT.Config F) (w : World F) :
  0 < MiniGPT.cfg_num_heads config ->
  exists m w' bias,
    MiniGPT.__init__ config w = Ok (m, w') /\
    Linear.bias (MiniGPT.head m) = Some bias /\
    shape (load (heap w') bias) = (1, 1, MiniGPT.vocab_size config) /\
    forall i j k, el (load (heap w') bias) i j k = fzero.
Proof.
  intros Hheads.
  destruct (builds_MiniGPT config Hheads w) as (m & w' & Hinit & _).
  destruct (MiniGPT_init_inv _ _ _ _ Hinit)
    as (ve & w1 & pe & w2 & layers & w3 & pn & w4 & head & w5
        & _ & _ & _ & _ & Hhead & Hm & Happly).
  destruct (Linear_init_store (MiniGPT.embed_dim config) (MiniGPT.vocab_size config) true w4)
    as (head1 & w5' & Hhead1 & _ & Hhb & _ & _ & Hshb).
  rewrite Hhead in Hhead1. injection Hhead1 as <- <-.
  exists m, w', (S (next w4)). split; [exact Hinit|].
  assert (Hbias : Linear.bias (MiniGPT.head m) = Some (S (next w4))).
  { rewrite Hm. cbn [MiniGPT.head]. destruct (MiniGPT.weight_tie config); exact Hhb. }
  split; [exact Hbias|]. split.
  - destruct (keeps_shapes_apply m w5) as ([] & w6 & Happly' & _ & Hs6).
    rewrite Happly in Happly'. injection Happly' as <-.
    rewrite Hs6. apply Hshb. reflexivity.
  - unfold MiniGPT.apply, MiniGPT.modules in Happly.
    rewrite !app_assoc in Happly. rewrite forM_app in Happly.
    match type of Happly with context [forM_ ?f ?xs w5] =>
      destruct (keeps_shapes_forM f xs (keeps_shapes_init_weights m) w5)
        as ([] & w6 & Hprefix & _)
    end.
    rewrite Hprefix in Happly. cbn [forM_ MiniGPT._init_weights] in Happly.
    rewrite Hbias in Happly.
    cbn [MiniGPT._get_name Linear._get_name String.eqb Ascii.eqb Bool.eqb] in Happly.
    unfold normal_ at 1, draw_normal at 1 in Happly.
    repeat (rewrite ?bind_unfold, ?ret_unfold in Happly; cbn beta iota in Happly).
    destruct (normal (gen w6) _ _) as [v g].
    unfold zeros_, fill_ in Happly.
    repeat (rewrite ?bind_unfold, ?ret_unfold in Happly; cbn beta iota in Happly).
    injection Happly as <-. intros i j k. cbn [heap].
    rewrite load_insert_eq. reflexivity.
Qed.

End MINIGPT_CONSTRUCTOR.

(** ** EncoderBlock and Encoder *)

Section ENCODER.
Context {F : Type} `{Scalar F} `{Random F}.

Lemma builds_EncoderBlock (d num_heads : nat) (ff : option nat) :
  0 < num_heads ->
  builds (EncoderBlock.__init__ d num_heads ff)
         (fun m h => EncoderBlock_shaped d num_heads (EncoderBlock.read h m)).
Proof.
  intros Hpos. unfold EncoderBlock.__init__.
  eapply builds_impl; [|apply builds_bind with
      (Q1 := fun m h => MultiHeadAttention_shaped d num_heads (MultiHeadAttention.read h m))
      (Q2 := fun att m h => exists n1 f n2,
                 LayerNorm_shaped d (LayerNorm.read h n1) /\
                 FeedForwardLayer_shaped d (FeedForwardLayer.read h f) /\
                 LayerNorm_shaped d (LayerNorm.read h n2) /\
                 m = EncoderBlock.mk att n1 f n2)].
  - intros m h (att & Ha & n1 & f & n2 & H1 & Hf & H2 & ->).
    exact (conj Ha (conj H1 (conj Hf H2))).
  - apply builds_MultiHeadAttention. exact Hpos.
  - intros att.
    eapply builds_impl; [|apply builds_bind with
        (Q1 := fun m h => LayerNorm_shaped d (LayerNorm.read h m))
        (Q2 := fun n1 m h => exists f n2,
                   FeedForwardLayer_shaped d (FeedForwardLayer.read h f) /\
                   LayerNorm_shaped d (LayerNorm.read h n2) /\
                   m = EncoderBlock.mk att n1 f n2)].
    + intros m h (n1 & H1 & f & n2 & Hf & H2 & ->). exists n1, f, n2. auto.
    + apply builds_LayerNorm.
    + intros n1.
      eapply builds_impl; [|apply builds_bind with
          (Q1 := fun m h => FeedForwardLayer_shaped d (FeedForwardLayer.read h m))
          (Q2 := fun f m h => exists n2,
                     LayerNorm_shaped d (LayerNorm.read h n2) /\
                     m = EncoderBlock.mk att n1 f n2)].
      * intros m h (f & Hf & n2 & H2 & ->). exists f, n2. auto.
      * apply builds_FeedForwardLayer.
      * intros f.
        eapply builds_impl; [|apply builds_bind with
            (Q1 := fun m h => LayerNorm_shaped d (LayerNorm.read h m))
            (Q2 := fun n2 m _ => m = EncoderBlock.mk att n1 f n2)].
        -- intros m h (n2 & H2 & ->). exists n2. auto.
        -- apply builds_LayerNorm.
        -- intros n2. apply builds_ret.
Qed.

(** The block up to its second residual sum: what the final norm is
    applied to. *)
Lemma EncoderBlock_forward_residual (d num_heads : nat)
    (m : EncoderBlock.t F (Tensor F)) (x : Tensor F) (w : World F) :
  EncoderBlock_shaped d num_heads m -> heads_fit d num_heads ->
  d2 x = d -> d1 x <= SingleHeadAttention.default_max_len ->
  exists residual w',
    shape residual = shape x /\
    EncoderBlock.forward m x w
    = (out ← lift (LayerNorm.forward (EncoderBlock.norm2 m) residual); mret out) w'.
Proof.
  intros (Hatt & Hn1 & Hff & Hn2) Hfit Hd Hn.
  destruct (MultiHeadAttention_forward_shape d num_heads _ x w Hatt Hfit Hd Hn)
    as (a & w1 & Ha & Hsa).
  destruct (broadcast2_same OpAdd fadd a x Hsa) as (r1 & Hr1 & Hsr1 & _).
  destruct (shape_dims _ _ Hsa) as (Ha0 & Ha1 & Ha2).
  destruct (shape_dims _ _ Hsr1) as (Hr0 & Hr1' & Hr2).
  destruct (LayerNorm_forward_shape d _ r1 Hn1) as (cache & Hcache & Hsc); [congruence|].
  destruct (shape_dims _ _ Hsc) as (Hc0 & Hc1 & Hc2).
  destruct (FeedForwardLayer_forward_shape d _ cache w1 Hff) as (f & w2 & Hf & Hsf);
    [congruence|].
  destruct (broadcast2_same OpAdd fadd f cache Hsf) as (r2 & Hr2eq & Hsr2 & _).
  exists r2, w2. split; [congruence|].
  unfold EncoderBlock.forward. rewrite (bind_step _ _ _ _ _ Ha).
  unfold tadd. rewrite Hr1. run_monad. rewrite Hcache. run_monad.
  rewrite Hf. rewrite Hr2eq. run_monad. reflexivity.
Qed.

Lemma EncoderBlock_forward_shape (d num_heads : nat)
    (m : EncoderBlock.t F (Tensor F)) (x : Tensor F) (w : World F) :
  EncoderBlock_shaped d num_heads m -> heads_fit d num_heads ->
  d2 x = d -> d1 x <= SingleHeadAttention.default_max_len ->
  exists y w', EncoderBlock.forward m x w = Ok (y, w') /\ shape y = shape x.
Proof.
  intros Hshaped Hfit Hd Hn.
  destruct (EncoderBlock_forward_residual d num_heads m x w Hshaped Hfit Hd Hn)
    as (r & w' & Hsr & Hfwd).
  destruct Hshaped as (_ & _ & _ & Hn2).
  destruct (shape_dims _ _ Hsr) as (Hr0 & Hr1 & Hr2).
  destruct (LayerNorm_forward_shape d _ r Hn2) as (y & Hy & Hsy); [congruence|].
  exists y, w'. split; [|congruence].
  rewrite Hfwd, Hy. run_monad. reflexivity.
Qed.

Lemma EncoderBlocks_forward_shape (d num_heads : nat)
    (blocks : list (EncoderBlock.t F (Tensor F))) (x : Tensor F) (w : World F) :
  Forall (EncoderBlock_shaped d num_heads) blocks -> heads_fit d num_heads ->
  d2 x = d -> d1 x <= SingleHeadAttention.default_max_len ->
  exists y w', foldM EncoderBlock.forward blocks x w = Ok (y, w') /\ shape y = shape x.
Proof.
  intros Hblocks Hfit. revert x w.
  induction Hblocks as [|m blocks Hm Hrest IH]; intros x w Hd Hn.
  - exists x, w. split; reflexivity.
  - destruct (EncoderBlock_forward_shape d num_heads m x w Hm Hfit Hd Hn)
      as (y1 & w1 & Hy1 & Hs1).
    destruct (shape_dims _ _ Hs1) as (H0' & H1' & H2').
    destruct (IH y1 w1) as (y & w' & Hy & Hs); [congruence|lia|].
    exists y, w'. split; [|congruence].
    cbn [foldM]. rewrite (bind_step _ _ _ _ _ Hy1). exact Hy.
Qed.

(** X19.  When [num_heads] divides [input_dim], a constructed
    [EncoderBlock] returns, for every value of its parameters and on every
    input of [input_dim] features and at most 512 tokens, an output of the
    shape of its input. *)
Theorem encoder_block_keeps_the_shape (d num_heads : nat) (ff : option nat) (w : World F) :
  heads_fit d num_heads ->
  exists m w',
    EncoderBlock.__init__ d num_heads ff w = Ok (m, w') /\
    forall h, same_shapes (next w) (next w') h (heap w') ->
    forall x w2, d2 x = d -> d1 x <= 512 ->
      exists y w3,
        EncoderBlock.forward (EncoderBlock.read h m) x w2 = Ok (y, w3) /\
        shape y = shape x.
Proof.
  intros Hfit.
  destruct (builds_EncoderBlock d num_heads ff (proj1 Hfit) w) as (m & w' & Hinit & _ & Hest).
  exists m, w'. split; [exact Hinit|].
  intros h Hh x w2 Hd Hn.
  apply (EncoderBlock_forward_shape d num_heads); try assumption.
  apply Hest, Hh.
Qed.

Lemma builds_Encoder (config : MiniGPT.Config F) :
  0 < MiniGPT.cfg_num_heads config ->
  builds (Encoder.__init__ config)
         (fun m h => Encoder_shaped config (Encoder.read h m)).
Proof.
  intros Hpos. unfold Encoder.__init__.
  set (V := MiniGPT.vocab_size config). set (D := MiniGPT.embed_dim config).
  set (C := MiniGPT.context_length config). set (NH := MiniGPT.cfg_num_heads config).
  set (finish := fun (ve pe : Embedding.t loc) (blocks : list (EncoderBlock.t F loc)) =>
    Encoder.mk ve pe (Dropout.__init__ (MiniGPT.cfg_embed_dropout config)) blocks (arange C)).
  eapply builds_impl; [|apply builds_bind with
      (Q1 := fun m h => shape (Embedding.weight (Embedding.read h m)) = (1, V, D))
      (Q2 := fun ve m h => exists pe blocks,
                 shape (Embedding.weight (Embedding.read h pe)) = (1, C, D) /\
                 (length blocks = MiniGPT.num_layers config /\
                  Forall (fun b => EncoderBlock_shaped D NH (EncoderBlock.read h b)) blocks) /\
                 m = finish ve pe blocks)].
  - intros m h (ve & Hve & pe & blocks & Hpe & (Hlen & Hblocks) & ->).
    unfold Encoder_shaped, finish.
    cbn [Encoder.read Encoder.vocab_embedding Encoder.positional_embedding Encoder.pos
         Encoder.encoder_blocks].
    split; [exact Hve|]. split; [exact Hpe|]. split; [reflexivity|].
    split; [rewrite length_fmap; exact Hlen|]. apply Forall_fmap. exact Hblocks.
  - apply builds_Embedding.
  - intros ve.
    eapply builds_impl; [|apply builds_bind with
        (Q1 := fun m h => shape (Embedding.weight (Embedding.read h m)) = (1, C, D))
        (Q2 := fun pe m h => exists blocks,
                   (length blocks = MiniGPT.num_layers config /\
                    Forall (fun b => EncoderBlock_shaped D NH (EncoderBlock.read h b))
                           blocks) /\
                   m = finish ve pe blocks)].
    + intros m h (pe & Hpe & blocks & Hb & ->). exists pe, blocks. auto.
    + apply builds_Embedding.
    + intros pe. cbn zeta.
      eapply builds_impl; [|apply builds_bind with
          (Q1 := fun ms h => length ms = length (seq 0 (MiniGPT.num_layers config)) /\
                   Forall (fun b => EncoderBlock_shaped D NH (EncoderBlock.read h b)) ms)
          (Q2 := fun blocks m _ => m = finish ve pe blocks)].
      * intros m h (blocks & (Hlen & Hb) & ->).
        exists blocks. rewrite List.length_seq in Hlen. auto.
      * apply builds_mapM. intros _. apply builds_EncoderBlock. exact Hpos.
      * intros blocks. apply builds_ret.
Qed.

Lemma Encoder_embed_stage (config : MiniGPT.Config F) (m : Encoder.t F (Tensor F))
    (x : Tokens) :
  Encoder_shaped config m ->
  tokens_in_range (MiniGPT.vocab_size config) x = true ->
  exists e table,
    Embedding.forward (Encoder.vocab_embedding m) x = Ok e /\
    shape e = (batch_of x, seq_len_of x, MiniGPT.embed_dim config) /\
    Embedding.forward (Encoder.positional_embedding m) (Tok1 (Encoder.pos m)) = Ok table /\
    shape (slice_rows table (d1 e))
    = (1, Nat.min (seq_len_of x) (MiniGPT.context_length config),
       MiniGPT.embed_dim config).
Proof.
  intros (Hv & Hp & Hpos & _) Hx.
  destruct (shape_dims _ (mkT _ _ _ (el (Embedding.weight (Encoder.vocab_embedding m)))) Hv)
    as (_ & Hv1 & Hv2).
  destruct (shape_dims _ (mkT _ _ _ (el (Embedding.weight (Encoder.positional_embedding m))))
              Hp) as (_ & Hp1 & Hp2).
  cbn [d1 d2] in Hv1, Hv2, Hp1, Hp2.
  destruct (embedding_shape x (Embedding.weight (Encoder.vocab_embedding m)))
    as (e & He & Hse).
  { rewrite Hv1. exact Hx. }
  destruct (embedding_arange (MiniGPT.context_length config)
              (Embedding.weight (Encoder.positional_embedding m)) Hp1)
    as (table & Ht & Hst).
  exists e, table. unfold Embedding.forward. rewrite Hpos.
  split; [exact He|]. split.
  { rewrite Hse, Hv2. reflexivity. }
  split; [exact Ht|].
  destruct (shape_dims _ (mkT _ _ _ (el e)) Hse) as (_ & He1 & _).
  destruct (shape_dims _ (mkT _ _ _ (el table)) Hst) as (Ht0 & Ht1 & Ht2).
  cbn [d0 d1 d2] in He1, Ht0, Ht1, Ht2.
  unfold shape. cbn [slice_rows d0 d1 d2]. rewrite Ht0, Ht1, Ht2, He1, Hp2.
  reflexivity.
Qed.

(** X20.  When [num_heads] divides [embed_dim], the forward pass of a
    constructed [Encoder] returns, on every input of valid tokens of at
    most [context_length] and at most 512 tokens, hidden states of shape
    [(batch, seq_len, embed_dim)]; a rank-one input is taken as it is and
    gives one row per token. *)
Theorem encoder_forward_shape (config : MiniGPT.Config F) (w : World F) :
  heads_fit (MiniGPT.embed_dim config) (MiniGPT.cfg_num_heads config) ->
  exists m w',
    Encoder.__init__ config w = Ok (m, w') /\
    forall h, same_shapes (next w) (next w') h (heap w') ->
    forall x w2,
      tokens_in_range (MiniGPT.vocab_size config) x = true ->
      seq_len_of x <= MiniGPT.context_length config ->
      seq_len_of x <= 512 ->
      exists out w3,
        Encoder.forward (Encoder.read h m) x w2 = Ok (out, w3) /\
        shape out = (batch_of x, seq_len_of x, MiniGPT.embed_dim config).
Proof.
  intros Hfit.
  destruct (builds_Encoder config (proj1 Hfit) w) as (m & w' & Hinit & _ & Hest).
  exists m, w'. split; [exact Hinit|].
  intros h Hh x w2 Hx Hctx Hmax. specialize (Hest h Hh).
  destruct (Encoder_embed_stage config _ x Hest Hx) as (e & table & He & Hse & Ht & Hsp).
  destruct Hest as (_ & _ & _ & _ & Hblocks).
  destruct (tadd_positional e (slice_rows table (d1 e)) _ _ _ _ Hse Hsp) as (s & Hs & Hss).
  { lia. }
  destruct (Dropout_forward_spec (Encoder.embed_dropout (Encoder.read h m)) s w2)
    as (dr & w3 & Hdr & Hsdr & _).
  rewrite Hss in Hsdr.
  destruct (shape_dims _ (mkT _ _ _ (el dr)) Hsdr) as (Hd0 & Hd1 & Hd2).
  cbn [d0 d1 d2] in Hd0, Hd1, Hd2.
  destruct (EncoderBlocks_forward_shape _ _ (Encoder.encoder_blocks (Encoder.read h m))
              dr w3 Hblocks Hfit Hd2) as (out & w4 & Hout & Hso).
  { unfold SingleHeadAttention.default_max_len. lia. }
  exists out, w4. split.
  - unfold Encoder.forward. rewrite He. run_monad. rewrite Ht. run_monad.
    rewrite Hs. run_monad. rewrite Hdr. run_monad. rewrite Hout. run_monad. reflexivity.
  - rewrite Hso. exact Hsdr.
Qed.

(** X21.  The [Encoder] adds the first [seq_len] rows of a positional
    table of [context_length] rows: on an input longer than
    [context_length] its forward pass fails, provided that
    [context_length] is not 1 and the input is not a single token, with the
    broadcast error of the addition when the tokens are valid and with
    [IndexError] at the embedding lookup otherwise. *)
Theorem encoder_rejects_long_sequences (config : MiniGPT.Config F) (w : World F) :
  0 < MiniGPT.cfg_num_heads config ->
  exists m w',
    Encoder.__init__ config w = Ok (m, w') /\
    forall h, same_shapes (next w) (next w') h (heap w') ->
    forall x w2,
      MiniGPT.context_length config < seq_len_of x ->
      MiniGPT.context_length config <> 1 -> seq_len_of x <> 1 ->
      Encoder.forward (Encoder.read h m) x w2
      = Err (if tokens_in_range (MiniGPT.vocab_size config) x
             then RuntimeError OpAdd else IndexError).
Proof.
  intros Hpos.
  destruct (builds_Encoder config Hpos w) as (m & w' & Hinit & _ & Hest).
  exists m, w'. split; [exact Hinit|].
  intros h Hh x w2 Hlong Hctx Hn. specialize (Hest h Hh).
  destruct (tokens_in_range (MiniGPT.vocab_size config) x) eqn:Hx.
  - destruct (Encoder_embed_stage config _ x Hest Hx) as (e & table & He & Hse & Ht & Hsp).
    unfold Encoder.forward. rewrite He. run_monad. rewrite Ht. run_monad.
    rewrite (tadd_positional_mismatch e (slice_rows table (d1 e)) _ _ _ _ Hse Hsp) by lia.
    reflexivity.
  - destruct Hest as (Hv & _).
    destruct (shape_dims _ (mkT _ _ _ (el (Embedding.weight
                (Encoder.vocab_embedding (Encoder.read h m))))) Hv) as (_ & Hv1 & _).
    cbn [d1] in Hv1.
    unfold Encoder.forward, Embedding.forward, embedding. rewrite Hv1, Hx. reflexivity.
Qed.

End ENCODER.

Section ENCODER_EXACT.
#[local] Existing Instance RealScalar.exact.
Context `{Random R}.
#[local] Open Scope R_scope.


End ENCODER_EXACT.

(** ** The forward pass after [model.eval()] *)

Section EVAL_MODE.
Context {F : Type} `{Scalar F} `{Random F}.

Lemma pure_lift {A : Type} (r : result A) : pure_run (lift r).
Proof. exists r. reflexivity. Qed.

Lemma pure_ret {A : Type} (a : A) : pure_run (mret a : M F A).
Proof. exists (Ok a). reflexivity. Qed.

Lemma pure_bind {A B : Type} (c : M F A) (f : A -> M F B) :
  pure_run c -> (forall a, pure_run (f a)) -> pure_run (c ≫= f).
Proof.
  intros (r & Hr) Hf. destruct r as [a|e].
  - destruct (Hf a) as (rb & Hrb). exists rb. intros w.
    rewrite bind_unfold, Hr. cbn [lift]. apply Hrb.
  - exists (Err e). intros w. rewrite bind_unfold, Hr. reflexivity.
Qed.

Lemma pure_mapM {A B : Type} (f : A -> M F B) (xs : list A) :
  (forall a, pure_run (f a)) -> pure_run (mapM f xs).
Proof.
  intros Hf. induction xs as [|a xs IH]; cbn [mapM]; [apply pure_ret|].
  apply pure_bind; [apply Hf|]. intros y.
  apply pure_bind; [exact IH|]. intros ys. apply pure_ret.
Qed.

Lemma pure_foldM {A B : Type} (f : B -> A -> M F A) (xs : list B) (a : A) :
  (forall b, In b xs -> forall a', pure_run (f b a')) -> pure_run (foldM f xs a).
Proof.
  revert a. induction xs as [|b xs IH]; intros a Hf; cbn [foldM]; [apply pure_ret|].
  apply pure_bind; [apply Hf; left; reflexivity|].
  intros a'. apply IH. intros b' Hb'. apply Hf. right. exact Hb'.
Qed.

Lemma pure_Dropout_eval (m : Dropout.t F) (x : Tensor F) :
  pure_run (Dropout.forward (Dropout.eval m) x).
Proof. unfold Dropout.forward. cbn [Dropout.eval Dropout.training]. apply pure_ret. Qed.

Lemma pure_SingleHeadAttention_eval (m : SingleHeadAttention.t F (Tensor F)) (x : Tensor F) :
  pure_run (SingleHeadAttention.forward (EvalMode.SingleHeadAttention m) x).
Proof.
  unfold SingleHeadAttention.forward.
  repeat (apply pure_bind;
          [first [apply pure_lift | apply pure_Dropout_eval]|intros ?; cbn zeta]).
  apply pure_lift.
Qed.

Lemma pure_MultiHeadAttention_eval (m : MultiHeadAttention.t F (Tensor F)) (x : Tensor F) :
  pure_run (MultiHeadAttention.forward (EvalMode.MultiHeadAttention m) x).
Proof.
  unfold MultiHeadAttention.forward.
  apply pure_bind.
  - apply pure_mapM. intros i. unfold MultiHeadAttention.get_head.
    cbn [EvalMode.MultiHeadAttention MultiHeadAttention.heads].
    rewrite List.nth_error_map.
    destruct (nth_error (MultiHeadAttention.heads m) i) as [head|]; cbn [option_map].
    + destruct (pure_SingleHeadAttention_eval head x) as (r & Hr).
      exists r. intros w. rewrite bind_unfold, ret_unfold. apply Hr.
    + exists (Err AttributeError). reflexivity.
  - intros values.
    repeat (apply pure_bind; [apply pure_lift|intros ?]). apply pure_Dropout_eval.
Qed.

Lemma pure_FeedForwardLayer_eval (m : FeedForwardLayer.t F (Tensor F)) (x : Tensor F) :
  pure_run (FeedForwardLayer.forward (EvalMode.FeedForwardLayer m) x).
Proof.
  unfold FeedForwardLayer.forward.
  repeat (apply pure_bind; [apply pure_lift|intros ?; cbn zeta]). apply pure_Dropout_eval.
Qed.

Lemma pure_TransformerLayer_eval (m : TransformerLayer.t F (Tensor F)) (x : Tensor F) :
  pure_run (TransformerLayer.forward (EvalMode.TransformerLayer m) x).
Proof.
  unfold TransformerLayer.forward.
  repeat (apply pure_bind;
          [first [apply pure_lift | apply pure_MultiHeadAttention_eval
                 | apply pure_FeedForwardLayer_eval]|intros ?]).
  apply pure_ret.
Qed.

(** X23.  After [model.eval()] the forward pass of a [MiniGPT] is a
    function of the input alone: for every value of the parameters and
    every input it returns the same logits, or raises the same error,
    whatever the state of the random generator, which it leaves as it
    was. *)
Theorem eval_forward_draws_nothing (m : MiniGPT.t F (Tensor F)) (x : Tokens) :
  exists r : result (Tensor F),
    forall w, MiniGPT.forward (EvalMode.MiniGPT m) x w = lift r w.
Proof.
  unfold MiniGPT.forward. cbn zeta.
  apply pure_bind; [apply pure_lift|intros e].
  apply pure_bind; [apply pure_lift|intros table].
  apply pure_bind; [apply pure_lift|intros s].
  apply pure_bind; [apply pure_Dropout_eval|intros dr].
  apply pure_bind.
  - apply pure_foldM. intros layer Hin a.
    cbn [EvalMode.MiniGPT MiniGPT.transformer_layers] in Hin.
    apply List.in_map_iff in Hin as (layer0 & <- & _).
    apply pure_TransformerLayer_eval.
  - intros l.
    apply pure_bind; [apply pure_lift|intros nrm].
    apply pure_bind; [apply pure_lift|intros logits]. apply pure_ret.
Qed.

End EVAL_MODE.

(** ** Attention weights, in exact arithmetic *)

Section ATTENTION_EXACT.
#[local] Existing Instance RealScalar.exact.
Context `{Random R}.
#[local] Open Scope R_scope.

Lemma sum_n_exp_pos (n : nat) (f : nat -> R) :
  (0 < n)%nat -> 0 < sum_n n (fun j => exp (f j)).
Proof.
  intros Hn.
  assert (Hnonneg : forall k, 0 <= sum_n k (fun j => exp (f j))).
  { intros k. induction k as [|k IHk];
      cbn [sum_n fadd fzero RealScalar.exact]; [lra|].
    pose proof (exp_pos (f k)). lra. }
  destruct n as [|n]; [lia|].
  cbn [sum_n fadd fzero RealScalar.exact].
  pose proof (Hnonneg n). pose proof (exp_pos (f n)). lra.
Qed.

Lemma attention_weights_sum_to_one (m : SingleHeadAttention.t R (Tensor R)) (x : Tensor R)
    (b i : nat) :
  (0 < d1 x)%nat -> sum_n (d1 x) (attention_weight m x b i) = 1.
Proof.
  intros Hn.
  pose proof (sum_n_exp_pos (d1 x) (masked_score m x b i) Hn) as Hpos.
  transitivity (sum_n (d1 x) (fun j => exp (masked_score m x b i j))
                * / sum_n (d1 x) (fun j => exp (masked_score m x b i j))).
  - rewrite <- sum_n_scale. apply sum_n_ext. intros j _. reflexivity.
  - apply Rinv_r. lra.
Qed.


End ATTENTION_EXACT.

(** ** More on the constructors and on sampling *)

Section DEFAULTS.
Context {F : Type} `{Scalar F} `{Random F}.

Lemma mapM_Forall {A B : Type} (f : A -> M F B) (P : B -> Prop) (xs : list A) :
  (forall a w b w', f a w = Ok (b, w') -> P b) ->
  forall w bs w', mapM f xs w = Ok (bs, w') -> Forall P bs /\ length bs = length xs.
Proof.
  intros Hf. induction xs as [|a xs IH]; intros w bs w' Hmap.
  - cbn [mapM] in Hmap. rewrite ret_unfold in Hmap. injection Hmap as <- <-.
    split; [constructor|reflexivity].
  - cbn [mapM] in Hmap.
    apply bind_ok in Hmap as (y & w1 & Hy & Hmap).
    apply bind_ok in Hmap as (ys & w2 & Hys & Hmap).
    rewrite ret_unfold in Hmap. injection Hmap as <- <-.
    destruct (IH _ _ _ Hys) as (Hall & Hlen).
    split; [constructor; [exact (Hf _ _ _ _ Hy)|exact Hall]|cbn [length]; lia].
Qed.

Lemma head_defaults (d width : nat) (w : World F) head w' :
  SingleHeadAttention.__init__ d (Some width) (Some width)
    SingleHeadAttention.default_dropout SingleHeadAttention.default_max_len w
  = Ok (head, w') ->
  SingleHeadAttention.dropout head = Dropout.mk (lit 1 (-1)) true /\
  SingleHeadAttention.causal_mask head = triu (ones2 512 512) 1.
Proof.
  intros Hinit.
  destruct (SingleHeadAttention_init_inv _ _ _ _ _ _ _ _ Hinit)
    as (key & w1 & query & w2 & value & _ & _ & _ & ->).
  split; reflexivity.
Qed.

(** X25.  The dropout probability handed to [MultiHeadAttention] reaches
    only the dropout after the output projection: each of the [num_heads]
    heads is built with the default probability [0.1] and the default
    causal mask of 512 rows, and starts in training mode. *)
Theorem heads_are_built_with_the_defaults (d num_heads : nat) (p : F) (w : World F) :
  0 < num_heads ->
  exists m w',
    MultiHeadAttention.__init__ d num_heads p w = Ok (m, w') /\
    Dropout.p (MultiHeadAttention.dropout m) = p /\
    length (MultiHeadAttention.heads m) = num_heads /\
    Forall (fun head =>
              SingleHeadAttention.dropout head = Dropout.mk (lit 1 (-1)) true /\
              SingleHeadAttention.causal_mask head = triu (ones2 512 512) 1)
           (MultiHeadAttention.heads m).
Proof.
  intros Hpos.
  destruct (MultiHeadAttention_init_total d num_heads p w Hpos) as (m & w' & Hinit).
  exists m, w'. split; [exact Hinit|].
  destruct (MultiHeadAttention_init_inv _ _ _ _ _ _ Hinit)
    as (_ & heads & w1 & out & Hheads & _ & ->).
  cbn [MultiHeadAttention.dropout MultiHeadAttention.heads Dropout.__init__ Dropout.p].
  split; [reflexivity|].
  destruct (mapM_Forall _ _ _ (fun _ => head_defaults d (d / num_heads)) _ _ _ Hheads)
    as (Hall & Hlen).
  rewrite List.length_seq in Hlen. split; [exact Hlen|exact Hall].
Qed.

(** X26.  [generate] always hands the model the last ten tokens of the
    stream: with a [context_length] of at least 2 and below ten, a context
    of valid tokens that is longer than [context_length] makes the first
    iteration fail with the broadcast error of the positional addition. *)
Theorem generate_window_exceeds_the_context (config : MiniGPT.Config F) (w : World F) :
  0 < MiniGPT.cfg_num_heads config ->
  exists m w',
    MiniGPT.__init__ config w = Ok (m, w') /\
    forall h, same_shapes (next w) (next w') h (heap w') ->
    forall context n w2,
      tokens_in_range (MiniGPT.vocab_size config) (Tok1 context) = true ->
      2 <= MiniGPT.context_length config ->
      MiniGPT.context_length config < Nat.min 10 (length context) ->
      MiniGPT.generate (MiniGPT.read h m) context (S n) w2 = Err (RuntimeError OpAdd).
Proof.
  intros Hheads.
  destruct (builds_MiniGPT config Hheads w) as (m & w' & Hinit & _ & Hest).
  exists m, w'. split; [exact Hinit|].
  intros h Hh context n w2 Hvalid Hctx Hlong. destruct (Hest h Hh) as (Hshaped & _).
  unfold MiniGPT.generate. cbn [MiniGPT.generate_loop].
  rewrite bind_unfold. unfold MiniGPT.generate_step. rewrite bind_unfold.
  pose proof (last_n_length 10 context) as Hwin.
  rewrite (MiniGPT_forward_too_long config _ (Tok1 (MiniGPT.last_n 10 context)) w2 Hshaped).
  - reflexivity.
  - cbn [tokens_in_range] in *. unfold MiniGPT.last_n. apply forallb_skipn. exact Hvalid.
  - cbn [seq_len_of]. lia.
  - lia.
  - cbn [seq_len_of]. lia.
Qed.

End DEFAULTS.

(** ** The properties above on concrete configurations *)

Section MORE_EXAMPLES.
#[local] Existing Instance RealScalar.exact.
#[local] Existing Instance Counter.random.

Lemma attention_rejects_sequences_beyond_the_mask_witness :
  exists m w',
    SingleHeadAttention.__init__ 4 None None SingleHeadAttention.default_dropout 8
      Examples.fresh_world = Ok (m, w') /\
    forall h, same_shapes (next Examples.fresh_world) (next w') h (heap w') ->
    forall x w2, d2 x = 4 -> 8 < d1 x ->
      SingleHeadAttention.forward (SingleHeadAttention.read h m) x w2
      = Err (RuntimeError OpMaskedFill).
Proof.
  apply (attention_rejects_sequences_beyond_the_mask 4 None None
           SingleHeadAttention.default_dropout 8 Examples.fresh_world).
  lia.
Defined.

Lemma forward_rejects_sequences_beyond_the_mask_witness :
  exists m w',
    MiniGPT.__init__ (Examples.tiny_config 1024) Examples.fresh_world = Ok (m, w') /\
    forall h, same_shapes (next Examples.fresh_world) (next w') h (heap w') ->
    forall x w2,
      tokens_in_range (MiniGPT.vocab_size (Examples.tiny_config 1024)) x = true ->
      seq_len_of x <= MiniGPT.context_length (Examples.tiny_config 1024) ->
      512 < seq_len_of x ->
      MiniGPT.forward (MiniGPT.read h m) x w2 = Err (RuntimeError OpMaskedFill).
Proof.
  apply (forward_rejects_sequences_beyond_the_mask (Examples.tiny_config 1024)
           Examples.fresh_world); cbn; lia.
Defined.

Lemma forward_logits_shape_witness :
  exists m w',
    MiniGPT.__init__ (Examples.tiny_config 16) Examples.fresh_world = Ok (m, w') /\
    forall h, same_shapes (next Examples.fresh_world) (next w') h (heap w') ->
    forall x w2,
      tokens_in_range (MiniGPT.vocab_size (Examples.tiny_config 16)) x = true ->
      seq_len_of x <= MiniGPT.context_length (Examples.tiny_config 16) ->
      seq_len_of x <= 512 ->
      exists logits w3,
        MiniGPT.forward (MiniGPT.read h m) x w2 = Ok (logits, w3) /\
        shape logits
        = (batch_of x, seq_len_of x, MiniGPT.vocab_size (Examples.tiny_config 16)).
Proof.
  apply (forward_logits_shape (Examples.tiny_config 16) Examples.fresh_world).
  split; [cbn; lia|reflexivity].
Defined.

Lemma feedforward_size_is_ignored_witness :
  exists m w',
    MiniGPT.__init__ Samples.wide_config Examples.fresh_world = Ok (m, w') /\
    length (MiniGPT.transformer_layers m) = MiniGPT.num_layers Samples.wide_config /\
    forall h, same_shapes (next Examples.fresh_world) (next w') h (heap w') ->
    forall layer, In layer (MiniGPT.transformer_layers (MiniGPT.read h m)) ->
      let fc1 := Linear.weight (FeedForwardLayer.fc1 (TransformerLayer.feedforward layer)) in
      let fc2 := Linear.weight (FeedForwardLayer.fc2 (TransformerLayer.feedforward layer)) in
      d1 fc1 = MiniGPT.embed_dim Samples.wide_config * 4 /\
      d2 fc1 = MiniGPT.embed_dim Samples.wide_config /\
      d1 fc2 = MiniGPT.embed_dim Samples.wide_config /\
      d2 fc2 = MiniGPT.embed_dim Samples.wide_config * 4.
Proof.
  apply (feedforward_size_is_ignored Samples.wide_config Examples.fresh_world).
  cbn. lia.
Defined.

Lemma count_parameters_of_the_bigram_model_witness :
  exists m w',
    BigramLanguageModel.__init__ Samples.bigram_config Examples.fresh_world = Ok (m, w') /\
    forall h, same_shapes (next Examples.fresh_world) (next w') h (heap w') ->
      count_parameters Samples.all_trainable h m = 27%nat.
Proof.
  apply (count_parameters_of_the_bigram_model Samples.bigram_config Samples.all_trainable
           Examples.fresh_world).
  intros p. reflexivity.
Defined.

Lemma count_parameters_of_the_model_witness :
  (exists m w',
     MiniGPT.__init__ (Examples.tiny_config 16) Examples.fresh_world = Ok (m, w') /\
     forall h, same_shapes (next Examples.fresh_world) (next w') h (heap w') ->
       count_parameters Samples.all_trainable h m = 551%nat) /\
  (exists m w',
     MiniGPT.__init__ (Samples.untied_config 16) Examples.fresh_world = Ok (m, w') /\
     forall h, same_shapes (next Examples.fresh_world) (next w') h (heap w') ->
       count_parameters Samples.all_trainable h m = 563%nat).
Proof.
  split.
  - apply (count_parameters_of_the_model (Examples.tiny_config 16) Samples.all_trainable
             Examples.fresh_world); [cbn; lia|intros p; reflexivity].
  - apply (count_parameters_of_the_model (Samples.untied_config 16) Samples.all_trainable
             Examples.fresh_world); [cbn; lia|intros p; reflexivity].
Defined.


Lemma untied_head_is_independent_witness :
  exists m w',
    MiniGPT.__init__ (Samples.untied_config 16) Examples.fresh_world = Ok (m, w') /\
    Linear.weight (MiniGPT.head m) <> Embedding.weight (MiniGPT.vocab_embedding m) /\
    forall v, exists w2,
      fill_ (Linear.weight (MiniGPT.head m)) v w' = Ok (tt, w2) /\
      load (heap w2) (Embedding.weight (MiniGPT.vocab_embedding m))
      = load (heap w') (Embedding.weight (MiniGPT.vocab_embedding m)).
Proof.
  apply (untied_head_is_independent (Samples.untied_config 16) Examples.fresh_world).
  - reflexivity.
  - cbn. lia.
Defined.

Lemma head_bias_starts_at_zero_witness :
  exists m w' bias,
    MiniGPT.__init__ (Examples.tiny_config 16) Examples.fresh_world = Ok (m, w') /\
    Linear.bias (MiniGPT.head m) = Some bias /\
    shape (load (heap w') bias) = (1, 1, MiniGPT.vocab_size (Examples.tiny_config 16)) /\
    forall i j k, el (load (heap w') bias) i j k = fzero.
Proof.
  apply (head_bias_starts_at_zero (Examples.tiny_config 16) Examples.fresh_world).
  cbn. lia.
Defined.

Lemma encoder_block_keeps_the_shape_witness :
  exists m w',
    EncoderBlock.__init__ 4 2 None Examples.fresh_world = Ok (m, w') /\
    forall h, same_shapes (next Examples.fresh_world) (next w') h (heap w') ->
    forall x w2, d2 x = 4 -> d1 x <= 512 ->
      exists y w3,
        EncoderBlock.forward (EncoderBlock.read h m) x w2 = Ok (y, w3) /\
        shape y = shape x.
Proof.
  apply (encoder_block_keeps_the_shape 4 2 None Examples.fresh_world).
  split; [lia|reflexivity].
Defined.


Lemma encoder_forward_shape_witness :
  exists m w',
    Encoder.__init__ (Examples.tiny_config 16) Examples.fresh_world = Ok (m, w') /\
    forall h, same_shapes (next Examples.fresh_world) (next w') h (heap w') ->
    forall x w2,
      tokens_in_range (MiniGPT.vocab_size (Examples.tiny_config 16)) x = true ->
      seq_len_of x <= MiniGPT.context_length (Examples.tiny_config 16) ->
      seq_len_of x <= 512 ->
      exists out w3,
        Encoder.forward (Encoder.read h m) x w2 = Ok (out, w3) /\
        shape out = (batch_of x, seq_len_of x, MiniGPT.embed_dim (Examples.tiny_config 16)).
Proof.
  apply (encoder_forward_shape (Examples.tiny_config 16) Examples.fresh_world).
  split; [cbn; lia|reflexivity].
Defined.

Lemma encoder_rejects_long_sequences_witness :
  exists m w',
    Encoder.__init__ (Examples.tiny_config 4) Examples.fresh_world = Ok (m, w') /\
    forall h, same_shapes (next Examples.fresh_world) (next w') h (heap w') ->
    forall x w2,
      MiniGPT.context_length (Examples.tiny_config 4) < seq_len_of x ->
      MiniGPT.context_length (Examples.tiny_config 4) <> 1 -> seq_len_of x <> 1 ->
      Encoder.forward (Encoder.read h m) x w2
      = Err (if tokens_in_range (MiniGPT.vocab_size (Examples.tiny_config 4)) x
             then RuntimeError OpAdd else IndexError).
Proof.
  apply (encoder_rejects_long_sequences (Examples.tiny_config 4) Examples.fresh_world).
  cbn. lia.
Defined.

Lemma heads_are_built_with_the_defaults_witness :
  exists m w',
    MultiHeadAttention.__init__ 4 2 (lit 5 (-1)) Examples.fresh_world = Ok (m, w') /\
    Dropout.p (MultiHeadAttention.dropout m) = lit 5 (-1) /\
    length (MultiHeadAttention.heads m) = 2 /\
    Forall (fun head =>
              SingleHeadAttention.dropout head = Dropout.mk (lit 1 (-1)) true /\
              SingleHeadAttention.causal_mask head = triu (ones2 512 512) 1)
           (MultiHeadAttention.heads m).
Proof.
  apply (heads_are_built_with_the_defaults 4 2 (lit 5 (-1)) Examples.fresh_world).
  lia.
Defined.

Lemma generate_window_exceeds_the_context_witness :
  exists m w',
    MiniGPT.__init__ (Examples.tiny_config 4) Examples.fresh_world = Ok (m, w') /\
    forall h, same_shapes (next Examples.fresh_world) (next w') h (heap w') ->
    forall context n w2,
      tokens_in_range (MiniGPT.vocab_size (Examples.tiny_config 4)) (Tok1 context) = true ->
      2 <= MiniGPT.context_length (Examples.tiny_config 4) ->
      MiniGPT.context_length (Examples.tiny_config 4) < Nat.min 10 (length context) ->
      MiniGPT.generate (MiniGPT.read h m) context (S n) w2 = Err (RuntimeError OpAdd).
Proof.
  apply (generate_window_exceeds_the_context (Examples.tiny_config 4) Examples.fresh_world).
  cbn. lia.
Defined.

End MORE_EXAMPLES.
